(** * LearnPulse Pro: QR attendance sessions, manual override, export and
      role dispatch

    A shallow embedding of the attendance code of the repository:

    - the tables [sessions], [attendance], [class_enrollments] and [profiles]
      of the migration (src/unnamed/part_000), with the constraints and the
      row-level policies the operations below run into;
    - [startSession] and [stopSession] of TeacherDashboard.tsx;
    - [fetchTodaySessions] and [handleQRScan] of StudentDashboard.tsx;
    - [fetchAttendance], [toggleAttendance] and [exportAttendance] of
      AttendanceView.tsx;
    - [renderDashboard] of pages/Dashboard.tsx.

    Every call of the code that reads the clock ([new Date()], [Date.now()]),
    draws a random value ([Math.random()], [gen_random_uuid()]) or formats
    with the browser's locale takes that value as an argument here.
    Timestamps are milliseconds since the epoch, times of day are seconds.
    A call to the store fails only on a constraint or a policy of the
    schema; a lost connection is not modelled.
    Columns that no operation of the repository reads or writes (location,
    latitude, longitude, notes, created_at) are left out of the rows; the
    [updated_at] of a session, which a trigger writes on every update, is
    kept.  Where a query leaves the order of its rows to the database, the
    order is an argument as well. *)

From Stdlib Require Import String Ascii List ZArith Bool Lia.
From Stdlib Require Import Permutation Sorted DecimalString DecimalZ.
Import ListNotations.

Local Open Scope Z_scope.
Local Open Scope bool_scope.

(** ** Schema (src/unnamed/part_000) *)

Definition uuid := string.
Definition timestamp := Z.

Bind Scope string_scope with uuid.
Bind Scope Z_scope with timestamp.

Inductive user_role := student | teacher | admin | counselor.

Inductive attendance_method := qr | face | bluetooth | manual.

Definition user_role_label (r : user_role) : string :=
  match r with
  | student => "student"
  | teacher => "teacher"
  | admin => "admin"
  | counselor => "counselor"
  end.

Definition attendance_method_label (m : attendance_method) : string :=
  match m with
  | qr => "qr"
  | face => "face"
  | bluetooth => "bluetooth"
  | manual => "manual"
  end.

Record Profile := mkProfile {
  user_id : uuid;
  name : string;
  roll_number : option string;
  role : user_role
}.

Record Enrollment := mkEnrollment {
  enr_class_id : uuid;
  enr_student_id : uuid
}.

Record Session := mkSession {
  sess_id : uuid;
  class_id : uuid;
  teacher_id : uuid;
  session_date : string;
  start_time : Z;
  end_time : Z;
  qr_code : option string;
  qr_expires_at : option timestamp;
  is_active : bool;
  total_students : Z;
  present_count : Z;
  updated_at : option timestamp
}.

Record Attendance := mkAttendance {
  att_id : uuid;
  session_id : uuid;
  student_id : uuid;
  is_present : bool;
  method : option attendance_method;
  marked_at : option timestamp
}.

Record DB := mkDB {
  profiles : list Profile;
  class_enrollments : list Enrollment;
  sessions : list Session;
  attendance : list Attendance
}.

Definition with_sessions (db : DB) (l : list Session) : DB :=
  {| profiles := profiles db;
     class_enrollments := class_enrollments db;
     sessions := l;
     attendance := attendance db |}.

Definition with_attendance (db : DB) (l : list Attendance) : DB :=
  {| profiles := profiles db;
     class_enrollments := class_enrollments db;
     sessions := sessions db;
     attendance := l |}.

(** ** The store: what a query of the client library does to a table

    Errors are the SQLSTATE classes the calls below can raise. *)

Inductive PgError :=
| unique_violation
| foreign_key_violation
| insufficient_privilege.

Inductive PgResult (A : Type) :=
| PgOk (a : A)
| PgErr (e : PgError).

Arguments PgOk {A} a.
Arguments PgErr {A} e.

(** Policy "Teachers can manage own sessions": [auth.uid() = teacher_id]. *)
Definition teacher_manages_session (uid : uuid) (s : Session) : bool :=
  String.eqb uid (teacher_id s).

(** [EXISTS (SELECT 1 FROM sessions WHERE id = session_id AND teacher_id = auth.uid())]. *)
Definition teaches_session (uid : uuid) (sid : uuid) (db : DB) : bool :=
  existsb (fun s => String.eqb (sess_id s) sid && String.eqb (teacher_id s) uid)
          (sessions db).

(** The attendance policies that let [uid] write a row: "Students can mark /
    update own attendance" ([auth.uid() = student_id]) or "Teachers can
    manage attendance for their sessions".  Policies are permissive: one
    that holds is enough. *)
Definition may_write_attendance (uid : uuid) (db : DB) (r : Attendance) : bool :=
  String.eqb uid (student_id r) || teaches_session uid (session_id r) db.

(** [EXISTS (SELECT 1 FROM class_enrollments WHERE class_id = c AND student_id = uid)]. *)
Definition enrolled (uid : uuid) (c : uuid) (db : DB) : bool :=
  existsb (fun e => String.eqb (enr_class_id e) c && String.eqb (enr_student_id e) uid)
          (class_enrollments db).

(** [update_updated_at_column()], which the trigger [update_sessions_updated_at]
    runs BEFORE UPDATE on each row of [sessions] that a statement updates:
    [NEW.updated_at = now()], where [db_now] is the [now()] of the database. *)
Definition update_updated_at_column (db_now : timestamp) (s : Session) : Session :=
  {| sess_id := sess_id s;
     class_id := class_id s;
     teacher_id := teacher_id s;
     session_date := session_date s;
     start_time := start_time s;
     end_time := end_time s;
     qr_code := qr_code s;
     qr_expires_at := qr_expires_at s;
     is_active := is_active s;
     total_students := total_students s;
     present_count := present_count s;
     updated_at := Some db_now |}.

(** [.update(patch).eq('id', sessionId)] on [sessions], run as [uid] at the
    database's time [db_now]: the rows the policy hides from [uid] are
    skipped without an error, and the trigger stamps each row that is
    updated, whether or not the patch changes it. *)
Definition sessions_update (uid : uuid) (patch : Session -> Session)
    (sessionId : uuid) (db_now : timestamp) (tbl : list Session) : list Session :=
  map (fun s => if String.eqb (sess_id s) sessionId && teacher_manages_session uid s
                then update_updated_at_column db_now (patch s) else s) tbl.

(** A SELECT without ORDER BY hands out its rows in an order of the
    database's choosing, which may differ from the order of insertion and
    from one query to the next; an ORDER BY leaves the order of rows with
    equal keys to the database in the same way.  A [RowOrder] is one such
    choice: a rearrangement of the rows found. *)
Record RowOrder (A : Type) := mkRowOrder {
  reorder : list A -> list A;
  reorder_perm : forall l, Permutation (reorder l) l
}.

Arguments reorder {A} r l.
Arguments reorder_perm {A} r l.

(** Two such choices: the rows as the table lists them, and the other way
    round. *)
Definition table_order {A : Type} : RowOrder A :=
  mkRowOrder A (fun l => l) (fun l => Permutation_refl l).

Definition reverse_order {A : Type} : RowOrder A :=
  mkRowOrder A (@rev A) (fun l => Permutation_sym (Permutation_rev l)).

(** ORDER BY start_time, as a stable insertion sort.  The database leaves
    the order of sessions that start at the same time open; here they come
    as the list has them, and no property below depends on it. *)
Fixpoint insert_by_start_time (s : Session) (l : list Session) : list Session :=
  match l with
  | [] => [s]
  | x :: r => if start_time s <=? start_time x then s :: l
              else x :: insert_by_start_time s r
  end.

Definition order_by_start_time (l : list Session) : list Session :=
  fold_right insert_by_start_time [] l.

Definition same_id (a b : Attendance) : bool :=
  String.eqb (att_id a) (att_id b).

Definition same_pair (a b : Attendance) : bool :=
  String.eqb (session_id a) (session_id b) && String.eqb (student_id a) (student_id b).

(** [.upsert(row)] on the table alone: [INSERT ... ON CONFLICT (id) DO UPDATE].
    Without an [onConflict] option the client library resolves conflicts on
    the primary key.  [row] is the payload with its [id] filled in by the
    column default [gen_random_uuid()].  A row with the same [id] is
    overwritten; a clash on UNIQUE(session_id, student_id), which is not the
    arbiter, aborts the statement. *)
Definition attendance_upsert (row : Attendance) (tbl : list Attendance)
    : PgResult (list Attendance) :=
  if existsb (same_id row) tbl then
    if existsb (fun r => negb (same_id row r) && same_pair row r) tbl
    then PgErr unique_violation
    else PgOk (map (fun r => if same_id row r then row else r) tbl)
  else if existsb (same_pair row) tbl
  then PgErr unique_violation
  else PgOk (tbl ++ [row]).

(** The upsert as the database runs it for [uid]: policies on the proposed
    row and on the row it would overwrite, then the foreign keys, then the
    table. *)
Definition db_attendance_upsert (uid : uuid) (row : Attendance) (db : DB)
    : PgResult DB :=
  if negb (may_write_attendance uid db row) then PgErr insufficient_privilege
  else if existsb (fun r => same_id row r && negb (may_write_attendance uid db r))
                  (attendance db)
  then PgErr insufficient_privilege
  else if negb (existsb (fun s => String.eqb (sess_id s) (session_id row)) (sessions db))
  then PgErr foreign_key_violation
  else if negb (existsb (fun p => String.eqb (user_id p) (student_id row)) (profiles db))
  then PgErr foreign_key_violation
  else match attendance_upsert row (attendance db) with
       | PgOk tbl => PgOk (with_attendance db tbl)
       | PgErr e => PgErr e
       end.

(** [.update(patch).eq('id', recordId)] on [attendance], run as [uid]. *)
Definition attendance_update (uid : uuid) (patch : Attendance -> Attendance)
    (recordId : uuid) (db : DB) : list Attendance :=
  map (fun r => if String.eqb (att_id r) recordId && may_write_attendance uid db r
                then patch r else r) (attendance db).

(** ** Toasts: what each handler reports *)

Inductive Toast :=
| Toast_SessionStarted
| Toast_SessionEnded
| Toast_InvalidQRCode
| Toast_AttendanceMarked
| Toast_FailedToMarkAttendance
| Toast_AttendanceUpdated.

(** ** TeacherDashboard.tsx *)

(** The object passed to [.update(...)] by [startSession].  [qrExpiresAt] is
    the instant of the [Date] after
    [qrExpiresAt.setMinutes(qrExpiresAt.getMinutes() + 30)]: the minutes are
    those of the browser's local time, so the instant lies 30 minutes after
    the call except across a change of the local clock, and it is taken as
    it comes. *)
Definition start_patch (qrCode : string) (qrExpiresAt : timestamp) (s : Session)
    : Session :=
  {| sess_id := sess_id s;
     class_id := class_id s;
     teacher_id := teacher_id s;
     session_date := session_date s;
     start_time := start_time s;
     end_time := end_time s;
     qr_code := Some qrCode;
     qr_expires_at := Some qrExpiresAt;
     is_active := true;
     total_students := total_students s;
     present_count := present_count s;
     updated_at := updated_at s |}.

(** The object passed to [.update(...)] by [stopSession]. *)
Definition stop_patch (s : Session) : Session :=
  {| sess_id := sess_id s;
     class_id := class_id s;
     teacher_id := teacher_id s;
     session_date := session_date s;
     start_time := start_time s;
     end_time := end_time s;
     qr_code := None;
     qr_expires_at := None;
     is_active := false;
     total_students := total_students s;
     present_count := present_count s;
     updated_at := updated_at s |}.

(** [qrCode] is the value of [generateQRCode()], a text built from the
    clock and a random suffix; [uid] is the signed-in user, whom the store
    knows as [auth.uid()]; [db_now] is the time of the database when it runs
    the update. *)
Definition startSession (uid : uuid) (sessionId : uuid) (qrCode : string)
    (qrExpiresAt : timestamp) (db_now : timestamp) (db : DB) : DB * Toast :=
  (with_sessions db
     (sessions_update uid (start_patch qrCode qrExpiresAt) sessionId db_now
        (sessions db)),
   Toast_SessionStarted).

Definition stopSession (uid : uuid) (sessionId : uuid) (db_now : timestamp) (db : DB)
    : DB * Toast :=
  (with_sessions db (sessions_update uid stop_patch sessionId db_now (sessions db)),
   Toast_SessionEnded).

(** ** StudentDashboard.tsx *)

(** The component's state: the signed-in profile and the [useState] cells. *)
Record StudentState := mkStudentState {
  profile_user_id : uuid;
  todaySessions : list Session;
  showQRScanner : bool
}.

(** Sessions of [today] for the classes [uid] is enrolled in, by start time. *)
Definition fetchTodaySessions (uid : uuid) (today : string) (db : DB) : list Session :=
  order_by_start_time
    (filter (fun s => String.eqb (session_date s) today && enrolled uid (class_id s) db)
            (sessions db)).

(** [s.qr_code === qrCode && s.is_active]. *)
Definition scan_matches (qrCode : string) (s : Session) : bool :=
  match qr_code s with
  | Some c => String.eqb c qrCode
  | None => false
  end && is_active s.

Definition handleQRScan (st : StudentState) (qrCode : string) (now : timestamp)
    (newid : uuid) (today : string) (db : DB) : DB * StudentState * Toast :=
  match find (scan_matches qrCode) (todaySessions st) with
  | None => (db, st, Toast_InvalidQRCode)
  | Some session =>
      match db_attendance_upsert (profile_user_id st)
              {| att_id := newid;
                 session_id := sess_id session;
                 student_id := profile_user_id st;
                 is_present := true;
                 method := Some qr;
                 marked_at := Some now |} db with
      | PgErr _ => (db, st, Toast_FailedToMarkAttendance)
      | PgOk db' =>
          (db',
           {| profile_user_id := profile_user_id st;
              todaySessions := fetchTodaySessions (profile_user_id st) today db';
              showQRScanner := false |},
           Toast_AttendanceMarked)
      end
  end.

(** ** AttendanceView.tsx *)

(** A row of [attendance] joined with [profiles:student_id (name, roll_number)]. *)
Record AttendanceRecord := mkAttendanceRecord {
  rec_id : uuid;
  rec_student_id : uuid;
  rec_is_present : bool;
  rec_method : option attendance_method;
  rec_marked_at : option timestamp;
  profiles_name : string;
  profiles_roll_number : option string
}.

(** The attendance policies that let [uid] read a row: "Students can view own
    attendance" or one of the two teacher policies. *)
Definition may_read_attendance (uid : uuid) (db : DB) (r : Attendance) : bool :=
  String.eqb uid (student_id r) || teaches_session uid (session_id r) db.

(** The embedded profile of a row.  The foreign key on [student_id] makes the
    profile exist, and "Users can view all profiles" makes it visible. *)
Definition join_profile (db : DB) (r : Attendance) : list AttendanceRecord :=
  match find (fun p => String.eqb (user_id p) (student_id r)) (profiles db) with
  | Some p =>
      [ {| rec_id := att_id r;
           rec_student_id := student_id r;
           rec_is_present := is_present r;
           rec_method := method r;
           rec_marked_at := marked_at r;
           profiles_name := name p;
           profiles_roll_number := roll_number p |} ]
  | None => []
  end.

(** [.select('*, profiles:student_id (name, roll_number)').eq('session_id', session.id)]:
    the query has no ORDER BY, so the rows come in the order [o] that the
    database chooses for them. *)
Definition fetchAttendance (o : RowOrder Attendance) (uid : uuid) (session : uuid)
    (db : DB) : list AttendanceRecord :=
  flat_map (join_profile db)
    (reorder o
       (filter (fun r => String.eqb (session_id r) session && may_read_attendance uid db r)
               (attendance db))).

(** The object passed to [.update(...)] by [toggleAttendance]. *)
Definition manual_patch (currentStatus : bool) (now : timestamp) (r : Attendance)
    : Attendance :=
  {| att_id := att_id r;
     session_id := session_id r;
     student_id := student_id r;
     is_present := negb currentStatus;
     method := Some manual;
     marked_at := Some now |}.

(** [o] is the order in which the refreshing [fetchAttendance()] gets its
    rows. *)
Definition toggleAttendance (o : RowOrder Attendance) (uid : uuid) (session : uuid)
    (recordId : uuid) (currentStatus : bool) (now : timestamp) (db : DB)
    : DB * list AttendanceRecord * Toast :=
  let db' :=
    with_attendance db
      (attendance_update uid (manual_patch currentStatus now) recordId db) in
  (db', fetchAttendance o uid session db', Toast_AttendanceUpdated).

Definition newline : string := String (ascii_of_nat 10) EmptyString.

Definition csv_header : list string :=
  ["Name"; "Roll Number"; "Status"; "Method"; "Marked At"]%string.

Section CsvExport.

(** [new Date(record.marked_at).toLocaleString()], which depends on the
    browser's locale and time zone. *)
Variable toLocaleString : timestamp -> string.

Definition csv_fields (record : AttendanceRecord) : list string :=
  [ profiles_name record;
    match profiles_roll_number record with Some r => r | None => ""%string end;
    if rec_is_present record then "Present"%string else "Absent"%string;
    match rec_method record with
    | Some m => attendance_method_label m
    | None => ""%string
    end;
    match rec_marked_at record with
    | Some t => toLocaleString t
    | None => ""%string
    end ].

Definition csv_lines (filteredRecords : list AttendanceRecord) : list string :=
  String.concat "," csv_header
    :: map (fun record => String.concat "," (csv_fields record)) filteredRecords.

(** [csvContent], the text handed to the download.  [filteredRecords] is the
    component's list of fetched records that pass the search box. *)
Definition exportAttendance (filteredRecords : list AttendanceRecord) : string :=
  String.concat newline (csv_lines filteredRecords).

End CsvExport.

(** Reading delimited text back, as a consumer of the file does:
    [text.split(sep)] for a one-character separator, and the test that a
    field holds no separator. *)
Fixpoint split_on (sep : ascii) (s : string) : list string :=
  match s with
  | EmptyString => [EmptyString]
  | String c rest =>
      if Ascii.eqb c sep then EmptyString :: split_on sep rest
      else match split_on sep rest with
           | [] => [String c EmptyString]
           | h :: t => String c h :: t
           end
  end.

Fixpoint free_of (sep : ascii) (s : string) : bool :=
  match s with
  | EmptyString => true
  | String c rest => negb (Ascii.eqb c sep) && free_of sep rest
  end.

Definition comma_char : ascii := ","%char.

Definition newline_char : ascii := ascii_of_nat 10.

Definition plain_field (f : string) : bool :=
  free_of comma_char f && free_of newline_char f.

(** ** pages/Dashboard.tsx *)

Inductive DashboardComponent :=
| StudentDashboard
| TeacherDashboard
| AdminDashboard.

(** [profile?.role]: the role's label, or nothing while there is no profile. *)
Definition profile_role_tag (profile : option Profile) : option string :=
  option_map (fun p => user_role_label (role p)) profile.

(** [switch (profile?.role)]: [None] is a missing profile or role.  The
    switch compares strings, so it is defined on every string, also on one
    that is no label of [user_role]. *)
Definition renderDashboard (profile_role : option string) : DashboardComponent :=
  match profile_role with
  | Some r =>
      if String.eqb r "student" then StudentDashboard
      else if String.eqb r "teacher" then TeacherDashboard
      else if String.eqb r "admin" then AdminDashboard
      else if String.eqb r "counselor" then AdminDashboard
      else StudentDashboard
  | None => StudentDashboard
  end.

(** ** The operations of the application as one transition system on the store *)

Inductive Action :=
| Do_startSession (uid sessionId : uuid) (qrCode : string) (qrExpiresAt : timestamp)
    (db_now : timestamp)
| Do_stopSession (uid sessionId : uuid) (db_now : timestamp)
| Do_fetchTodaySessions (uid : uuid) (today : string)
| Do_handleQRScan (st : StudentState) (qrCode : string) (now : timestamp)
    (newid : uuid) (today : string)
| Do_fetchAttendance (o : RowOrder Attendance) (uid session : uuid)
| Do_toggleAttendance (o : RowOrder Attendance) (uid session recordId : uuid)
    (currentStatus : bool) (now : timestamp)
| Do_exportAttendance (toLocaleString : timestamp -> string)
    (filteredRecords : list AttendanceRecord).

Definition step (a : Action) (db : DB) : DB :=
  match a with
  | Do_startSession uid sessionId qrCode qrExpiresAt db_now =>
      fst (startSession uid sessionId qrCode qrExpiresAt db_now db)
  | Do_stopSession uid sessionId db_now => fst (stopSession uid sessionId db_now db)
  | Do_fetchTodaySessions _ _ => db
  | Do_handleQRScan st qrCode now newid today =>
      fst (fst (handleQRScan st qrCode now newid today db))
  | Do_fetchAttendance _ _ _ => db
  | Do_toggleAttendance o uid session recordId currentStatus now =>
      fst (fst (toggleAttendance o uid session recordId currentStatus now db))
  | Do_exportAttendance _ _ => db
  end.

Definition run (l : list Action) (db : DB) : DB :=
  fold_left (fun d a => step a d) l db.

(** ** Invariants of the store *)

(** A session's code and its expiry are both present or both absent. *)
Definition token_expiry_consistent (s : Session) : bool :=
  match qr_code s, qr_expires_at s with
  | Some _, Some _ => true
  | None, None => true
  | _, _ => false
  end.

Definition db_token_expiry_consistent (db : DB) : bool :=
  forallb token_expiry_consistent (sessions db).

(** How one operation may change a session's code and expiry: leave both,
    set both, or clear both. *)
Definition token_expiry_moved_together (s s' : Session) : Prop :=
  (qr_code s' = qr_code s /\ qr_expires_at s' = qr_expires_at s)
  \/ (exists c e, qr_code s' = Some c /\ qr_expires_at s' = Some e)
  \/ (qr_code s' = None /\ qr_expires_at s' = None).

(** What a start of the session [sessionId] by [uid] does to a row [s] of
    the table, [s'] being the row afterwards: a row with that id that [uid]
    owns gets the code and the expiry, and is active; any other row is left
    as it is. *)
Definition row_started (uid sessionId : uuid) (qrCode : string)
    (qrExpiresAt : timestamp) (s s' : Session) : Prop :=
  (sess_id s = sessionId /\ teacher_id s = uid
   /\ qr_code s' = Some qrCode /\ qr_expires_at s' = Some qrExpiresAt
   /\ is_active s' = true)
  \/ ((sess_id s <> sessionId \/ teacher_id s <> uid) /\ s' = s).

(** The same for a stop: the owner's row with that id loses code and expiry
    and is inactive. *)
Definition row_stopped (uid sessionId : uuid) (s s' : Session) : Prop :=
  (sess_id s = sessionId /\ teacher_id s = uid
   /\ qr_code s' = None /\ qr_expires_at s' = None /\ is_active s' = false)
  \/ ((sess_id s <> sessionId \/ teacher_id s <> uid) /\ s' = s).

(** A row of [sessions] without the stamp of its last update. *)
Definition session_state (s : Session)
    : uuid * uuid * uuid * string * Z * Z * option string * option timestamp * bool
      * Z * Z :=
  (sess_id s, class_id s, teacher_id s, session_date s, start_time s, end_time s,
   qr_code s, qr_expires_at s, is_active s, total_students s, present_count s).

(** [id UUID PRIMARY KEY] on [sessions] and on [attendance]. *)
Definition sessions_pkey (db : DB) : Prop := NoDup (map sess_id (sessions db)).

Definition attendance_pkey (db : DB) : Prop := NoDup (map att_id (attendance db)).

(** [UNIQUE(session_id, student_id)] on [attendance]. *)
Definition attendance_unique (db : DB) : Prop :=
  NoDup (map (fun r => (session_id r, student_id r)) (attendance db)).

(** ** A classroom used by the examples

    One class [c1] taught by [t1], with students [sa] and [sb] enrolled; [sx]
    is a student of another class and [t2] another teacher.  One session of
    the class on 2024-01-15 from 09:00 to 10:00, not started. *)

Module Classroom.

Local Open Scope string_scope.

Definition today : string := "2024-01-15".

Definition s1 : Session :=
  {| sess_id := "s1"; class_id := "c1"; teacher_id := "t1";
     session_date := today; start_time := 32400; end_time := 36000;
     qr_code := None; qr_expires_at := None; is_active := false;
     total_students := 3; present_count := 0; updated_at := Some (-86400000) |}.

Definition db0 : DB :=
  {| profiles :=
       [ mkProfile "t1" "Tara" None teacher;
         mkProfile "t2" "Tom" None teacher;
         mkProfile "sa" "Asha" (Some "R-01") student;
         mkProfile "sb" "Bilal" (Some "R-02") student;
         mkProfile "sx" "Xena" None student ];
     class_enrollments := [ mkEnrollment "c1" "sa"; mkEnrollment "c1" "sb" ];
     sessions := [ s1 ];
     attendance := [] |}.

(** The teacher starts the session at time 0 with code [T1], which expires
    at 1 800 000. *)
Definition db1 : DB := fst (startSession "t1" "s1" "T1" 1800000 0 db0).

(** The row of the session in [db1]. *)
Definition s1_started : Session :=
  update_updated_at_column 0 (start_patch "T1" 1800000 s1).

(** Student [sa] opens the dashboard: the list is fetched once. *)
Definition sa1 : StudentState :=
  {| profile_user_id := "sa";
     todaySessions := fetchTodaySessions "sa" today db1;
     showQRScanner := true |}.

Definition sb1 : StudentState :=
  {| profile_user_id := "sb";
     todaySessions := fetchTodaySessions "sb" today db1;
     showQRScanner := true |}.

(** The teacher starts the session again at time 1000: code [T2]. *)
Definition db2 : DB := fst (startSession "t1" "s1" "T2" 1801000 1000 db1).

(** The teacher stops, at time 1500, the session that was started with [T1]. *)
Definition db1_stopped : DB := fst (stopSession "t1" "s1" 1500 db1).

(** The same day with a second session [s2] of the class, at 11:00, that
    is active with the code [T1] as well, while [s1] was restarted with [T2]. *)
Definition s2 : Session :=
  {| sess_id := "s2"; class_id := "c1"; teacher_id := "t1";
     session_date := today; start_time := 39600; end_time := 43200;
     qr_code := Some "T1"; qr_expires_at := Some 1800000; is_active := true;
     total_students := 3; present_count := 0; updated_at := Some 0 |}.

Definition db2_shared_code : DB := with_sessions db2 (sessions db2 ++ [s2]).

(** [sa] scans [T1] at time 100: the first redemption. *)
Definition scan_a1 : DB * StudentState * Toast :=
  handleQRScan sa1 "T1" 100 "a1" today db1.

(** [sa] scans [T1] again at time 200. *)
Definition scan_a2 : DB * StudentState * Toast :=
  handleQRScan (snd (fst scan_a1)) "T1" 200 "a2" today (fst (fst scan_a1)).

(** [sb] scans [T1] at time 300. *)
Definition scan_b1 : DB * StudentState * Toast :=
  handleQRScan sb1 "T1" 300 "a3" today (fst (fst scan_a2)).

Definition record_a1 : Attendance :=
  {| att_id := "a1"; session_id := "s1"; student_id := "sa";
     is_present := true; method := Some qr; marked_at := Some 100 |}.

Definition record_b1 : Attendance :=
  {| att_id := "a3"; session_id := "s1"; student_id := "sb";
     is_present := true; method := Some qr; marked_at := Some 300 |}.

End Classroom.

(** * The rest of the components *)

(** ** Ordered queries

    [.order(column)]: an ascending ORDER BY, as a stable insertion sort under
    a comparison [le]. *)

Fixpoint insert_by {A : Type} (le : A -> A -> bool) (x : A) (l : list A) : list A :=
  match l with
  | [] => [x]
  | y :: r => if le x y then x :: l else y :: insert_by le x r
  end.

Definition sort_by {A : Type} (le : A -> A -> bool) (l : list A) : list A :=
  fold_right (insert_by le) [] l.

Definition start_time_le (a b : Session) : bool := start_time a <=? start_time b.

(** Ascending order of a nullable column: NULLs come last. *)
Definition nulls_last_le (a b : option Z) : bool :=
  match a, b with
  | Some x, Some y => x <=? y
  | Some _, None => true
  | None, Some _ => false
  | None, None => true
  end.

(** ** TeacherDashboard.tsx, the rest *)

Module Teacher.

(** [fetchTodaySessions] of the teacher's dashboard:
    [.eq('teacher_id', profile.user_id).eq('session_date', today).order('start_time')]. *)
Definition fetchTodaySessions (uid : uuid) (today : string) (db : DB) : list Session :=
  order_by_start_time
    (filter (fun s => String.eqb (teacher_id s) uid && String.eqb (session_date s) today)
            (sessions db)).

End Teacher.

(** [`session-${Date.now()}-${Math.random().toString(36).substr(2, 9)}`]:
    [now] is [Date.now()], a whole number of milliseconds that prints as its
    decimal digits, and [random_suffix] the at most nine base-36 digits cut
    out of the random number. *)
Definition generateQRCode (now : timestamp) (random_suffix : string) : string :=
  ("session-" ++ NilZero.string_of_int (Z.to_int now) ++ "-" ++ random_suffix)%string.

(** The list of a student's dashboard with other expiry values in it. *)
Definition set_expiry (expiry : Session -> option timestamp) (s : Session) : Session :=
  {| sess_id := sess_id s;
     class_id := class_id s;
     teacher_id := teacher_id s;
     session_date := session_date s;
     start_time := start_time s;
     end_time := end_time s;
     qr_code := qr_code s;
     qr_expires_at := expiry s;
     is_active := is_active s;
     total_students := total_students s;
     present_count := present_count s;
     updated_at := updated_at s |}.

Definition with_expiries (expiry : Session -> option timestamp) (st : StudentState)
    : StudentState :=
  {| profile_user_id := profile_user_id st;
     todaySessions := map (set_expiry expiry) (todaySessions st);
     showQRScanner := showQRScanner st |}.

(** ** QRScanner.tsx

    A character of a [string] stands for a UTF-16 code unit below 256; among
    these the white space and line terminators that [trim] and the regular
    expression [\s] recognise are the following seven. *)

Definition is_white_space (c : ascii) : bool :=
  let n := nat_of_ascii c in
  (Nat.eqb n 9 || Nat.eqb n 10 || Nat.eqb n 11 || Nat.eqb n 12 || Nat.eqb n 13
   || Nat.eqb n 32 || Nat.eqb n 160).

Fixpoint trimStart (s : string) : string :=
  match s with
  | EmptyString => EmptyString
  | String c rest => if is_white_space c then trimStart rest else s
  end.

Fixpoint trimEnd (s : string) : string :=
  match s with
  | EmptyString => EmptyString
  | String c rest =>
      match trimEnd rest with
      | EmptyString => if is_white_space c then EmptyString else String c EmptyString
      | kept => String c kept
      end
  end.

(** [String.prototype.trim]. *)
Definition trim (s : string) : string := trimEnd (trimStart s).

(** A text of white space only, as an empty field or a field of blanks. *)
Fixpoint all_white_space (s : string) : bool :=
  match s with
  | EmptyString => true
  | String c rest => is_white_space c && all_white_space rest
  end.

Definition is_empty (s : string) : bool :=
  match s with
  | EmptyString => true
  | String _ _ => false
  end.

(** [handleManualSubmit]: the code handed to [onScan], if any, and the new
    content of the input field. *)
Definition handleManualSubmit (manualCode : string) : option string * string :=
  if is_empty (trim manualCode) then (None, manualCode)
  else (Some (trim manualCode), EmptyString).

(** The scanner mounted in the student's dashboard with [onScan={handleQRScan}]:
    a submit of the form, with what it leaves in the store, in the
    dashboard's state and in the input field, and the toast if one is shown. *)
Definition submitManualCode (st : StudentState) (manualCode : string)
    (now : timestamp) (newid : uuid) (today : string) (db : DB)
    : DB * StudentState * string * option Toast :=
  match handleManualSubmit manualCode with
  | (Some qrCode, field) =>
      let '(db', st', toast) := handleQRScan st qrCode now newid today db in
      (db', st', field, Some toast)
  | (None, field) => (db, st, field, None)
  end.

(** ** QRCodeDisplay.tsx *)

(** One cell of the picture: [(text.charCodeAt(i % text.length) + i) % 2 === 0].
    On the empty text the character code is NaN and the test fails. *)
Definition qr_cell (text : string) (i : nat) : bool :=
  match String.get (i mod String.length text) text with
  | Some c => Nat.even (nat_of_ascii c + i)
  | None => false
  end.

Definition generateVisualQR (text : string) : list bool :=
  map (qr_cell text) (seq 0 (12 * 12)).

(** Whether each character code of a text is even. *)
Definition parities (text : string) : list bool :=
  map (fun c => Nat.even (nat_of_ascii c)) (list_ascii_of_string text).

(** [s.replace(/\s+/g, '-')]: [in_run] tells that the character before was
    white space, already replaced. *)
Fixpoint replace_white_space_runs (in_run : bool) (s : string) : string :=
  match s with
  | EmptyString => EmptyString
  | String c rest =>
      if is_white_space c then
        if in_run then replace_white_space_runs true rest
        else String "-" (replace_white_space_runs true rest)
      else String c (replace_white_space_runs false rest)
  end.

Fixpoint no_white_space (s : string) : bool :=
  match s with
  | EmptyString => true
  | String c rest => negb (is_white_space c) && no_white_space rest
  end.

(** A text given by its words: [first], then for each pair of [rest] what
    [run] makes of the separator, followed by the word. *)
Fixpoint join_words (run : string -> string) (first : string)
    (rest : list (string * string)) : string :=
  match rest with
  | [] => first
  | (w, a) :: r => (first ++ run w ++ join_words run a r)%string
  end.

(** [downloadQR]: the name and the content of the downloaded file. *)
Definition downloadQR (toLocaleString : timestamp -> string) (now : timestamp)
    (sessionName qrCode : string) : string * string :=
  (("qr-code-" ++ replace_white_space_runs false sessionName ++ ".txt")%string,
   ("QR Code for: " ++ sessionName ++ newline ++ "Code: " ++ qrCode ++ newline
    ++ "Generated: " ++ toLocaleString now)%string).

(** ** AttendanceView.tsx, the rest *)

(** [s.includes(sub)]. *)
Fixpoint includes (s sub : string) : bool :=
  String.prefix sub s
  || match s with
     | EmptyString => false
     | String _ rest => includes rest sub
     end.

Section Search.

(** [String.prototype.toLowerCase], which follows the Unicode case tables. *)
Variable toLowerCase : string -> string.

Definition record_matches (searchTerm : string) (record : AttendanceRecord) : bool :=
  includes (toLowerCase (profiles_name record)) (toLowerCase searchTerm)
  || match profiles_roll_number record with
     | Some r => negb (is_empty r) && includes (toLowerCase r) (toLowerCase searchTerm)
     | None => false
     end.

Definition filteredRecords (attendanceRecords : list AttendanceRecord)
    (searchTerm : string) : list AttendanceRecord :=
  filter (record_matches searchTerm) attendanceRecords.

End Search.

Definition presentCount (filtered : list AttendanceRecord) : nat :=
  length (filter rec_is_present filtered).

Definition totalCount (filtered : list AttendanceRecord) : nat := length filtered.

(** ** StudentDashboard.tsx, the rest: activity suggestions *)

(** A row of [activity_suggestions]; the embedded activity is only shown. *)
Record ActivitySuggestion := mkActivitySuggestion {
  sug_id : uuid;
  sug_student_id : uuid;
  activity_id : uuid;
  suggested_for_date : string;
  free_period_start : option Z;
  free_period_end : option Z;
  completed : option bool;
  completed_at : option timestamp
}.

Definition free_period_le (a b : ActivitySuggestion) : bool :=
  nulls_last_le (free_period_start a) (free_period_start b).

Definition is_open_suggestion (uid : uuid) (today : string) (r : ActivitySuggestion)
    : bool :=
  String.eqb (sug_student_id r) uid
  && String.eqb (suggested_for_date r) today
  && match completed r with
     | Some false => true
     | _ => false
     end.

(** [.eq('student_id', uid).eq('suggested_for_date', today).eq('completed', false)
    .order('free_period_start')]: the rows found, in the order [o] the
    database comes across them, are sorted by their start; rows with the
    same start, or with none, stay in the order [o]. *)
Definition fetchActivitySuggestions (o : RowOrder ActivitySuggestion) (uid : uuid)
    (today : string) (tbl : list ActivitySuggestion) : list ActivitySuggestion :=
  sort_by free_period_le (reorder o (filter (is_open_suggestion uid today) tbl)).

Definition complete_patch (now : timestamp) (r : ActivitySuggestion)
    : ActivitySuggestion :=
  {| sug_id := sug_id r;
     sug_student_id := sug_student_id r;
     activity_id := activity_id r;
     suggested_for_date := suggested_for_date r;
     free_period_start := free_period_start r;
     free_period_end := free_period_end r;
     completed := Some true;
     completed_at := Some now |}.

(** [.update({completed: true, completed_at}).eq('id', suggestionId)] run as
    [uid] under "Students can manage own suggestions". *)
Definition suggestions_update (uid : uuid) (now : timestamp) (suggestionId : uuid)
    (tbl : list ActivitySuggestion) : list ActivitySuggestion :=
  map (fun r => if String.eqb (sug_id r) suggestionId && String.eqb uid (sug_student_id r)
                then complete_patch now r else r) tbl.

Inductive ActivityToast :=
| Toast_ActivityCompleted.

(** [markActivityCompleted]: the table, the component's [suggestions] and the
    toast. *)
Definition markActivityCompleted (uid : uuid) (suggestionId : uuid) (now : timestamp)
    (suggestions : list ActivitySuggestion) (tbl : list ActivitySuggestion)
    : list ActivitySuggestion * list ActivitySuggestion * ActivityToast :=
  (suggestions_update uid now suggestionId tbl,
   filter (fun s => negb (String.eqb (sug_id s) suggestionId)) suggestions,
   Toast_ActivityCompleted).

(** ** AdminDashboard.tsx *)

Record Class := mkClass {
  cls_id : uuid;
  cls_name : string;
  cls_subject : string;
  cls_teacher_id : option uuid;
  cls_room_number : option string
}.

Record DashboardStats := mkDashboardStats {
  totalStudents : nat;
  totalTeachers : nat;
  totalClasses : nat;
  todayAttendance : nat
}.

Definition has_role (r : user_role) (p : Profile) : bool :=
  String.eqb (user_role_label (role p)) (user_role_label r).

(** [.gte('marked_at', `${today}T00:00:00`).lt('marked_at', `${today}T23:59:59`)]:
    [day_start] is the instant the first text denotes for the database, and
    the second one lies 23 h 59 min 59 s later. *)
Definition marked_today (day_start : timestamp) (r : Attendance) : bool :=
  match marked_at r with
  | Some t => (day_start <=? t) && (t <? day_start + 86399000)
  | None => false
  end.

(** [fetchDashboardData] run by [uid]: profiles and classes are readable by
    everyone, attendance rows only under the attendance policies. *)
Definition fetchDashboardData (uid : uuid) (day_start : timestamp)
    (classes : list Class) (db : DB) : DashboardStats :=
  {| totalStudents := length (filter (has_role student) (profiles db));
     totalTeachers := length (filter (has_role teacher) (profiles db));
     totalClasses := length classes;
     todayAttendance :=
       length (filter (fun r => may_read_attendance uid db r && is_present r
                                && marked_today day_start r)
                      (attendance db)) |}.

(** ** The sign-up trigger (src/unnamed/part_000) *)

(** The cast [text::public.user_role]: defined on the four labels only. *)
Definition user_role_of_label (s : string) : option user_role :=
  if String.eqb s "student" then Some student
  else if String.eqb s "teacher" then Some teacher
  else if String.eqb s "admin" then Some admin
  else if String.eqb s "counselor" then Some counselor
  else None.

Inductive SignupError :=
| invalid_role_text
| duplicate_user_id.

(** [handle_new_user()], run after a row of [auth.users] is inserted:
    [meta_name] and [meta_role] are [raw_user_meta_data->>'name'] and
    [->>'role'], absent when the key is missing.  The account has an e-mail
    address, and the trigger is taken to run with the right to insert into
    [profiles]. *)
Definition handle_new_user (new_id : uuid) (new_email : string)
    (meta_name meta_role : option string) (tbl : list Profile)
    : list Profile + SignupError :=
  match match meta_role with
        | Some t => user_role_of_label t
        | None => Some student
        end with
  | None => inr invalid_role_text
  | Some r =>
      if existsb (fun p => String.eqb (user_id p) new_id) tbl
      then inr duplicate_user_id
      else inl (tbl ++ [ {| user_id := new_id;
                            name := match meta_name with
                                    | Some n => n
                                    | None => new_email
                                    end;
                            roll_number := None;
                            role := r |} ])
  end.

(** ** More invariants of the store *)

Definition pair_of (r : Attendance) : uuid * uuid := (session_id r, student_id r).

(** The three constraints of the schema that the operations write under. *)
Definition constraints_hold (db : DB) : Prop :=
  sessions_pkey db /\ attendance_pkey db /\ attendance_unique db.

(** A session is active exactly when it carries a code. *)
Definition active_iff_code (s : Session) : bool :=
  Bool.eqb (is_active s) (match qr_code s with Some _ => true | None => false end).

Definition db_active_iff_code (db : DB) : bool :=
  forallb active_iff_code (sessions db).

(** * Properties *)

(** ** Lists, keys and the store's queries *)

Lemma find_none_of_all_false {A : Type} (f : A -> bool) (l : list A) :
  (forall x, In x l -> f x = false) -> find f l = None.
Proof.
  induction l as [|a l IH]; intros H; simpl.
  - reflexivity.
  - rewrite (H a (or_introl eq_refl)). apply IH. intros x Hx. apply H. now right.
Qed.

Lemma map_id_on {A : Type} (f : A -> A) (l : list A) :
  (forall x, In x l -> f x = x) -> map f l = l.
Proof.
  induction l as [|a l IH]; intros H; simpl.
  - reflexivity.
  - rewrite (H a (or_introl eq_refl)). f_equal. apply IH.
    intros x Hx. apply H. now right.
Qed.

Lemma key_injective {A K : Type} (key : A -> K) (l : list A) (x y : A) :
  NoDup (map key l) -> In x l -> In y l -> key x = key y -> x = y.
Proof.
  induction l as [|a l IH]; simpl; intros Hnd Hx Hy Hk.
  - contradiction.
  - inversion Hnd as [|k ks Hnotin Hnd']; subst.
    destruct Hx as [<-|Hx], Hy as [<-|Hy].
    + reflexivity.
    + exfalso. apply Hnotin. rewrite Hk. now apply in_map.
    + exfalso. apply Hnotin. rewrite <- Hk. now apply in_map.
    + now apply IH.
Qed.

Lemma In_insert_by_start_time (s x : Session) (l : list Session) :
  In x (insert_by_start_time s l) <-> x = s \/ In x l.
Proof.
  induction l as [|a l IH]; simpl.
  - intuition congruence.
  - destruct (start_time s <=? start_time a); simpl.
    + intuition congruence.
    + rewrite IH. intuition congruence.
Qed.

Lemma In_order_by_start_time (x : Session) (l : list Session) :
  In x (order_by_start_time l) <-> In x l.
Proof.
  unfold order_by_start_time. induction l as [|a l IH]; simpl.
  - tauto.
  - rewrite In_insert_by_start_time, IH. intuition congruence.
Qed.

Lemma In_fetchTodaySessions (uid : uuid) (today : string) (db : DB) (s : Session) :
  In s (fetchTodaySessions uid today db) -> In s (sessions db).
Proof.
  unfold fetchTodaySessions. rewrite In_order_by_start_time, filter_In. tauto.
Qed.

Lemma with_attendance_same (db : DB) : with_attendance db (attendance db) = db.
Proof. now destruct db. Qed.

Lemma with_sessions_same (db : DB) : with_sessions db (sessions db) = db.
Proof. now destruct db. Qed.

(** A row of [sessions] after an update: the patched image of a row the
    caller owns with the requested id, or an untouched row. *)
Lemma In_sessions_update (uid : uuid) (patch : Session -> Session)
    (sessionId : uuid) (db_now : timestamp) (tbl : list Session) (s' : Session) :
  In s' (sessions_update uid patch sessionId db_now tbl) ->
  exists s, In s tbl /\
    ((sess_id s = sessionId /\ teacher_id s = uid
      /\ s' = update_updated_at_column db_now (patch s))
     \/ ((sess_id s <> sessionId \/ teacher_id s <> uid) /\ s' = s)).
Proof.
  unfold sessions_update, teacher_manages_session. rewrite in_map_iff.
  intros [s [Hs' Hs]]. exists s. split; [assumption|].
  destruct (String.eqb_spec (sess_id s) sessionId) as [Hid|Hid];
    destruct (String.eqb_spec uid (teacher_id s)) as [Ht|Ht]; simpl in Hs';
    subst s'; auto 6.
Qed.

(** The upsert either fails or leaves the db with a new attendance table and
    nothing else changed. *)
Lemma db_attendance_upsert_ok (uid : uuid) (row : Attendance) (db db' : DB) :
  db_attendance_upsert uid row db = PgOk db' ->
  exists tbl, db' = with_attendance db tbl.
Proof.
  unfold db_attendance_upsert. intros H.
  repeat match type of H with
         | (if ?c then _ else _) = _ => destruct c; [discriminate|]
         end.
  destruct (attendance_upsert row (attendance db)) as [tbl|e]; [|discriminate].
  exists tbl. congruence.
Qed.

(** The three ways [handleQRScan] ends. *)
Lemma handleQRScan_cases (st : StudentState) (qrCode : string) (now : timestamp)
    (newid : uuid) (today : string) (db : DB) :
  (find (scan_matches qrCode) (todaySessions st) = None
   /\ handleQRScan st qrCode now newid today db = (db, st, Toast_InvalidQRCode))
  \/ (exists session, find (scan_matches qrCode) (todaySessions st) = Some session
      /\ handleQRScan st qrCode now newid today db = (db, st, Toast_FailedToMarkAttendance))
  \/ (exists session tbl st',
        find (scan_matches qrCode) (todaySessions st) = Some session
        /\ handleQRScan st qrCode now newid today db
           = (with_attendance db tbl, st', Toast_AttendanceMarked)).
Proof.
  unfold handleQRScan.
  destruct (find (scan_matches qrCode) (todaySessions st)) as [session|].
  - right.
    destruct (db_attendance_upsert _ _ db) as [db'|e] eqn:Hup.
    + right. destruct (db_attendance_upsert_ok _ _ _ _ Hup) as [tbl ->].
      eauto.
    + left. eauto.
  - left. split; reflexivity.
Qed.

Lemma step_sessions_scan (st : StudentState) (qrCode : string) (now : timestamp)
    (newid : uuid) (today : string) (db : DB) :
  sessions (fst (fst (handleQRScan st qrCode now newid today db))) = sessions db.
Proof.
  destruct (handleQRScan_cases st qrCode now newid today db)
    as [[_ ->]|[(s & _ & ->)|(s & tbl & st' & _ & ->)]]; reflexivity.
Qed.

(** ** Role dispatch *)

(** C9. Role dispatch is total: every role value, and so every profile,
    selects exactly one dashboard; 'student' selects the student dashboard,
    'teacher' the teacher dashboard, 'admin' and 'counselor' the admin
    dashboard, and any other or missing value falls back to the student
    dashboard. *)
Theorem C9_role_dispatch_total (profile_role : option string) :
  (exists! d, renderDashboard profile_role = d)
  /\ renderDashboard (Some (user_role_label student)) = StudentDashboard
  /\ renderDashboard (Some (user_role_label teacher)) = TeacherDashboard
  /\ renderDashboard (Some (user_role_label admin)) = AdminDashboard
  /\ renderDashboard (Some (user_role_label counselor)) = AdminDashboard
  /\ renderDashboard None = StudentDashboard
  /\ (forall profile : option Profile,
        renderDashboard (profile_role_tag profile)
        = match profile with
          | Some p =>
              match role p with
              | student => StudentDashboard
              | teacher => TeacherDashboard
              | admin | counselor => AdminDashboard
              end
          | None => StudentDashboard
          end)
  /\ ((forall u, profile_role <> Some (user_role_label u)) ->
      renderDashboard profile_role = StudentDashboard).
Proof.
  split.
  { exists (renderDashboard profile_role). split; [reflexivity|]. now intros d <-. }
  repeat (split; [reflexivity|]).
  split.
  { intros [p|]; [|reflexivity]. simpl. now destruct (role p). }
  intros Hother. destruct profile_role as [r|]; [|reflexivity].
  unfold renderDashboard.
  destruct (String.eqb_spec r "student") as [->|_]; [reflexivity|].
  destruct (String.eqb_spec r "teacher") as [->|_].
  { now destruct (Hother teacher). }
  destruct (String.eqb_spec r "admin") as [->|_].
  { now destruct (Hother admin). }
  destruct (String.eqb_spec r "counselor") as [->|_].
  { now destruct (Hother counselor). }
  reflexivity.
Qed.

Lemma C9_role_dispatch_witness :
  renderDashboard (Some "principal"%string) = StudentDashboard.
Proof.
  apply (C9_role_dispatch_total (Some "principal"%string)).
  intros u; destruct u; discriminate.
Defined.

(** ** Scanning a code *)

(** C10. A scanned code that matches no session that is both in the
    student's fetched list and active is rejected: the handler reports
    "Invalid QR Code" and leaves the store and the component as they were.
    More generally the attendance table changes only when the scan is
    reported as marked. *)
Theorem C10_unmatched_scan_changes_nothing (st : StudentState) (qrCode : string)
    (now : timestamp) (newid : uuid) (today : string) (db : DB) :
  (forall s, In s (todaySessions st) -> qr_code s = Some qrCode -> is_active s = false) ->
  handleQRScan st qrCode now newid today db = (db, st, Toast_InvalidQRCode)
  /\ forall st0 qrCode0 now0 newid0 today0 db0,
       snd (handleQRScan st0 qrCode0 now0 newid0 today0 db0) = Toast_AttendanceMarked
       \/ fst (fst (handleQRScan st0 qrCode0 now0 newid0 today0 db0)) = db0.
Proof.
  intros Hnone. split.
  - unfold handleQRScan. rewrite find_none_of_all_false; [reflexivity|].
    intros s Hs. unfold scan_matches.
    destruct (qr_code s) as [c|] eqn:Hc; [|reflexivity].
    destruct (String.eqb_spec c qrCode) as [->|_]; [|reflexivity].
    simpl. now apply Hnone.
  - intros st0 qrCode0 now0 newid0 today0 db0.
    destruct (handleQRScan_cases st0 qrCode0 now0 newid0 today0 db0)
      as [[_ ->]|[(s & _ & ->)|(s & tbl & st' & _ & ->)]]; simpl; auto.
Qed.

Lemma C10_unmatched_scan_witness :
  handleQRScan Classroom.sa1 "WRONG" 100 "a1" Classroom.today Classroom.db1
  = (Classroom.db1, Classroom.sa1, Toast_InvalidQRCode).
Proof.
  apply (C10_unmatched_scan_changes_nothing
           Classroom.sa1 "WRONG" 100 "a1" Classroom.today Classroom.db1).
  simpl. intros s [<-|[]] H. discriminate H.
Defined.

(** ** Starting and stopping a session *)

Lemma Forall2_map_pointwise {A : Type} (R : A -> A -> Prop) (f : A -> A) (l : list A) :
  (forall x, R x (f x)) -> Forall2 R l (map f l).
Proof.
  intros H. induction l as [|a l IH]; simpl; constructor; auto.
Qed.

Lemma token_expiry_moved_refl (s : Session) : token_expiry_moved_together s s.
Proof. left. split; reflexivity. Qed.

Lemma sessions_update_moves_together (uid : uuid) (patch : Session -> Session)
    (sessionId : uuid) (db_now : timestamp) (tbl : list Session) :
  (forall s, token_expiry_moved_together s (patch s)) ->
  Forall2 token_expiry_moved_together tbl
    (sessions_update uid patch sessionId db_now tbl).
Proof.
  intros H. apply Forall2_map_pointwise. intros s.
  destruct (String.eqb (sess_id s) sessionId && teacher_manages_session uid s).
  - exact (H s).
  - apply token_expiry_moved_refl.
Qed.

Lemma sessions_update_consistent (uid : uuid) (patch : Session -> Session)
    (sessionId : uuid) (db_now : timestamp) (tbl : list Session) :
  (forall s, token_expiry_consistent (patch s) = true) ->
  forallb token_expiry_consistent tbl = true ->
  forallb token_expiry_consistent (sessions_update uid patch sessionId db_now tbl)
  = true.
Proof.
  intros Hp. rewrite !forallb_forall. intros H s' Hs'.
  destruct (In_sessions_update _ _ _ _ _ _ Hs') as (s & Hs & [(_ & _ & ->)|(_ & ->)]).
  - exact (Hp s).
  - now apply H.
Qed.

Lemma sessions_update_keeps_ids (uid : uuid) (patch : Session -> Session)
    (sessionId : uuid) (db_now : timestamp) (tbl : list Session) :
  (forall s, sess_id (patch s) = sess_id s) ->
  map sess_id (sessions_update uid patch sessionId db_now tbl) = map sess_id tbl.
Proof.
  intros H. unfold sessions_update. rewrite map_map. apply map_ext.
  intros s. destruct (_ && _); [exact (H s) | reflexivity].
Qed.

Lemma sessions_update_keeps_counts (uid : uuid) (patch : Session -> Session)
    (sessionId : uuid) (db_now : timestamp) (tbl : list Session) :
  (forall s, sess_id (patch s) = sess_id s /\ present_count (patch s) = present_count s) ->
  map (fun s => (sess_id s, present_count s))
      (sessions_update uid patch sessionId db_now tbl)
  = map (fun s => (sess_id s, present_count s)) tbl.
Proof.
  intros H. unfold sessions_update. rewrite map_map. apply map_ext.
  intros s. destruct (_ && _); [|reflexivity].
  cbn [sess_id present_count update_updated_at_column].
  destruct (H s) as [-> ->]. reflexivity.
Qed.

(** Under the primary key, an update by the owner of [s] turns [s] into its
    patched image and leaves every other row as it was. *)
Lemma sessions_update_rows (patch : Session -> Session) (db_now : timestamp)
    (tbl : list Session) (s s' : Session) :
  NoDup (map sess_id tbl) -> In s tbl ->
  In s' (sessions_update (teacher_id s) patch (sess_id s) db_now tbl) ->
  s' = update_updated_at_column db_now (patch s)
  \/ (In s' tbl /\ s' <> s /\ sess_id s' <> sess_id s).
Proof.
  intros Hpk Hs Hs'.
  destruct (In_sessions_update _ _ _ _ _ _ Hs') as (z & Hz & [(Hid & _ & ->)|(Hne & ->)]).
  - left. do 2 f_equal. exact (key_injective sess_id tbl z s Hpk Hz Hs Hid).
  - right. split; [assumption|].
    destruct (string_dec (sess_id z) (sess_id s)) as [Heq|Hneq].
    + pose proof (key_injective sess_id tbl z s Hpk Hz Hs Heq) as ->.
      destruct Hne as [Hne|Hne]; now destruct Hne.
    + split; [|assumption]. intros ->. now apply Hneq.
Qed.

Lemma sessions_update_own_row (patch : Session -> Session) (db_now : timestamp)
    (tbl : list Session) (s : Session) :
  In s tbl ->
  In (update_updated_at_column db_now (patch s))
     (sessions_update (teacher_id s) patch (sess_id s) db_now tbl).
Proof.
  intros Hs. unfold sessions_update, teacher_manages_session. apply in_map_iff.
  exists s. split; [|assumption]. now rewrite !String.eqb_refl.
Qed.

Lemma scan_matches_false (t : string) (s : Session) :
  qr_code s <> Some t -> scan_matches t s = false.
Proof.
  unfold scan_matches. intros H. destruct (qr_code s) as [c|]; [|reflexivity].
  destruct (String.eqb_spec c t) as [->|_]; [now destruct H | reflexivity].
Qed.

Lemma step_keeps_sessions_or_updates (a : Action) (db : DB) :
  sessions (step a db) = sessions db
  \/ (exists uid sid c e t,
        sessions (step a db)
        = sessions_update uid (start_patch c e) sid t (sessions db))
  \/ (exists uid sid t,
        sessions (step a db) = sessions_update uid stop_patch sid t (sessions db)).
Proof.
  destruct a; simpl; auto.
  - right. left. do 5 eexists. reflexivity.
  - right. right. do 3 eexists. reflexivity.
  - left. apply step_sessions_scan.
Qed.

(** Row by row, what an update by [uid] of the session [sessionId] does. *)
Lemma sessions_update_row_by_row (uid : uuid) (patch : Session -> Session)
    (sessionId : uuid) (db_now : timestamp) (tbl : list Session)
    (R : Session -> Session -> Prop) :
  (forall s, sess_id s = sessionId -> teacher_id s = uid ->
             R s (update_updated_at_column db_now (patch s))) ->
  (forall s, sess_id s <> sessionId \/ teacher_id s <> uid -> R s s) ->
  Forall2 R tbl (sessions_update uid patch sessionId db_now tbl).
Proof.
  intros Hown Hother. apply Forall2_map_pointwise. intros s.
  unfold teacher_manages_session.
  destruct (String.eqb_spec (sess_id s) sessionId) as [Hid|Hid];
    destruct (String.eqb_spec uid (teacher_id s)) as [Ht|Ht]; simpl; auto.
Qed.

Lemma step_consistent (a : Action) (db : DB) :
  db_token_expiry_consistent db = true ->
  db_token_expiry_consistent (step a db) = true.
Proof.
  unfold db_token_expiry_consistent. intros H.
  destruct (step_keeps_sessions_or_updates a db)
    as [->|[(uid & sid & c & e & t & ->)|(uid & sid & t & ->)]].
  - assumption.
  - now apply sessions_update_consistent.
  - now apply sessions_update_consistent.
Qed.

Lemma run_consistent (l : list Action) (db : DB) :
  db_token_expiry_consistent db = true ->
  db_token_expiry_consistent (run l db) = true.
Proof.
  unfold run. revert db. induction l as [|a l IH]; simpl; intros db H.
  - assumption.
  - apply IH. now apply step_consistent.
Qed.

(** C5. Every operation preserves the invariant that a session's code and
    its expiry are both present or both absent, on every session and along
    every sequence of operations: an operation leaves both, sets both or
    clears both, never only one of them.  Start does set both together: the
    row of the session, when the caller owns it, holds the new code and the
    new expiry afterwards, and every other row is as it was.  Stop does
    clear both together in the same way. *)
Theorem C5_token_and_expiry_move_together (a : Action) (db : DB) :
  db_token_expiry_consistent db = true ->
  db_token_expiry_consistent (step a db) = true
  /\ (forall l, db_token_expiry_consistent (run l db) = true)
  /\ Forall2 token_expiry_moved_together (sessions db) (sessions (step a db))
  /\ (forall uid sid c e t,
        Forall2 (row_started uid sid c e) (sessions db)
          (sessions (fst (startSession uid sid c e t db))))
  /\ (forall uid sid t,
        Forall2 (row_stopped uid sid) (sessions db)
          (sessions (fst (stopSession uid sid t db)))).
Proof.
  intros H. split; [now apply step_consistent|].
  split; [intros l; now apply run_consistent|].
  split.
  { destruct (step_keeps_sessions_or_updates a db)
      as [->|[(uid & sid & c & e & t & ->)|(uid & sid & t & ->)]].
    - rewrite <- (map_id (sessions db)) at 2.
      apply Forall2_map_pointwise. apply token_expiry_moved_refl.
    - apply sessions_update_moves_together. intros s. right. left.
      exists c, e. split; reflexivity.
    - apply sessions_update_moves_together. intros s. right. right.
      split; reflexivity. }
  split.
  - intros uid sid c e t. simpl. apply sessions_update_row_by_row.
    + intros s Hid Ht. left. repeat split; assumption.
    + intros s Hne. right. split; [assumption | reflexivity].
  - intros uid sid t. simpl. apply sessions_update_row_by_row.
    + intros s Hid Ht. left. repeat split; assumption.
    + intros s Hne. right. split; [assumption | reflexivity].
Qed.

Lemma C5_token_and_expiry_witness :
  db_token_expiry_consistent
    (step (Do_startSession "t1" "s1" "T1" 1800000 0) Classroom.db0) = true
  /\ Forall2 (row_started "t1" "s1" "T1" 1800000)
       (sessions Classroom.db0) (sessions Classroom.db1)
  /\ Forall2 (row_stopped "t1" "s1")
       (sessions Classroom.db1) (sessions Classroom.db1_stopped)
  /\ map (fun s => (qr_code s, qr_expires_at s)) (sessions Classroom.db1)
     = [(Some "T1"%string, Some 1800000)]
  /\ map (fun s => (qr_code s, qr_expires_at s)) (sessions Classroom.db1_stopped)
     = [(None, None)].
Proof.
  destruct (C5_token_and_expiry_move_together
              (Do_startSession "t1" "s1" "T1" 1800000 0) Classroom.db0 eq_refl)
    as (Hstep & _ & _ & Hstart & _).
  destruct (C5_token_and_expiry_move_together
              (Do_stopSession "t1" "s1" 1500) Classroom.db1 eq_refl)
    as (_ & _ & _ & _ & Hstop).
  split; [exact Hstep|].
  split; [exact (Hstart "t1" "s1" "T1" 1800000 0)%string|].
  split; [exact (Hstop "t1" "s1" 1500)%string|].
  split; reflexivity.
Defined.

(** ** The redeemed count *)

(** C4, as the code has it. No operation changes a session's
    [present_count]: a scan, whether the first of a student or a repeated
    one, accepted or not, leaves the whole [sessions] table as it was, and
    start and stop keep each session's count. *)
Theorem C4_present_count_never_changes (a : Action) (db : DB) :
  map (fun s => (sess_id s, present_count s)) (sessions (step a db))
  = map (fun s => (sess_id s, present_count s)) (sessions db)
  /\ forall st qrCode now newid today,
       sessions (fst (fst (handleQRScan st qrCode now newid today db))) = sessions db.
Proof.
  split.
  - destruct (step_keeps_sessions_or_updates a db)
      as [->|[(uid & sid & c & e & t & ->)|(uid & sid & t & ->)]].
    + reflexivity.
    + apply sessions_update_keeps_counts. intros s. split; reflexivity.
    + apply sessions_update_keeps_counts. intros s. split; reflexivity.
  - intros. apply step_sessions_scan.
Qed.

(** C4, as stated, fails: [sa] scans twice and [sb] once; after [sa] and
    [sb] have each been marked present for the session, its [present_count]
    is still 0. *)
Lemma C4_count_stays_zero :
  snd Classroom.scan_a1 = Toast_AttendanceMarked
  /\ snd Classroom.scan_a2 = Toast_FailedToMarkAttendance
  /\ snd Classroom.scan_b1 = Toast_AttendanceMarked
  /\ attendance (fst (fst Classroom.scan_b1)) = [Classroom.record_a1; Classroom.record_b1]
  /\ map (fun s => (sess_id s, present_count s)) (sessions (fst (fst Classroom.scan_b1)))
     = [("s1"%string, 0)].
Proof. repeat split. Qed.

(** ** Replacing and clearing the code *)

(** A list fetched from a store in which no row matches the code rejects it. *)
Lemma scan_rejected_by_fresh_list (st : StudentState) (t : string) (today : string)
    (dbf : DB) :
  todaySessions st = fetchTodaySessions (profile_user_id st) today dbf ->
  (forall x, In x (sessions dbf) -> scan_matches t x = false) ->
  forall now newid today' db,
    handleQRScan st t now newid today' db = (db, st, Toast_InvalidQRCode).
Proof.
  intros Hlist Hno now newid today' db. unfold handleQRScan.
  rewrite find_none_of_all_false; [reflexivity|].
  intros x Hx. apply Hno. rewrite Hlist in Hx.
  now apply In_fetchTodaySessions in Hx.
Qed.

(** C1, as the code has it. After the owner starts a session its row holds
    exactly the issued code, active, with the expiry that came with it;
    after a second start with a different code the row holds the
    replacement, and a scan of the prior code is reported "Invalid QR Code"
    and changes nothing, whatever the time of the scan, when the student's
    list was fetched after the second start and no other session carries
    that code. *)
Theorem C1_restart_invalidates_prior_token (db : DB) (s : Session)
    (t1 t2 : string) (expires1 expires2 now1 now2 : timestamp) :
  sessions_pkey db ->
  In s (sessions db) ->
  t1 <> t2 ->
  (forall s', In s' (sessions db) -> s' <> s -> qr_code s' <> Some t1) ->
  (forall s',
     In s' (sessions (fst (startSession (teacher_id s) (sess_id s) t1 expires1 now1 db))) ->
     sess_id s' = sess_id s ->
     qr_code s' = Some t1 /\ qr_expires_at s' = Some expires1 /\ is_active s' = true)
  /\ In (update_updated_at_column now1 (start_patch t1 expires1 s))
        (sessions (fst (startSession (teacher_id s) (sess_id s) t1 expires1 now1 db)))
  /\ (forall s',
        In s' (sessions
                 (fst (startSession (teacher_id s) (sess_id s) t2 expires2 now2
                         (fst (startSession (teacher_id s) (sess_id s) t1 expires1 now1
                                 db))))) ->
        sess_id s' = sess_id s ->
        qr_code s' = Some t2 /\ qr_expires_at s' = Some expires2 /\ is_active s' = true)
  /\ forall st today now newid today' db',
       todaySessions st
       = fetchTodaySessions (profile_user_id st) today
           (fst (startSession (teacher_id s) (sess_id s) t2 expires2 now2
                   (fst (startSession (teacher_id s) (sess_id s) t1 expires1 now1 db)))) ->
       handleQRScan st t1 now newid today' db' = (db', st, Toast_InvalidQRCode).
Proof.
  intros Hpk Hs Hdiff Hother. simpl.
  set (s1 := update_updated_at_column now1 (start_patch t1 expires1 s)).
  set (s2 := update_updated_at_column now2 (start_patch t2 expires2 s)).
  set (tbl1 := sessions_update (teacher_id s) (start_patch t1 expires1) (sess_id s) now1
                 (sessions db)).
  assert (Hrows1 : forall s', In s' tbl1 ->
            s' = s1 \/ (In s' (sessions db) /\ s' <> s /\ sess_id s' <> sess_id s)).
  { intros s'. now apply sessions_update_rows. }
  assert (Hown1 : In s1 tbl1).
  { now apply sessions_update_own_row. }
  assert (Hpk1 : NoDup (map sess_id tbl1)).
  { unfold tbl1. now rewrite sessions_update_keeps_ids. }
  assert (Hrows2 : forall s',
            In s' (sessions_update (teacher_id s) (start_patch t2 expires2) (sess_id s)
                     now2 tbl1) ->
            s' = s2 \/ (In s' (sessions db) /\ s' <> s /\ sess_id s' <> sess_id s)).
  { intros s' Hs'.
    destruct (sessions_update_rows (start_patch t2 expires2) now2 tbl1 s1 s' Hpk1 Hown1 Hs')
      as [->|(Hin & _ & Hid)].
    - now left.
    - right. destruct (Hrows1 s' Hin) as [->|H]; [now destruct Hid | exact H]. }
  split.
  { intros s' Hs' Hid. destruct (Hrows1 s' Hs') as [->|(_ & _ & Hne)].
    - repeat split.
    - now destruct Hne. }
  split; [exact Hown1|].
  split.
  { intros s' Hs' Hid. destruct (Hrows2 s' Hs') as [->|(_ & _ & Hne)].
    - repeat split.
    - now destruct Hne. }
  intros st today now newid today' db' Hlist.
  apply (scan_rejected_by_fresh_list st t1 today _ Hlist).
  intros x Hx. simpl in Hx. apply scan_matches_false.
  destruct (Hrows2 x Hx) as [->|(Hin & Hne & _)].
  - simpl. congruence.
  - now apply Hother.
Qed.

Lemma C1_restart_witness :
  In Classroom.s1_started (sessions Classroom.db1)
  /\ handleQRScan
       {| profile_user_id := "sa";
          todaySessions := fetchTodaySessions "sa" Classroom.today Classroom.db2;
          showQRScanner := true |}
       "T1" 2000 "a1" Classroom.today Classroom.db2
     = (Classroom.db2,
        {| profile_user_id := "sa";
           todaySessions := fetchTodaySessions "sa" Classroom.today Classroom.db2;
           showQRScanner := true |},
        Toast_InvalidQRCode).
Proof.
  assert (Hpk : sessions_pkey Classroom.db0).
  { repeat constructor. simpl. tauto. }
  assert (Hs : In Classroom.s1 (sessions Classroom.db0)).
  { simpl. now left. }
  assert (Hdiff : "T1"%string <> "T2"%string).
  { discriminate. }
  assert (Hother : forall s', In s' (sessions Classroom.db0) -> s' <> Classroom.s1 ->
                              qr_code s' <> Some "T1"%string).
  { simpl. intros s' [<-|[]] Hne. now destruct Hne. }
  destruct (C1_restart_invalidates_prior_token
              Classroom.db0 Classroom.s1 "T1" "T2" 1800000 1801000 0 1000
              Hpk Hs Hdiff Hother)
    as (_ & Hown & _ & Hscan).
  split; [exact Hown|].
  apply (Hscan _ Classroom.today). reflexivity.
Defined.

(** C1, as stated, fails: the student's list was fetched after the first
    start; the teacher starts the session again; the student scans the prior
    code [T1] well before its expiry and is marked present. *)
Lemma C1_stale_list_accepts_prior_token :
  todaySessions Classroom.sa1 = fetchTodaySessions "sa" Classroom.today Classroom.db1
  /\ map qr_code (sessions Classroom.db2) = [Some "T2"%string]
  /\ map qr_expires_at (sessions Classroom.db1) = [Some 1800000]
  /\ snd (handleQRScan Classroom.sa1 "T1" 2000 "a1" Classroom.today Classroom.db2)
     = Toast_AttendanceMarked
  /\ attendance
       (fst (fst (handleQRScan Classroom.sa1 "T1" 2000 "a1" Classroom.today Classroom.db2)))
     = [ {| att_id := "a1"; session_id := "s1"; student_id := "sa";
            is_present := true; method := Some qr; marked_at := Some 2000 |} ].
Proof. repeat split. Qed.

(** The two side conditions of the restart are needed.  Restarted with the
    same code, the session still accepts it from a current list. *)
Remark restart_with_same_code_accepts :
  snd (handleQRScan
         {| profile_user_id := "sa";
            todaySessions :=
              fetchTodaySessions "sa" Classroom.today
                (fst (startSession "t1" "s1" "T1" 1801000 1000 Classroom.db1));
            showQRScanner := true |}
         "T1" 2000 "a1" Classroom.today
         (fst (startSession "t1" "s1" "T1" 1801000 1000 Classroom.db1)))
  = Toast_AttendanceMarked.
Proof. reflexivity. Qed.

(** When another active session of the list carries the prior code, the
    scan is accepted for that session. *)
Remark code_of_another_session_accepts :
  map session_id
      (attendance
         (fst (fst (handleQRScan
                      {| profile_user_id := "sa";
                         todaySessions :=
                           fetchTodaySessions "sa" Classroom.today
                             Classroom.db2_shared_code;
                         showQRScanner := true |}
                      "T1" 2000 "a1" Classroom.today Classroom.db2_shared_code))))
  = ["s2"%string].
Proof. reflexivity. Qed.

(** C6, as the code has it. Stop by the owner clears the session's code
    and expiry and marks it inactive.  Stopping a session that is stopped
    leaves the state of every session as it is, and so does a second stop
    after a first: only the stamp [updated_at] of the row moves, and no
    other table is touched.  A scan of a code is reported "Invalid QR Code"
    and changes nothing when the student's list was fetched after the stop
    and no other session carries that code. *)
Theorem C6_stop_clears_and_is_idempotent (db : DB) (s : Session) (t : string)
    (now1 now2 : timestamp) :
  sessions_pkey db ->
  In s (sessions db) ->
  (forall s', In s' (sessions db) -> s' <> s -> qr_code s' <> Some t) ->
  (forall s', In s' (sessions (fst (stopSession (teacher_id s) (sess_id s) now1 db))) ->
     sess_id s' = sess_id s ->
     qr_code s' = None /\ qr_expires_at s' = None /\ is_active s' = false)
  /\ In (update_updated_at_column now1 (stop_patch s))
        (sessions (fst (stopSession (teacher_id s) (sess_id s) now1 db)))
  /\ (forall uid sid db0,
        (forall x, In x (sessions db0) -> sess_id x = sid -> teacher_id x = uid ->
                   qr_code x = None /\ qr_expires_at x = None /\ is_active x = false) ->
        map session_state (sessions (fst (stopSession uid sid now2 db0)))
        = map session_state (sessions db0)
        /\ profiles (fst (stopSession uid sid now2 db0)) = profiles db0
        /\ class_enrollments (fst (stopSession uid sid now2 db0)) = class_enrollments db0
        /\ attendance (fst (stopSession uid sid now2 db0)) = attendance db0)
  /\ (forall uid sid db0,
        map session_state
            (sessions (fst (stopSession uid sid now2 (fst (stopSession uid sid now1 db0)))))
        = map session_state (sessions (fst (stopSession uid sid now1 db0)))
        /\ fst (stopSession uid sid now2 (fst (stopSession uid sid now1 db0)))
           = fst (stopSession uid sid now2 db0)
        /\ snd (stopSession uid sid now2 (fst (stopSession uid sid now1 db0)))
           = Toast_SessionEnded)
  /\ forall st today now newid today' db',
       todaySessions st
       = fetchTodaySessions (profile_user_id st) today
           (fst (stopSession (teacher_id s) (sess_id s) now1 db)) ->
       handleQRScan st t now newid today' db' = (db', st, Toast_InvalidQRCode).
Proof.
  intros Hpk Hs Hother. simpl.
  assert (Hrows : forall s',
            In s' (sessions_update (teacher_id s) stop_patch (sess_id s) now1
                     (sessions db)) ->
            s' = update_updated_at_column now1 (stop_patch s)
            \/ (In s' (sessions db) /\ s' <> s /\ sess_id s' <> sess_id s)).
  { intros s'. now apply sessions_update_rows. }
  split.
  { intros s' Hs' Hid. destruct (Hrows s' Hs') as [->|(_ & _ & Hne)].
    - repeat split.
    - now destruct Hne. }
  split; [now apply sessions_update_own_row|].
  split.
  { intros uid sid db0 Hstopped. split; [|repeat split].
    unfold sessions_update, teacher_manages_session. rewrite map_map.
    rewrite <- (map_id (sessions db0)) at 2. rewrite map_map.
    apply map_ext_in. intros x Hx.
    destruct (String.eqb_spec (sess_id x) sid) as [Hid|Hid];
      destruct (String.eqb_spec uid (teacher_id x)) as [Ht|Ht]; simpl; try reflexivity.
    destruct (Hstopped x Hx Hid (eq_sym Ht)) as (Hc & He & Ha).
    unfold session_state. simpl. now rewrite Hc, He, Ha. }
  split.
  { intros uid sid db0.
    assert (Htwice : sessions_update uid stop_patch sid now2
                       (sessions_update uid stop_patch sid now1 (sessions db0))
                     = sessions_update uid stop_patch sid now2 (sessions db0)).
    { unfold sessions_update. rewrite map_map. apply map_ext. intros x.
      destruct (String.eqb (sess_id x) sid && teacher_manages_session uid x) eqn:Hx.
      - unfold teacher_manages_session in *. simpl. rewrite Hx. reflexivity.
      - rewrite Hx. reflexivity. }
    split; [|split; [|reflexivity]].
    - rewrite Htwice. unfold sessions_update. rewrite !map_map. apply map_ext.
      intros x. now destruct (String.eqb (sess_id x) sid && teacher_manages_session uid x).
    - unfold with_sessions. simpl. now rewrite Htwice. }
  intros st today now newid today' db' Hlist.
  apply (scan_rejected_by_fresh_list st t today _ Hlist).
  intros x Hx. simpl in Hx.
  destruct (Hrows x Hx) as [->|(Hin & Hne & _)].
  - reflexivity.
  - apply scan_matches_false. now apply Hother.
Qed.

Lemma C6_stop_witness :
  In (update_updated_at_column 1500 (stop_patch Classroom.s1_started))
     (sessions Classroom.db1_stopped)
  /\ map session_state (sessions (fst (stopSession "t1" "s1" 2500 Classroom.db1_stopped)))
     = map session_state (sessions Classroom.db1_stopped)
  /\ handleQRScan
       {| profile_user_id := "sa";
          todaySessions := fetchTodaySessions "sa" Classroom.today Classroom.db1_stopped;
          showQRScanner := true |}
       "T1" 2000 "a1" Classroom.today Classroom.db1_stopped
     = (Classroom.db1_stopped,
        {| profile_user_id := "sa";
           todaySessions := fetchTodaySessions "sa" Classroom.today Classroom.db1_stopped;
           showQRScanner := true |},
        Toast_InvalidQRCode).
Proof.
  assert (Hpk : sessions_pkey Classroom.db1).
  { repeat constructor. simpl. tauto. }
  assert (Hs : In Classroom.s1_started (sessions Classroom.db1)).
  { simpl. now left. }
  assert (Hother : forall s', In s' (sessions Classroom.db1) ->
                              s' <> Classroom.s1_started ->
                              qr_code s' <> Some "T1"%string).
  { simpl. intros s' [<-|[]] Hne. now destruct Hne. }
  destruct (C6_stop_clears_and_is_idempotent
              Classroom.db1 Classroom.s1_started "T1" 1500 2500 Hpk Hs Hother)
    as (_ & Hown & _ & Htwice & Hscan).
  split; [exact Hown|].
  split; [exact (proj1 (Htwice "t1" "s1" Classroom.db1))%string|].
  apply (Hscan _ Classroom.today). reflexivity.
Defined.

(** The second stop is not without effect on the store: the trigger stamps
    the row again. *)
Remark second_stop_moves_updated_at :
  map updated_at (sessions Classroom.db1_stopped) = [Some 1500]
  /\ map updated_at (sessions (fst (stopSession "t1" "s1" 2500 Classroom.db1_stopped)))
     = [Some 2500].
Proof. split; reflexivity. Qed.

(** C6, as stated, fails: the student's list was fetched while the session
    was active; the teacher stops the session; the student scans the cleared
    code [T1] and is marked present. *)
Lemma C6_stale_list_accepts_cleared_token :
  todaySessions Classroom.sa1 = fetchTodaySessions "sa" Classroom.today Classroom.db1
  /\ map qr_code (sessions Classroom.db1_stopped) = [None]
  /\ map is_active (sessions Classroom.db1_stopped) = [false]
  /\ snd (handleQRScan Classroom.sa1 "T1" 2000 "a1" Classroom.today Classroom.db1_stopped)
     = Toast_AttendanceMarked
  /\ attendance
       (fst (fst (handleQRScan Classroom.sa1 "T1" 2000 "a1" Classroom.today
                    Classroom.db1_stopped)))
     = [ {| att_id := "a1"; session_id := "s1"; student_id := "sa";
            is_present := true; method := Some qr; marked_at := Some 2000 |} ].
Proof. repeat split. Qed.

(** ** Manual override *)

Lemma teacher_may_write (uid : uuid) (db : DB) (r : Attendance) :
  teaches_session uid (session_id r) db = true -> may_write_attendance uid db r = true.
Proof. unfold may_write_attendance. intros ->. apply orb_true_r. Qed.

(** C7, as the code has it. For every existing record, the override run by
    the teacher of the record's session rewrites that record and no other:
    presence becomes the negation of the status shown to the caller (so the
    stored flag is toggled when the view is current), method becomes
    "manual" and the timestamp the override time, whatever the record held
    before; no code is asked for and the sessions are not touched. Run by a
    caller whom no attendance policy lets write the record (neither the
    session's teacher nor the record's own student), the same update changes
    nothing in the store and is still reported as done. *)
Theorem C7_manual_override (o : RowOrder Attendance) (db : DB) (r : Attendance)
    (owner other session : uuid) (currentStatus : bool) (now : timestamp) :
  attendance_pkey db ->
  In r (attendance db) ->
  teaches_session owner (session_id r) db = true ->
  may_write_attendance other db r = false ->
  In (manual_patch currentStatus now r)
     (attendance (fst (fst (toggleAttendance o owner session (att_id r) currentStatus now db))))
  /\ (forall x,
        In x (attendance
                (fst (fst (toggleAttendance o owner session (att_id r) currentStatus now db)))) ->
        x = manual_patch currentStatus now r \/ (In x (attendance db) /\ x <> r))
  /\ (forall x, In x (attendance db) -> x <> r ->
        In x (attendance
                (fst (fst (toggleAttendance o owner session (att_id r) currentStatus now db)))))
  /\ is_present (manual_patch (is_present r) now r) = negb (is_present r)
  /\ method (manual_patch currentStatus now r) = Some manual
  /\ marked_at (manual_patch currentStatus now r) = Some now
  /\ sessions (fst (fst (toggleAttendance o owner session (att_id r) currentStatus now db)))
     = sessions db
  /\ toggleAttendance o other session (att_id r) currentStatus now db
     = (db, fetchAttendance o other session db, Toast_AttendanceUpdated).
Proof.
  intros Hpk Hr Howner Hother. simpl.
  assert (Hsame : forall x, In x (attendance db) -> att_id x = att_id r -> x = r).
  { intros x Hx Hid. exact (key_injective att_id (attendance db) x r Hpk Hx Hr Hid). }
  split.
  { unfold attendance_update. apply in_map_iff. exists r. split; [|assumption].
    now rewrite String.eqb_refl, teacher_may_write. }
  split.
  { intros x Hx. unfold attendance_update in Hx. apply in_map_iff in Hx.
    destruct Hx as (z & <- & Hz).
    destruct (String.eqb_spec (att_id z) (att_id r)) as [Hid|Hid]; simpl.
    - rewrite (Hsame z Hz Hid), teacher_may_write by assumption. now left.
    - right. split; [assumption|]. intros ->. now apply Hid. }
  split.
  { intros x Hx Hne. unfold attendance_update. apply in_map_iff. exists x.
    split; [|assumption].
    destruct (String.eqb_spec (att_id x) (att_id r)) as [Hid|Hid]; simpl.
    - now destruct Hne; apply Hsame.
    - reflexivity. }
  repeat (split; [reflexivity|]).
  assert (Hnone : attendance_update other (manual_patch currentStatus now) (att_id r) db
                  = attendance db).
  { unfold attendance_update. apply map_id_on. intros x Hx.
    destruct (String.eqb_spec (att_id x) (att_id r)) as [Hid|Hid]; simpl.
    - now rewrite (Hsame x Hx Hid), Hother.
    - reflexivity. }
  unfold toggleAttendance. simpl. rewrite Hnone, with_attendance_same. reflexivity.
Qed.

Lemma C7_manual_override_witness :
  In (manual_patch true 500 Classroom.record_a1)
     (attendance
        (fst (fst (toggleAttendance table_order "t1" "s1" "a1" true 500
                     (fst (fst Classroom.scan_a1))))))
  /\ toggleAttendance table_order "sx" "s1" "a1" true 500 (fst (fst Classroom.scan_a1))
     = (fst (fst Classroom.scan_a1),
        fetchAttendance table_order "sx" "s1" (fst (fst Classroom.scan_a1)),
        Toast_AttendanceUpdated).
Proof.
  assert (Hpk : attendance_pkey (fst (fst Classroom.scan_a1))).
  { repeat constructor. simpl. tauto. }
  assert (Hr : In Classroom.record_a1 (attendance (fst (fst Classroom.scan_a1)))).
  { simpl. now left. }
  destruct (C7_manual_override table_order (fst (fst Classroom.scan_a1))
              Classroom.record_a1 "t1" "sx" "s1" true 500 Hpk Hr eq_refl eq_refl)
    as (Hown & _ & _ & _ & _ & _ & _ & Hother).
  split; [exact Hown | exact Hother].
Defined.

(** C7, as stated, fails: the student [sa], who does not teach the session,
    runs the override on the record of their own attendance; the policy
    "Students can update own attendance" lets the update through and the
    record is rewritten. *)
Lemma C7_student_overrides_own_record :
  teaches_session "sa" "s1" (fst (fst Classroom.scan_a1)) = false
  /\ attendance (fst (fst Classroom.scan_a1)) = [Classroom.record_a1]
  /\ snd (toggleAttendance table_order "sa" "s1" "a1" true 500
            (fst (fst Classroom.scan_a1)))
     = Toast_AttendanceUpdated
  /\ attendance
       (fst (fst (toggleAttendance table_order "sa" "s1" "a1" true 500
                    (fst (fst Classroom.scan_a1)))))
     = [ {| att_id := "a1"; session_id := "s1"; student_id := "sa";
            is_present := false; method := Some manual; marked_at := Some 500 |} ].
Proof. repeat split. Qed.

(** ** Expiry and repeated scans *)

(** C2 fails on the code. The session was started at time 0, so its code
    expires at 1 800 000; it is still active. The student's list is current.
    A scan of the code one millisecond after the expiry is accepted and the
    attendance row is written with that time. *)
Theorem C2_expired_code_is_accepted :
  map (fun s => (qr_code s, qr_expires_at s, is_active s)) (sessions Classroom.db1)
  = [(Some "T1"%string, Some 1800000, true)]
  /\ todaySessions Classroom.sa1 = fetchTodaySessions "sa" Classroom.today Classroom.db1
  /\ snd (handleQRScan Classroom.sa1 "T1" 1800001 "a1" Classroom.today Classroom.db1)
     = Toast_AttendanceMarked
  /\ attendance
       (fst (fst (handleQRScan Classroom.sa1 "T1" 1800001 "a1" Classroom.today
                    Classroom.db1)))
     = [ {| att_id := "a1"; session_id := "s1"; student_id := "sa";
            is_present := true; method := Some qr; marked_at := Some 1800001 |} ].
Proof. repeat split. Qed.

(** The time of the scan only ends up in the written row: whether the scan
    is accepted does not depend on it. *)
Lemma handleQRScan_outcome_ignores_time (st : StudentState) (qrCode : string)
    (now now' : timestamp) (newid : uuid) (today : string) (db : DB) :
  snd (handleQRScan st qrCode now newid today db)
  = snd (handleQRScan st qrCode now' newid today db).
Proof.
  unfold handleQRScan.
  destruct (find (scan_matches qrCode) (todaySessions st)) as [session|]; [|reflexivity].
  unfold db_attendance_upsert, attendance_upsert, may_write_attendance, same_id, same_pair.
  simpl.
  repeat match goal with
         | |- context [if ?c then _ else _] => destruct c; simpl; try reflexivity
         end.
Qed.

(** A second scan for a pair that already has a record: the generated key
    is new, so the statement runs into UNIQUE(session_id, student_id) and
    the handler reports the failure, the store being left as it was. *)
Lemma second_scan_fails (st : StudentState) (qrCode : string) (now : timestamp)
    (newid : uuid) (today : string) (db : DB) (session : Session) (r : Attendance) :
  find (scan_matches qrCode) (todaySessions st) = Some session ->
  In r (attendance db) ->
  session_id r = sess_id session ->
  student_id r = profile_user_id st ->
  (forall x, In x (attendance db) -> att_id x <> newid) ->
  handleQRScan st qrCode now newid today db = (db, st, Toast_FailedToMarkAttendance).
Proof.
  intros Hfind Hr Hsid Hstu Hfresh. unfold handleQRScan. rewrite Hfind.
  set (row := {| att_id := newid; session_id := sess_id session;
                 student_id := profile_user_id st; is_present := true;
                 method := Some qr; marked_at := Some now |}).
  assert (Hup : attendance_upsert row (attendance db) = PgErr unique_violation).
  { unfold attendance_upsert.
    assert (Hnoid : existsb (same_id row) (attendance db) = false).
    { apply not_true_is_false. intros H. apply existsb_exists in H.
      destruct H as (x & Hx & Hid). unfold same_id in Hid. simpl in Hid.
      apply String.eqb_eq in Hid. now apply (Hfresh x Hx). }
    rewrite Hnoid.
    assert (Hpair : existsb (same_pair row) (attendance db) = true).
    { apply existsb_exists. exists r. split; [assumption|].
      unfold same_pair. simpl. now rewrite Hsid, Hstu, !String.eqb_refl. }
    now rewrite Hpair. }
  unfold db_attendance_upsert. rewrite Hup.
  repeat match goal with
         | |- context [if ?c then _ else _] => destruct c; try reflexivity
         end.
Qed.

(** Whatever a scan does, the table keeps at most one record per
    (session, student) pair, the generated key being new. *)
Lemma scan_keeps_one_record_per_pair (st : StudentState) (qrCode : string)
    (now : timestamp) (newid : uuid) (today : string) (db : DB) :
  attendance_unique db ->
  (forall x, In x (attendance db) -> att_id x <> newid) ->
  attendance_unique (fst (fst (handleQRScan st qrCode now newid today db))).
Proof.
  intros Huniq Hfresh. unfold handleQRScan.
  destruct (find (scan_matches qrCode) (todaySessions st)) as [session|]; [|exact Huniq].
  set (row := {| att_id := newid; session_id := sess_id session;
                 student_id := profile_user_id st; is_present := true;
                 method := Some qr; marked_at := Some now |}).
  unfold db_attendance_upsert.
  repeat match goal with
         | |- context [if ?c then _ else _] => destruct c; [exact Huniq|]
         end.
  unfold attendance_upsert.
  assert (Hnoid : existsb (same_id row) (attendance db) = false).
  { apply not_true_is_false. intros H. apply existsb_exists in H.
    destruct H as (x & Hx & Hid). unfold same_id in Hid. simpl in Hid.
    apply String.eqb_eq in Hid. now apply (Hfresh x Hx). }
  rewrite Hnoid.
  destruct (existsb (same_pair row) (attendance db)) eqn:Hpair; [exact Huniq|].
  unfold attendance_unique. simpl. rewrite map_app. simpl.
  apply NoDup_Add with (a := (sess_id session, profile_user_id st))
                       (l := map (fun r => (session_id r, student_id r)) (attendance db)).
  - clear. induction (map (fun r => (session_id r, student_id r)) (attendance db));
      simpl; constructor; assumption.
  - split; [exact Huniq|].
    intros Hin. apply in_map_iff in Hin. destruct Hin as (x & Hkey & Hx).
    assert (Htrue : existsb (same_pair row) (attendance db) = true).
    { apply existsb_exists. exists x. split; [assumption|].
      unfold same_pair. simpl. inversion Hkey as [[H1 H2]].
      now rewrite !String.eqb_refl. }
    congruence.
Qed.

(** C3 fails on the code. [sa] scans the valid code at time 100 and is
    marked; [sa] scans the same code again at time 200: the handler reports
    "Failed to mark attendance" and the one record still carries the time of
    the first scan. *)
Theorem C3_second_scan_is_rejected :
  snd Classroom.scan_a1 = Toast_AttendanceMarked
  /\ attendance (fst (fst Classroom.scan_a1)) = [Classroom.record_a1]
  /\ snd Classroom.scan_a2 = Toast_FailedToMarkAttendance
  /\ attendance (fst (fst Classroom.scan_a2)) = [Classroom.record_a1]
  /\ map marked_at (attendance (fst (fst Classroom.scan_a2))) = [Some 100].
Proof. repeat split. Qed.

(** ** Export *)

Lemma split_on_free (sep : ascii) (s : string) :
  free_of sep s = true -> split_on sep s = [s].
Proof.
  induction s as [|c rest IH]; simpl; intros H.
  - reflexivity.
  - apply andb_prop in H. destruct H as [Hc Hrest].
    apply negb_true_iff in Hc. rewrite Hc, (IH Hrest). reflexivity.
Qed.

Lemma split_on_append (sep : ascii) (h rest : string) :
  free_of sep h = true ->
  split_on sep (h ++ String sep rest) = h :: split_on sep rest.
Proof.
  induction h as [|c h IH]; simpl; intros H.
  - now rewrite Ascii.eqb_refl.
  - apply andb_prop in H. destruct H as [Hc Hh].
    apply negb_true_iff in Hc. rewrite Hc, (IH Hh). reflexivity.
Qed.

Lemma split_on_concat (sep : ascii) (x : string) (l : list string) :
  forallb (free_of sep) (x :: l) = true ->
  split_on sep (String.concat (String sep EmptyString) (x :: l)) = x :: l.
Proof.
  revert x. induction l as [|y l IH]; intros x H.
  - simpl in *. apply split_on_free. now rewrite andb_true_r in H.
  - change (String.concat (String sep EmptyString) (x :: y :: l))
      with (x ++ String sep (String.concat (String sep EmptyString) (y :: l)))%string.
    simpl forallb in H. apply andb_prop in H. destruct H as [Hx Hl].
    rewrite split_on_append by assumption. f_equal. now apply IH.
Qed.

Lemma free_of_append (sep : ascii) (a b : string) :
  free_of sep (a ++ b) = free_of sep a && free_of sep b.
Proof.
  induction a as [|c a IH]; simpl.
  - reflexivity.
  - now rewrite IH, andb_assoc.
Qed.

Lemma free_of_concat (sep d : ascii) (l : list string) :
  Ascii.eqb d sep = false ->
  forallb (free_of sep) l = true ->
  free_of sep (String.concat (String d EmptyString) l) = true.
Proof.
  intros Hd. induction l as [|x l IH]; intros H.
  - reflexivity.
  - simpl forallb in H. apply andb_prop in H. destruct H as [Hx Hl].
    destruct l as [|y l].
    + exact Hx.
    + change (String.concat (String d EmptyString) (x :: y :: l))
        with (x ++ String d (String.concat (String d EmptyString) (y :: l)))%string.
      rewrite free_of_append, Hx. simpl. rewrite Hd. simpl. now apply IH.
Qed.

Lemma forallb_plain_field (l : list string) :
  forallb plain_field l = true ->
  forallb (free_of comma_char) l = true /\ forallb (free_of newline_char) l = true.
Proof.
  rewrite !forallb_forall. intros H. split; intros x Hx;
    specialize (H x Hx); unfold plain_field in H; apply andb_prop in H; tauto.
Qed.

(** What the export does right: it touches no table, and when no field of
    a listed record holds a comma or a line break, splitting the text at
    line breaks and each line at commas gives the header and, record by
    record, the five fields back. *)
Lemma exportAttendance_reads_back (toLocaleString : timestamp -> string)
    (filteredRecords : list AttendanceRecord) (db : DB) :
  (forall r, In r filteredRecords ->
     forallb plain_field (csv_fields toLocaleString r) = true) ->
  step (Do_exportAttendance toLocaleString filteredRecords) db = db
  /\ map (split_on comma_char)
         (split_on newline_char (exportAttendance toLocaleString filteredRecords))
     = csv_header :: map (csv_fields toLocaleString) filteredRecords.
Proof.
  intros Hplain. split; [reflexivity|].
  assert (Hlines : split_on newline_char (exportAttendance toLocaleString filteredRecords)
                   = csv_lines toLocaleString filteredRecords).
  { unfold exportAttendance, csv_lines. apply split_on_concat.
    cbn [forallb]. apply andb_true_intro. split; [reflexivity|].
    apply forallb_forall. intros line Hline. apply in_map_iff in Hline.
    destruct Hline as (r & <- & Hr).
    apply (free_of_concat newline_char comma_char); [reflexivity|].
    now apply forallb_plain_field, Hplain. }
  rewrite Hlines. unfold csv_lines. cbn [map]. f_equal.
  rewrite map_map. apply map_ext_in. intros r Hr.
  pose proof (proj1 (forallb_plain_field _ (Hplain r Hr))) as Hfree.
  unfold csv_fields in *. now apply (split_on_concat comma_char).
Qed.

(** C8 fails on the code. The teacher exports the two records of the
    session in a browser of the en-US locale, whose [toLocaleString()]
    writes a date as "1/1/1970, 12:00:00 AM", with a comma.  The fields are
    joined without quoting, so under the header of five columns each
    record's line reads back as six fields: the date falls into two.  The
    same happens to a name that holds a comma, whatever the locale, and a
    name that holds a line break spreads its record over two lines.  The
    store is not written. *)
Theorem C8_export_row_reads_back_as_six_fields :
  map (csv_fields (fun _ => "1/1/1970, 12:00:00 AM"%string))
      (fetchAttendance table_order "t1" "s1" (fst (fst Classroom.scan_b1)))
  = [ ["Asha"; "R-01"; "Present"; "qr"; "1/1/1970, 12:00:00 AM"];
      ["Bilal"; "R-02"; "Present"; "qr"; "1/1/1970, 12:00:00 AM"] ]%string
  /\ map (split_on comma_char)
         (split_on newline_char
            (exportAttendance (fun _ => "1/1/1970, 12:00:00 AM"%string)
               (fetchAttendance table_order "t1" "s1" (fst (fst Classroom.scan_b1)))))
     = [ ["Name"; "Roll Number"; "Status"; "Method"; "Marked At"];
         ["Asha"; "R-01"; "Present"; "qr"; "1/1/1970"; " 12:00:00 AM"];
         ["Bilal"; "R-02"; "Present"; "qr"; "1/1/1970"; " 12:00:00 AM"] ]%string
  /\ map (split_on comma_char)
         (split_on newline_char
            (exportAttendance (fun _ => "1970-01-01 00:00:00"%string)
               [ mkAttendanceRecord "a1" "sa" true (Some qr) (Some 100)
                   "Rao, Asha" (Some "R-01"%string) ]))
     = [ ["Name"; "Roll Number"; "Status"; "Method"; "Marked At"];
         ["Rao"; " Asha"; "R-01"; "Present"; "qr"; "1970-01-01 00:00:00"] ]%string
  /\ map (split_on comma_char)
         (split_on newline_char
            (exportAttendance (fun _ => "1970-01-01 00:00:00"%string)
               [ mkAttendanceRecord "a1" "sa" true (Some qr) (Some 100)
                   ("Asha" ++ newline ++ "Rao") (Some "R-01"%string) ]))
     = [ ["Name"; "Roll Number"; "Status"; "Method"; "Marked At"];
         ["Asha"];
         ["Rao"; "R-01"; "Present"; "qr"; "1970-01-01 00:00:00"] ]%string
  /\ step (Do_exportAttendance (fun _ => "1/1/1970, 12:00:00 AM"%string)
             (fetchAttendance table_order "t1" "s1" (fst (fst Classroom.scan_b1))))
          (fst (fst Classroom.scan_b1))
     = fst (fst Classroom.scan_b1).
Proof. repeat split. Qed.

(** * Properties of the rest of the components *)

(** ** Ordered queries *)

Lemma order_by_start_time_is_sort_by (l : list Session) :
  order_by_start_time l = sort_by start_time_le l.
Proof.
  unfold order_by_start_time, sort_by. induction l as [|a l IH]; simpl.
  - reflexivity.
  - rewrite IH. generalize (fold_right (insert_by start_time_le) [] l).
    intros m. induction m as [|b m IHm]; simpl.
    + reflexivity.
    + unfold start_time_le at 1. now rewrite IHm.
Qed.

Lemma insert_by_perm {A : Type} (le : A -> A -> bool) (x : A) (l : list A) :
  Permutation (insert_by le x l) (x :: l).
Proof.
  induction l as [|y l IH]; simpl.
  - apply Permutation_refl.
  - destruct (le x y).
    + apply Permutation_refl.
    + apply perm_trans with (y :: x :: l).
      * now apply perm_skip.
      * apply perm_swap.
Qed.

Lemma sort_by_perm {A : Type} (le : A -> A -> bool) (l : list A) :
  Permutation (sort_by le l) l.
Proof.
  unfold sort_by. induction l as [|a l IH]; simpl.
  - apply perm_nil.
  - apply perm_trans with (a :: fold_right (insert_by le) [] l).
    + apply insert_by_perm.
    + now apply perm_skip.
Qed.

Section SortBy.

Variable A : Type.
Variable le : A -> A -> bool.
Hypothesis le_total : forall a b, le a b = true \/ le b a = true.
Hypothesis le_trans : forall a b c, le a b = true -> le b c = true -> le a c = true.

Let Le (a b : A) : Prop := le a b = true.

Lemma insert_by_sorted (x : A) (l : list A) :
  StronglySorted Le l -> StronglySorted Le (insert_by le x l).
Proof.
  induction l as [|y l IH]; simpl; intros Hs.
  - constructor; constructor.
  - inversion Hs as [|y' l' Hl Hy]; subst.
    destruct (le x y) eqn:Hxy.
    + constructor; [assumption|]. constructor; [exact Hxy|].
      apply Forall_forall. intros z Hz.
      apply (le_trans x y z Hxy).
      exact (proj1 (Forall_forall _ _) Hy z Hz).
    + constructor; [now apply IH|].
      apply Forall_forall. intros z Hz.
      apply (Permutation_in _ (insert_by_perm le x l)) in Hz.
      destruct Hz as [<-|Hz].
      * destruct (le_total x y) as [H|H]; [congruence | exact H].
      * exact (proj1 (Forall_forall _ _) Hy z Hz).
Qed.

Lemma sort_by_sorted (l : list A) : StronglySorted Le (sort_by le l).
Proof.
  unfold sort_by. induction l as [|a l IH]; simpl.
  - constructor.
  - now apply insert_by_sorted.
Qed.

Lemma insert_by_below (x : A) (l : list A) :
  Forall (Le x) l -> insert_by le x l = x :: l.
Proof.
  intros H. destruct l as [|y l]; simpl.
  - reflexivity.
  - inversion H as [|y' l' Hxy _]; subst. unfold Le in Hxy. now rewrite Hxy.
Qed.

Lemma filter_insert_by (p : A -> bool) (x : A) (l : list A) :
  StronglySorted Le l ->
  filter p (insert_by le x l)
  = if p x then insert_by le x (filter p l) else filter p l.
Proof.
  induction l as [|y l IH]; intros Hs.
  - simpl. now destruct (p x).
  - inversion Hs as [|y' l' Hl Hy]; subst.
    simpl insert_by. destruct (le x y) eqn:Hxy.
    + change (filter p (x :: y :: l))
        with (if p x then x :: filter p (y :: l) else filter p (y :: l)).
      destruct (p x); [|reflexivity].
      symmetry. apply insert_by_below.
      apply Forall_forall. intros z Hz. apply filter_In in Hz.
      destruct Hz as [[<-|Hz] _]; [exact Hxy|].
      apply (le_trans x y z Hxy). exact (proj1 (Forall_forall _ _) Hy z Hz).
    + simpl filter. destruct (p y) eqn:Hpy.
      * rewrite (IH Hl). destruct (p x); [|reflexivity].
        simpl. now rewrite Hxy.
      * now apply IH.
Qed.

Lemma filter_sort_by (p : A -> bool) (l : list A) :
  filter p (sort_by le l) = sort_by le (filter p l).
Proof.
  induction l as [|a l IH].
  - reflexivity.
  - change (sort_by le (a :: l)) with (insert_by le a (sort_by le l)).
    rewrite filter_insert_by by apply sort_by_sorted.
    simpl filter. destruct (p a).
    + now rewrite IH.
    + exact IH.
Qed.

End SortBy.

Lemma start_time_le_total (a b : Session) :
  start_time_le a b = true \/ start_time_le b a = true.
Proof. unfold start_time_le. rewrite !Z.leb_le. lia. Qed.

Lemma start_time_le_trans (a b c : Session) :
  start_time_le a b = true -> start_time_le b c = true -> start_time_le a c = true.
Proof. unfold start_time_le. rewrite !Z.leb_le. lia. Qed.

Lemma order_by_start_time_sorted (l : list Session) :
  StronglySorted (fun a b => start_time a <= start_time b) (order_by_start_time l).
Proof.
  rewrite order_by_start_time_is_sort_by.
  pose proof (sort_by_sorted Session start_time_le start_time_le_total
                start_time_le_trans l) as H.
  induction H as [|a m Hm IH Ha]; constructor.
  - exact IH.
  - apply Forall_forall. intros z Hz. apply Z.leb_le.
    exact (proj1 (Forall_forall _ _) Ha z Hz).
Qed.

Lemma In_fetchTodaySessions_iff (uid : uuid) (today : string) (db : DB) (s : Session) :
  In s (fetchTodaySessions uid today db)
  <-> In s (sessions db) /\ session_date s = today
      /\ enrolled uid (class_id s) db = true.
Proof.
  unfold fetchTodaySessions.
  rewrite In_order_by_start_time, filter_In, andb_true_iff, String.eqb_eq. tauto.
Qed.

(** X1. The student's list holds exactly the sessions dated today of the
    classes the student is enrolled in, each as often as the table holds it
    and in ascending order of start time; a student with no enrollment gets
    an empty list. *)
Theorem fetchTodaySessions_exact_and_sorted (uid : uuid) (today : string) (db : DB) :
  (forall s, In s (fetchTodaySessions uid today db)
             <-> In s (sessions db) /\ session_date s = today
                 /\ enrolled uid (class_id s) db = true)
  /\ Permutation (fetchTodaySessions uid today db)
       (filter (fun s => String.eqb (session_date s) today && enrolled uid (class_id s) db)
               (sessions db))
  /\ StronglySorted (fun a b => start_time a <= start_time b)
       (fetchTodaySessions uid today db)
  /\ ((forall e, In e (class_enrollments db) -> enr_student_id e <> uid) ->
      fetchTodaySessions uid today db = []).
Proof.
  split; [intros s; apply In_fetchTodaySessions_iff|].
  unfold fetchTodaySessions. split.
  { rewrite order_by_start_time_is_sort_by. apply sort_by_perm. }
  split; [apply order_by_start_time_sorted|].
  intros Hnone.
  assert (Hfalse : forall c, enrolled uid c db = false).
  { intros c. unfold enrolled. apply not_true_is_false. intros H.
    apply existsb_exists in H. destruct H as (e & He & Heq).
    apply andb_prop in Heq. destruct Heq as [_ Hu]. apply String.eqb_eq in Hu.
    exact (Hnone e He Hu). }
  replace (filter _ (sessions db)) with (@nil Session); [reflexivity|].
  symmetry. induction (sessions db) as [|s l IH]; simpl.
  - reflexivity.
  - now rewrite Hfalse, andb_false_r.
Qed.

Lemma fetchTodaySessions_exact_witness :
  fetchTodaySessions "sx" Classroom.today Classroom.db1 = [].
Proof.
  apply (fetchTodaySessions_exact_and_sorted "sx" Classroom.today Classroom.db1).
  simpl. intros e [<-|[<-|[]]]; discriminate.
Defined.

Lemma In_teacher_fetchTodaySessions_iff (uid : uuid) (today : string) (db : DB)
    (s : Session) :
  In s (Teacher.fetchTodaySessions uid today db)
  <-> In s (sessions db) /\ teacher_id s = uid /\ session_date s = today.
Proof.
  unfold Teacher.fetchTodaySessions.
  rewrite In_order_by_start_time, filter_In, andb_true_iff, !String.eqb_eq. tauto.
Qed.

(** X2. The teacher's list holds exactly the teacher's own sessions dated
    today, each as often as the table holds it and in ascending order of
    start time; so every listed session is one the teacher's start and stop
    are allowed to write. *)
Theorem teacher_fetchTodaySessions_exact_and_sorted (uid : uuid) (today : string)
    (db : DB) :
  (forall s, In s (Teacher.fetchTodaySessions uid today db)
             <-> In s (sessions db) /\ teacher_id s = uid /\ session_date s = today)
  /\ Permutation (Teacher.fetchTodaySessions uid today db)
       (filter (fun s => String.eqb (teacher_id s) uid && String.eqb (session_date s) today)
               (sessions db))
  /\ StronglySorted (fun a b => start_time a <= start_time b)
       (Teacher.fetchTodaySessions uid today db)
  /\ Forall (fun s => teacher_manages_session uid s = true)
       (Teacher.fetchTodaySessions uid today db).
Proof.
  split; [intros s; apply In_teacher_fetchTodaySessions_iff|].
  split.
  { unfold Teacher.fetchTodaySessions. rewrite order_by_start_time_is_sort_by.
    apply sort_by_perm. }
  split; [apply order_by_start_time_sorted|].
  apply Forall_forall. intros s Hs. apply In_teacher_fetchTodaySessions_iff in Hs.
  destruct Hs as (_ & Ht & _).
  unfold teacher_manages_session. rewrite Ht. apply String.eqb_refl.
Qed.

Lemma sessions_update_filter_length (uid : uuid) (patch : Session -> Session)
    (sessionId : uuid) (db_now : timestamp) (p : Session -> bool) (tbl : list Session) :
  (forall s, p (update_updated_at_column db_now (patch s)) = p s) ->
  length (filter p (sessions_update uid patch sessionId db_now tbl))
  = length (filter p tbl).
Proof.
  intros Hp. unfold sessions_update. induction tbl as [|s l IH]; simpl.
  - reflexivity.
  - assert (Hs : p (if String.eqb (sess_id s) sessionId && teacher_manages_session uid s
                    then update_updated_at_column db_now (patch s) else s) = p s).
    { destruct (_ && _); [apply Hp | reflexivity]. }
    rewrite Hs. destruct (p s); simpl; now rewrite IH.
Qed.

(** X3. Start and stop from the teacher's list show up in the refreshed
    list: a listed session is replaced by its started image, which carries
    the code and the expiry that the start was given, or by its stopped
    image, each stamped with the time of the update, and the list keeps its
    length. *)
Theorem teacher_list_reflects_start_and_stop (uid : uuid) (today : string) (db : DB)
    (s : Session) (qrCode : string) (qrExpiresAt db_now : timestamp) :
  In s (Teacher.fetchTodaySessions uid today db) ->
  In (update_updated_at_column db_now (start_patch qrCode qrExpiresAt s))
     (Teacher.fetchTodaySessions uid today
        (fst (startSession uid (sess_id s) qrCode qrExpiresAt db_now db)))
  /\ In (update_updated_at_column db_now (stop_patch s))
        (Teacher.fetchTodaySessions uid today
           (fst (stopSession uid (sess_id s) db_now db)))
  /\ length (Teacher.fetchTodaySessions uid today
               (fst (startSession uid (sess_id s) qrCode qrExpiresAt db_now db)))
     = length (Teacher.fetchTodaySessions uid today db)
  /\ length (Teacher.fetchTodaySessions uid today
               (fst (stopSession uid (sess_id s) db_now db)))
     = length (Teacher.fetchTodaySessions uid today db).
Proof.
  intros Hs. apply In_teacher_fetchTodaySessions_iff in Hs.
  destruct Hs as (Hin & Ht & Hd).
  assert (Hlen : forall patch,
            (forall x, teacher_id (patch x) = teacher_id x
                       /\ session_date (patch x) = session_date x) ->
            length (Teacher.fetchTodaySessions uid today
                      (with_sessions db
                         (sessions_update uid patch (sess_id s) db_now (sessions db))))
            = length (Teacher.fetchTodaySessions uid today db)).
  { intros patch Hp. unfold Teacher.fetchTodaySessions.
    rewrite !order_by_start_time_is_sort_by.
    rewrite !(Permutation_length (sort_by_perm _ _)). simpl.
    apply sessions_update_filter_length. intros x.
    cbn [teacher_id session_date update_updated_at_column].
    destruct (Hp x) as [-> ->]. reflexivity. }
  assert (Hown : forall patch,
            (forall x, teacher_id (patch x) = teacher_id x
                       /\ session_date (patch x) = session_date x) ->
            In (update_updated_at_column db_now (patch s))
               (Teacher.fetchTodaySessions uid today
                  (with_sessions db
                     (sessions_update uid patch (sess_id s) db_now (sessions db))))).
  { intros patch Hp. apply In_teacher_fetchTodaySessions_iff.
    destruct (Hp s) as [Hpt Hpd]. simpl. split; [|split; congruence].
    rewrite <- Ht. now apply sessions_update_own_row. }
  split; [apply Hown; intros x; split; reflexivity|].
  split; [apply Hown; intros x; split; reflexivity|].
  split; apply Hlen; intros x; split; reflexivity.
Qed.

Lemma teacher_list_reflects_witness :
  In (update_updated_at_column 0 (start_patch "T1" 1800000 Classroom.s1))
     (Teacher.fetchTodaySessions "t1" Classroom.today Classroom.db1).
Proof.
  apply (teacher_list_reflects_start_and_stop
           "t1" Classroom.today Classroom.db0 Classroom.s1 "T1" 1800000 0).
  simpl. now left.
Defined.

(** ** Scans *)

Lemma attendance_upsert_ok_cases (row : Attendance) (tbl tbl' : list Attendance) :
  attendance_upsert row tbl = PgOk tbl' ->
  (existsb (same_id row) tbl = false /\ existsb (same_pair row) tbl = false
   /\ tbl' = tbl ++ [row])
  \/ (existsb (same_id row) tbl = true
      /\ existsb (fun r => negb (same_id row r) && same_pair row r) tbl = false
      /\ tbl' = map (fun r => if same_id row r then row else r) tbl).
Proof.
  unfold attendance_upsert.
  destruct (existsb (same_id row) tbl).
  - destruct (existsb (fun r => negb (same_id row r) && same_pair row r) tbl);
      [discriminate|]. intros [= <-]. right. auto.
  - destruct (existsb (same_pair row) tbl); [discriminate|].
    intros [= <-]. left. auto.
Qed.

Lemma db_attendance_upsert_inv (uid : uuid) (row : Attendance) (db db' : DB) :
  db_attendance_upsert uid row db = PgOk db' ->
  may_write_attendance uid db row = true
  /\ existsb (fun r => same_id row r && negb (may_write_attendance uid db r))
             (attendance db) = false
  /\ existsb (fun s => String.eqb (sess_id s) (session_id row)) (sessions db) = true
  /\ existsb (fun p => String.eqb (user_id p) (student_id row)) (profiles db) = true
  /\ exists tbl, attendance_upsert row (attendance db) = PgOk tbl
                 /\ db' = with_attendance db tbl.
Proof.
  unfold db_attendance_upsert.
  destruct (may_write_attendance uid db row); [|discriminate].
  destruct (existsb (fun r => same_id row r && negb (may_write_attendance uid db r))
                    (attendance db)); [discriminate|].
  destruct (existsb (fun s => String.eqb (sess_id s) (session_id row)) (sessions db));
    [|discriminate].
  destruct (existsb (fun p => String.eqb (user_id p) (student_id row)) (profiles db));
    [|discriminate].
  simpl. destruct (attendance_upsert row (attendance db)) as [tbl|e]; [|discriminate].
  intros [= <-]. repeat split. exists tbl. split; reflexivity.
Qed.

(** The row a scan of [st] proposes for [session]. *)
Lemma handleQRScan_marked_inv (st st' : StudentState) (qrCode : string)
    (now : timestamp) (newid : uuid) (today : string) (db db' : DB) :
  handleQRScan st qrCode now newid today db = (db', st', Toast_AttendanceMarked) ->
  exists session,
    find (scan_matches qrCode) (todaySessions st) = Some session
    /\ db_attendance_upsert (profile_user_id st)
         {| att_id := newid; session_id := sess_id session;
            student_id := profile_user_id st; is_present := true;
            method := Some qr; marked_at := Some now |} db = PgOk db'
    /\ st' = {| profile_user_id := profile_user_id st;
                todaySessions := fetchTodaySessions (profile_user_id st) today db';
                showQRScanner := false |}.
Proof.
  unfold handleQRScan.
  destruct (find (scan_matches qrCode) (todaySessions st)) as [session|];
    [|discriminate].
  destruct (db_attendance_upsert _ _ db) as [d|e] eqn:Hup; [|discriminate].
  intros [= <- <-]. exists session. repeat split. exact Hup.
Qed.

Lemma scan_matches_true (qrCode : string) (s : Session) :
  scan_matches qrCode s = true -> qr_code s = Some qrCode /\ is_active s = true.
Proof.
  unfold scan_matches. destruct (qr_code s) as [c|]; simpl; [|discriminate].
  intros H. apply andb_prop in H. destruct H as [Hc Ha].
  apply String.eqb_eq in Hc. now subst.
Qed.

(** X4. Who gets marked, and for what. An accepted scan was matched against
    the component's list: the code is the code of an active session of that
    list, the written record is the scanning student's, present, by "qr", at
    the time of the scan, and the sessions are left alone. When the list was
    fetched by the dashboard, that session is one of the student's enrolled
    classes dated the day of the fetch. *)
Theorem accepted_scan_is_for_a_listed_session (st st' : StudentState) (qrCode : string)
    (now : timestamp) (newid : uuid) (today today0 : string) (db db' dbf : DB) :
  handleQRScan st qrCode now newid today db = (db', st', Toast_AttendanceMarked) ->
  todaySessions st = fetchTodaySessions (profile_user_id st) today0 dbf ->
  exists session,
    In session (sessions dbf)
    /\ session_date session = today0
    /\ enrolled (profile_user_id st) (class_id session) dbf = true
    /\ qr_code session = Some qrCode
    /\ is_active session = true
    /\ In {| att_id := newid; session_id := sess_id session;
             student_id := profile_user_id st; is_present := true;
             method := Some qr; marked_at := Some now |} (attendance db')
    /\ sessions db' = sessions db.
Proof.
  intros Hscan Hlist.
  destruct (handleQRScan_marked_inv _ _ _ _ _ _ _ _ Hscan) as (session & Hfind & Hup & _).
  exists session.
  destruct (find_some _ _ Hfind) as [Hin Hmatch].
  rewrite Hlist in Hin. apply In_fetchTodaySessions_iff in Hin.
  destruct Hin as (Hin & Hdate & Henr).
  destruct (scan_matches_true _ _ Hmatch) as [Hcode Hact].
  repeat (split; [assumption|]).
  destruct (db_attendance_upsert_inv _ _ _ _ Hup) as (_ & _ & _ & _ & tbl & Htbl & ->).
  split; [|reflexivity]. simpl.
  destruct (attendance_upsert_ok_cases _ _ _ Htbl) as [(_ & _ & ->)|(Hid & _ & ->)].
  - apply in_or_app. right. now left.
  - apply existsb_exists in Hid. destruct Hid as (r & Hr & Hsame).
    apply in_map_iff. exists r. rewrite Hsame. split; [reflexivity | assumption].
Qed.

Lemma accepted_scan_witness :
  exists session,
    In session (sessions Classroom.db1)
    /\ session_date session = Classroom.today
    /\ enrolled "sa" (class_id session) Classroom.db1 = true
    /\ qr_code session = Some "T1"%string
    /\ is_active session = true
    /\ In {| att_id := "a1"; session_id := sess_id session; student_id := "sa";
             is_present := true; method := Some qr; marked_at := Some 100 |}
          (attendance (fst (fst Classroom.scan_a1)))
    /\ sessions (fst (fst Classroom.scan_a1)) = sessions Classroom.db1.
Proof.
  apply (accepted_scan_is_for_a_listed_session
           Classroom.sa1 (snd (fst Classroom.scan_a1)) "T1" 100 "a1"
           Classroom.today Classroom.today Classroom.db1
           (fst (fst Classroom.scan_a1)) Classroom.db1); reflexivity.
Defined.

Lemma existsb_false_of_all {A : Type} (f : A -> bool) (l : list A) :
  (forall x, In x l -> f x = false) -> existsb f l = false.
Proof.
  intros H. apply not_true_is_false. intros Hex. apply existsb_exists in Hex.
  destruct Hex as (x & Hx & Hfx). rewrite (H x Hx) in Hfx. discriminate.
Qed.

Lemma db_attendance_upsert_append (uid : uuid) (row : Attendance) (db : DB) :
  may_write_attendance uid db row = true ->
  (forall x, In x (attendance db) -> same_id row x = false) ->
  (forall x, In x (attendance db) -> same_pair row x = false) ->
  existsb (fun s => String.eqb (sess_id s) (session_id row)) (sessions db) = true ->
  existsb (fun p => String.eqb (user_id p) (student_id row)) (profiles db) = true ->
  db_attendance_upsert uid row db = PgOk (with_attendance db (attendance db ++ [row])).
Proof.
  intros Hw Hid Hpair Hfk1 Hfk2. unfold db_attendance_upsert, attendance_upsert.
  rewrite Hw, Hfk1, Hfk2. simpl negb. cbv iota.
  rewrite (existsb_false_of_all
             (fun r => same_id row r && negb (may_write_attendance uid db r))).
  - now rewrite !existsb_false_of_all.
  - intros x Hx. now rewrite (Hid x Hx).
Qed.

(** X5. When a scan succeeds. If the code matches a listed session that is
    still in the store, the student has a profile, the generated key is new
    and the student has no record yet for that session, the scan is reported
    as marked, exactly one record is appended, and the scanner is closed with
    a refreshed list. *)
Theorem first_scan_is_marked (st : StudentState) (qrCode : string) (now : timestamp)
    (newid : uuid) (today : string) (db : DB) (session : Session) :
  find (scan_matches qrCode) (todaySessions st) = Some session ->
  (exists s, In s (sessions db) /\ sess_id s = sess_id session) ->
  (exists p, In p (profiles db) /\ user_id p = profile_user_id st) ->
  (forall r, In r (attendance db) -> att_id r <> newid) ->
  (forall r, In r (attendance db) ->
     session_id r = sess_id session -> student_id r <> profile_user_id st) ->
  handleQRScan st qrCode now newid today db
  = (with_attendance db
       (attendance db
        ++ [ {| att_id := newid; session_id := sess_id session;
                student_id := profile_user_id st; is_present := true;
                method := Some qr; marked_at := Some now |} ]),
     {| profile_user_id := profile_user_id st;
        todaySessions :=
          fetchTodaySessions (profile_user_id st) today
            (with_attendance db
               (attendance db
                ++ [ {| att_id := newid; session_id := sess_id session;
                        student_id := profile_user_id st; is_present := true;
                        method := Some qr; marked_at := Some now |} ]));
        showQRScanner := false |},
     Toast_AttendanceMarked).
Proof.
  intros Hfind (s & Hs & Hsid) (p & Hp & Hpid) Hfresh Hnew.
  unfold handleQRScan. rewrite Hfind.
  rewrite db_attendance_upsert_append; [reflexivity| | | | |].
  - unfold may_write_attendance. simpl. now rewrite String.eqb_refl.
  - intros x Hx. unfold same_id. simpl. apply String.eqb_neq. intros Heq.
    exact (Hfresh x Hx (eq_sym Heq)).
  - intros x Hx. unfold same_pair. simpl. apply not_true_is_false. intros Hpair.
    apply andb_prop in Hpair. destruct Hpair as [H1 H2].
    apply String.eqb_eq in H1, H2. exact (Hnew x Hx (eq_sym H1) (eq_sym H2)).
  - apply existsb_exists. exists s. split; [assumption|]. simpl.
    rewrite Hsid. apply String.eqb_refl.
  - apply existsb_exists. exists p. split; [assumption|]. simpl.
    rewrite Hpid. apply String.eqb_refl.
Qed.

Lemma first_scan_is_marked_witness :
  handleQRScan Classroom.sa1 "T1" 100 "a1" Classroom.today Classroom.db1
  = (with_attendance Classroom.db1 [Classroom.record_a1],
     {| profile_user_id := "sa";
        todaySessions :=
          fetchTodaySessions "sa" Classroom.today
            (with_attendance Classroom.db1 [Classroom.record_a1]);
        showQRScanner := false |},
     Toast_AttendanceMarked).
Proof.
  apply (first_scan_is_marked Classroom.sa1 "T1" 100 "a1" Classroom.today
           Classroom.db1 Classroom.s1_started).
  - reflexivity.
  - exists Classroom.s1_started. split; [simpl; now left | reflexivity].
  - exists (mkProfile "sa" "Asha" (Some "R-01"%string) student).
    split; [simpl; tauto | reflexivity].
  - simpl. tauto.
  - simpl. tauto.
Defined.

(** X6. A student cannot be marked twice for a session. Once a scan has
    been reported as marked, a further scan of the same code against the
    same list, at any time and with any new key generated for it, is
    reported as failed and leaves the store as it is. *)
Theorem repeated_scan_is_refused (st st' : StudentState) (qrCode : string)
    (now now2 : timestamp) (newid newid2 : uuid) (today today2 : string) (db db' : DB) :
  handleQRScan st qrCode now newid today db = (db', st', Toast_AttendanceMarked) ->
  (forall x, In x (attendance db') -> att_id x <> newid2) ->
  handleQRScan st qrCode now2 newid2 today2 db' = (db', st, Toast_FailedToMarkAttendance).
Proof.
  intros Hscan Hfresh.
  destruct (handleQRScan_marked_inv _ _ _ _ _ _ _ _ Hscan) as (session & Hfind & Hup & _).
  destruct (db_attendance_upsert_inv _ _ _ _ Hup) as (_ & _ & _ & _ & tbl & Htbl & ->).
  apply (second_scan_fails st qrCode now2 newid2 today2 _ session
           {| att_id := newid; session_id := sess_id session;
              student_id := profile_user_id st; is_present := true;
              method := Some qr; marked_at := Some now |});
    try reflexivity; try assumption.
  simpl. destruct (attendance_upsert_ok_cases _ _ _ Htbl) as [(_ & _ & ->)|(Hid & _ & ->)].
  - apply in_or_app. right. now left.
  - apply existsb_exists in Hid. destruct Hid as (r & Hr & Hsame).
    apply in_map_iff. exists r. rewrite Hsame. split; [reflexivity | assumption].
Qed.

Lemma repeated_scan_is_refused_witness :
  handleQRScan Classroom.sa1 "T1" 200 "a2" Classroom.today (fst (fst Classroom.scan_a1))
  = (fst (fst Classroom.scan_a1), Classroom.sa1, Toast_FailedToMarkAttendance).
Proof.
  apply (repeated_scan_is_refused Classroom.sa1 (snd (fst Classroom.scan_a1)) "T1"
           100 200 "a1" "a2" Classroom.today Classroom.today Classroom.db1
           (fst (fst Classroom.scan_a1))).
  - reflexivity.
  - simpl. intros x [<-|[]]. discriminate.
Defined.

Lemma find_map_invariant {A : Type} (f : A -> bool) (g : A -> A) (l : list A) :
  (forall x, f (g x) = f x) -> find f (map g l) = option_map g (find f l).
Proof.
  intros H. induction l as [|a l IH]; simpl.
  - reflexivity.
  - rewrite H. destruct (f a); [reflexivity | exact IH].
Qed.

(** X7. What decides a scan. Neither the time of the scan nor the expiry
    stored with the sessions of the list plays a part: the same scan at
    another time has the same outcome, and with any other expiry values in
    the list it has the same outcome and leaves the same store. *)
Theorem scan_ignores_time_and_expiry (st : StudentState) (qrCode : string)
    (now now' : timestamp) (newid : uuid) (today : string) (db : DB)
    (expiry : Session -> option timestamp) :
  snd (handleQRScan st qrCode now newid today db)
  = snd (handleQRScan st qrCode now' newid today db)
  /\ snd (handleQRScan (with_expiries expiry st) qrCode now newid today db)
     = snd (handleQRScan st qrCode now newid today db)
  /\ fst (fst (handleQRScan (with_expiries expiry st) qrCode now newid today db))
     = fst (fst (handleQRScan st qrCode now newid today db)).
Proof.
  split; [apply handleQRScan_outcome_ignores_time|].
  unfold handleQRScan, with_expiries. cbn [todaySessions profile_user_id].
  rewrite find_map_invariant by reflexivity.
  destruct (find (scan_matches qrCode) (todaySessions st)) as [session|]; simpl.
  - change (sess_id (set_expiry expiry session)) with (sess_id session).
    destruct (db_attendance_upsert _ _ db); split; reflexivity.
  - split; reflexivity.
Qed.

(** X8. What a scan never does to the records that are there. Every record
    of the table is still there after the scan, except a record that has
    the generated key and that the scanning user may write; the table never
    shrinks. *)
Theorem scan_keeps_existing_records (st : StudentState) (qrCode : string)
    (now : timestamp) (newid : uuid) (today : string) (db : DB) (x : Attendance) :
  In x (attendance db) ->
  att_id x <> newid \/ may_write_attendance (profile_user_id st) db x = false ->
  In x (attendance (fst (fst (handleQRScan st qrCode now newid today db))))
  /\ (length (attendance db)
      <= length (attendance (fst (fst (handleQRScan st qrCode now newid today db)))))%nat.
Proof.
  intros Hx Hkeep.
  destruct (handleQRScan st qrCode now newid today db) as [[db' st'] toast] eqn:Hscan.
  destruct toast;
    try (destruct (handleQRScan_cases st qrCode now newid today db)
           as [[_ H]|[(s & _ & H)|(s & tbl & st0 & _ & H)]];
         rewrite Hscan in H; inversion H; subst; simpl; auto; fail).
  destruct (handleQRScan_marked_inv _ _ _ _ _ _ _ _ Hscan) as (session & _ & Hup & _).
  destruct (db_attendance_upsert_inv _ _ _ _ Hup) as (_ & Hrls & _ & _ & tbl & Htbl & ->).
  simpl.
  destruct (attendance_upsert_ok_cases _ _ _ Htbl) as [(_ & _ & ->)|(_ & _ & ->)].
  - split.
    + apply in_or_app. now left.
    + rewrite length_app. simpl. lia.
  - split; [|now rewrite length_map].
    apply in_map_iff. exists x. split; [|assumption].
    destruct (same_id _ x) eqn:Hsame; [|reflexivity].
    exfalso. destruct Hkeep as [Hne|Hno].
    + unfold same_id in Hsame. simpl in Hsame. apply String.eqb_eq in Hsame.
      now apply Hne.
    + assert (Hex : existsb
                      (fun r => same_id
                                  {| att_id := newid; session_id := sess_id session;
                                     student_id := profile_user_id st;
                                     is_present := true; method := Some qr;
                                     marked_at := Some now |} r
                                && negb (may_write_attendance (profile_user_id st) db r))
                      (attendance db) = true).
      { apply existsb_exists. exists x. split; [assumption|].
        now rewrite Hsame, Hno. }
      congruence.
Qed.

Lemma scan_keeps_existing_records_witness :
  In Classroom.record_a1 (attendance (fst (fst Classroom.scan_b1))).
Proof.
  apply (scan_keeps_existing_records Classroom.sb1 "T1" 300 "a3" Classroom.today
           (fst (fst Classroom.scan_a2)) Classroom.record_a1).
  - simpl. now left.
  - left. discriminate.
Defined.

(** ** Constraints of the schema along the operations *)

Lemma same_pair_of (a b : Attendance) : pair_of a = pair_of b -> same_pair a b = true.
Proof.
  unfold pair_of, same_pair. intros [= -> ->]. now rewrite !String.eqb_refl.
Qed.

Lemma upsert_keeps_pkey (row : Attendance) (tbl tbl' : list Attendance) :
  NoDup (map att_id tbl) ->
  attendance_upsert row tbl = PgOk tbl' ->
  NoDup (map att_id tbl').
Proof.
  intros Hpk Hup.
  destruct (attendance_upsert_ok_cases _ _ _ Hup) as [(Hid & _ & ->)|(_ & _ & ->)].
  - rewrite map_app. simpl. apply NoDup_Add with (a := att_id row) (l := map att_id tbl).
    + clear. induction (map att_id tbl); simpl; constructor; assumption.
    + split; [assumption|]. intros Hin. apply in_map_iff in Hin.
      destruct Hin as (x & Hx & Hin).
      assert (Hex : existsb (same_id row) tbl = true).
      { apply existsb_exists. exists x. split; [assumption|].
        unfold same_id. rewrite Hx. apply String.eqb_refl. }
      congruence.
  - rewrite map_map.
    replace (map (fun r => att_id (if same_id row r then row else r)) tbl)
      with (map att_id tbl); [assumption|].
    apply map_ext. intros r. unfold same_id.
    destruct (String.eqb_spec (att_id row) (att_id r)) as [Heq|_]; congruence.
Qed.

Lemma replace_keeps_unique (row : Attendance) (tbl : list Attendance) :
  NoDup (map att_id tbl) ->
  NoDup (map pair_of tbl) ->
  (forall r, In r tbl -> same_id row r = false -> same_pair row r = false) ->
  NoDup (map pair_of (map (fun r => if same_id row r then row else r) tbl)).
Proof.
  induction tbl as [|r l IH]; simpl; intros Hpk Hun Hc.
  - constructor.
  - inversion Hpk as [|i il Hi Hpk']; subst. inversion Hun as [|q ql Hq Hun']; subst.
    constructor.
    + intros Hin. rewrite map_map in Hin. apply in_map_iff in Hin.
      destruct Hin as (y & Hy & Hyl).
      destruct (same_id row r) eqn:Hr.
      * assert (Hyid : same_id row y = false).
        { unfold same_id in *. apply String.eqb_eq in Hr. apply String.eqb_neq.
          intros Heq. apply Hi. rewrite <- Hr, Heq. now apply in_map. }
        rewrite Hyid in Hy.
        pose proof (Hc y (or_intror Hyl) Hyid) as Hno.
        rewrite (same_pair_of row y (eq_sym Hy)) in Hno. discriminate.
      * pose proof (Hc r (or_introl eq_refl) Hr) as Hno.
        destruct (same_id row y) eqn:Hyid.
        -- rewrite (same_pair_of row r Hy) in Hno. discriminate.
        -- apply Hq. rewrite <- Hy. now apply in_map.
    + apply IH; auto.
Qed.

Lemma upsert_keeps_unique (row : Attendance) (tbl tbl' : list Attendance) :
  NoDup (map att_id tbl) ->
  NoDup (map pair_of tbl) ->
  attendance_upsert row tbl = PgOk tbl' ->
  NoDup (map pair_of tbl').
Proof.
  intros Hpk Hun Hup.
  destruct (attendance_upsert_ok_cases _ _ _ Hup) as [(_ & Hp & ->)|(_ & Hc & ->)].
  - rewrite map_app. simpl. apply NoDup_Add with (a := pair_of row) (l := map pair_of tbl).
    + clear. induction (map pair_of tbl); simpl; constructor; assumption.
    + split; [assumption|]. intros Hin. apply in_map_iff in Hin.
      destruct Hin as (x & Hx & Hin).
      assert (Hex : existsb (same_pair row) tbl = true).
      { apply existsb_exists. exists x. split; [assumption|].
        now apply same_pair_of. }
      congruence.
  - apply replace_keeps_unique; try assumption.
    intros r Hr Hid. apply not_true_is_false. intros Hpair.
    assert (Hex : existsb (fun r0 => negb (same_id row r0) && same_pair row r0) tbl = true).
    { apply existsb_exists. exists r. split; [assumption|]. now rewrite Hid, Hpair. }
    congruence.
Qed.

Lemma attendance_update_keeps_keys (uid : uuid) (patch : Attendance -> Attendance)
    (recordId : uuid) (db : DB) :
  (forall r, att_id (patch r) = att_id r /\ pair_of (patch r) = pair_of r) ->
  map att_id (attendance_update uid patch recordId db) = map att_id (attendance db)
  /\ map pair_of (attendance_update uid patch recordId db) = map pair_of (attendance db).
Proof.
  intros Hp. unfold attendance_update. rewrite !map_map.
  split; apply map_ext; intros r; destruct (_ && _); try reflexivity; apply Hp.
Qed.

Lemma step_keeps_constraints (a : Action) (db : DB) :
  constraints_hold db -> constraints_hold (step a db).
Proof.
  unfold constraints_hold, sessions_pkey, attendance_pkey, attendance_unique.
  fold pair_of. intros (Hs & Hpk & Hun).
  destruct a as [uid sid c e t|uid sid t|uid today|st c now newid today|o uid sess
                 |o uid sess rid cur now|f recs]; simpl; auto.
  - rewrite sessions_update_keeps_ids; auto.
  - rewrite sessions_update_keeps_ids; auto.
  - destruct (handleQRScan st c now newid today db) as [[db' st'] toast] eqn:Hscan.
    destruct (handleQRScan_cases st c now newid today db)
      as [[_ H]|[(s & _ & H)|(s & tbl & st0 & _ & H)]];
      rewrite Hscan in H; inversion H; subst; simpl; auto.
    destruct (handleQRScan_marked_inv _ _ _ _ _ _ _ _ Hscan) as (session & _ & Hup & _).
    destruct (db_attendance_upsert_inv _ _ _ _ Hup) as (_ & _ & _ & _ & t & Ht & Heq).
    assert (tbl = t) as -> by (now inversion Heq).
    split; [assumption|]. split.
    + exact (upsert_keeps_pkey _ _ _ Hpk Ht).
    + exact (upsert_keeps_unique _ _ _ Hpk Hun Ht).
  - destruct (attendance_update_keeps_keys uid (manual_patch cur now) rid db) as [-> ->].
    + intros r. split; reflexivity.
    + auto.
Qed.

(** X9. Every operation keeps the constraints of the schema: the primary
    keys of [sessions] and [attendance] and UNIQUE(session_id, student_id),
    so that along every sequence of operations there is at most one
    attendance record per session and student, whatever keys are generated. *)
Theorem constraints_are_preserved (l : list Action) (db : DB) :
  sessions_pkey db -> attendance_pkey db -> attendance_unique db ->
  sessions_pkey (run l db) /\ attendance_pkey (run l db) /\ attendance_unique (run l db).
Proof.
  intros Hs Hpk Hun. change (constraints_hold (run l db)).
  assert (H : constraints_hold db) by (repeat split; assumption).
  clear Hs Hpk Hun. unfold run. revert db H.
  induction l as [|a l IH]; simpl; intros db H.
  - exact H.
  - apply IH. now apply step_keeps_constraints.
Qed.

Lemma constraints_are_preserved_witness :
  attendance_unique
    (run [ Do_startSession "t1" "s1" "T1" 1800000 0;
           Do_handleQRScan Classroom.sa1 "T1" 100 "a1" Classroom.today;
           Do_handleQRScan Classroom.sa1 "T1" 200 "a1" Classroom.today;
           Do_toggleAttendance table_order "t1" "s1" "a1" true 300 ]
       Classroom.db0).
Proof.
  apply (constraints_are_preserved
           [ Do_startSession "t1" "s1" "T1" 1800000 0;
             Do_handleQRScan Classroom.sa1 "T1" 100 "a1" Classroom.today;
             Do_handleQRScan Classroom.sa1 "T1" 200 "a1" Classroom.today;
             Do_toggleAttendance table_order "t1" "s1" "a1" true 300 ]
           Classroom.db0).
  - repeat constructor. simpl. tauto.
  - constructor.
  - constructor.
Defined.

Lemma step_keeps_active_iff_code (a : Action) (db : DB) :
  db_active_iff_code db = true -> db_active_iff_code (step a db) = true.
Proof.
  unfold db_active_iff_code. intros H.
  destruct (step_keeps_sessions_or_updates a db)
    as [->|[(uid & sid & c & e & t & ->)|(uid & sid & t & ->)]].
  - assumption.
  - rewrite forallb_forall in *. intros s' Hs'.
    destruct (In_sessions_update _ _ _ _ _ _ Hs') as (s & Hs & [(_ & _ & ->)|(_ & ->)]);
      [reflexivity | now apply H].
  - rewrite forallb_forall in *. intros s' Hs'.
    destruct (In_sessions_update _ _ _ _ _ _ Hs') as (s & Hs & [(_ & _ & ->)|(_ & ->)]);
      [reflexivity | now apply H].
Qed.

(** X10. A session is active exactly when it carries a code: this holds
    after every sequence of operations on a store in which it holds, so an
    active session always has a code to show and a stopped one never has. *)
Theorem active_exactly_when_code (l : list Action) (db : DB) (s : Session) :
  db_active_iff_code db = true ->
  In s (sessions (run l db)) ->
  (is_active s = true <-> exists c, qr_code s = Some c).
Proof.
  intros H Hs.
  assert (Hrun : db_active_iff_code (run l db) = true).
  { unfold run. revert db H Hs. induction l as [|a l IH]; simpl; intros db H Hs.
    - assumption.
    - apply (IH (step a db)); [now apply step_keeps_active_iff_code | assumption]. }
  unfold db_active_iff_code in Hrun. rewrite forallb_forall in Hrun.
  specialize (Hrun s Hs). unfold active_iff_code in Hrun.
  destruct (is_active s), (qr_code s) as [c|]; simpl in Hrun; try discriminate.
  - split; [intros _; now exists c | reflexivity].
  - split; [discriminate | intros [c Hc]; discriminate].
Qed.

Lemma active_exactly_when_code_witness :
  is_active (update_updated_at_column 1000 (start_patch "T2" 1801000 Classroom.s1)) = true
  <-> exists c,
        qr_code (update_updated_at_column 1000 (start_patch "T2" 1801000 Classroom.s1))
        = Some c.
Proof.
  apply (active_exactly_when_code
           [ Do_startSession "t1" "s1" "T1" 1800000 0; Do_stopSession "t1" "s1" 500;
             Do_startSession "t1" "s1" "T2" 1801000 1000 ]
           Classroom.db0).
  - reflexivity.
  - simpl. now left.
Defined.

(** ** How start, stop and the override compose *)

Lemma sessions_update_twice (uid : uuid) (p q : Session -> Session) (sid : uuid)
    (t1 t2 : timestamp) (tbl : list Session) :
  (forall s, sess_id (p s) = sess_id s /\ teacher_id (p s) = teacher_id s) ->
  (forall s, update_updated_at_column t2 (q (update_updated_at_column t1 (p s)))
             = update_updated_at_column t2 (q s)) ->
  sessions_update uid q sid t2 (sessions_update uid p sid t1 tbl)
  = sessions_update uid q sid t2 tbl.
Proof.
  intros Hp Hqp. unfold sessions_update, teacher_manages_session.
  rewrite map_map. apply map_ext. intros s.
  destruct (String.eqb (sess_id s) sid && String.eqb uid (teacher_id s)) eqn:Hs.
  - cbn [sess_id teacher_id update_updated_at_column].
    destruct (Hp s) as [-> ->]. now rewrite Hs, Hqp.
  - now rewrite Hs.
Qed.

Lemma sessions_update_commute (u1 u2 : uuid) (p q : Session -> Session)
    (sid1 sid2 : uuid) (t1 t2 : timestamp) (tbl : list Session) :
  sid1 <> sid2 ->
  (forall s, sess_id (p s) = sess_id s /\ teacher_id (p s) = teacher_id s) ->
  (forall s, sess_id (q s) = sess_id s /\ teacher_id (q s) = teacher_id s) ->
  sessions_update u1 p sid1 t1 (sessions_update u2 q sid2 t2 tbl)
  = sessions_update u2 q sid2 t2 (sessions_update u1 p sid1 t1 tbl).
Proof.
  intros Hne Hp Hq. unfold sessions_update, teacher_manages_session.
  rewrite !map_map. apply map_ext. intros s.
  destruct (Hp s) as [Hpi Hpt]. destruct (Hq s) as [Hqi Hqt].
  destruct (String.eqb (sess_id s) sid1 && String.eqb u1 (teacher_id s)) eqn:C1;
    destruct (String.eqb (sess_id s) sid2 && String.eqb u2 (teacher_id s)) eqn:C2;
    cbv iota; cbn [sess_id teacher_id update_updated_at_column].
  - apply andb_prop in C1, C2. destruct C1 as [C1 _], C2 as [C2 _].
    apply String.eqb_eq in C1, C2. congruence.
  - rewrite ?Hpi, ?Hpt, ?C1, ?C2. reflexivity.
  - rewrite ?Hqi, ?Hqt, ?C1, ?C2. reflexivity.
  - rewrite ?C1, ?C2. reflexivity.
Qed.

(** X11. On one session the last of start and stop wins: the store after
    start-then-start, start-then-stop or stop-then-start by the same user is
    the store the last operation alone would have left, so neither a prior
    code nor a prior stop leaves a trace, nor does the time of the prior
    operation. *)
Theorem last_session_write_wins (uid sid : uuid) (c1 c2 : string)
    (expires1 expires2 now1 now2 : timestamp) (db : DB) :
  fst (startSession uid sid c2 expires2 now2
         (fst (startSession uid sid c1 expires1 now1 db)))
  = fst (startSession uid sid c2 expires2 now2 db)
  /\ fst (stopSession uid sid now2 (fst (startSession uid sid c1 expires1 now1 db)))
     = fst (stopSession uid sid now2 db)
  /\ fst (startSession uid sid c2 expires2 now2 (fst (stopSession uid sid now1 db)))
     = fst (startSession uid sid c2 expires2 now2 db).
Proof.
  unfold startSession, stopSession, with_sessions. simpl.
  repeat split; f_equal; apply sessions_update_twice; intros s;
    try split; reflexivity.
Qed.

(** X12. Operations on two different sessions do not interfere: starting
    or stopping one and starting or stopping the other give the same store
    in either order. *)
Theorem session_writes_commute (u1 u2 sid1 sid2 : uuid) (c1 c2 : string)
    (expires1 expires2 now1 now2 : timestamp) (db : DB) :
  sid1 <> sid2 ->
  fst (startSession u1 sid1 c1 expires1 now1
         (fst (startSession u2 sid2 c2 expires2 now2 db)))
  = fst (startSession u2 sid2 c2 expires2 now2
           (fst (startSession u1 sid1 c1 expires1 now1 db)))
  /\ fst (startSession u1 sid1 c1 expires1 now1 (fst (stopSession u2 sid2 now2 db)))
     = fst (stopSession u2 sid2 now2 (fst (startSession u1 sid1 c1 expires1 now1 db)))
  /\ fst (stopSession u1 sid1 now1 (fst (stopSession u2 sid2 now2 db)))
     = fst (stopSession u2 sid2 now2 (fst (stopSession u1 sid1 now1 db))).
Proof.
  intros Hne. unfold startSession, stopSession, with_sessions. simpl.
  repeat split; f_equal; apply sessions_update_commute; try assumption;
    intros s; split; reflexivity.
Qed.

Lemma session_writes_commute_witness :
  fst (startSession "t1" "s1" "T2" 1801000 1000
         (fst (stopSession "t1" "s2" 1000 Classroom.db2_shared_code)))
  = fst (stopSession "t1" "s2" 1000
           (fst (startSession "t1" "s1" "T2" 1801000 1000 Classroom.db2_shared_code))).
Proof.
  apply (session_writes_commute "t1" "t1" "s1" "s2" "T2" "T2" 1801000 1801000 1000 1000
           Classroom.db2_shared_code).
  discriminate.
Defined.

(** X13. The override on a record that is not there. When no record has
    the given id, the store is left as it is and the handler still reports
    the attendance as updated; and on every call the table keeps its
    length, its ids and the session and student of each record: the
    override creates, deletes and moves nothing. *)
Theorem override_of_missing_record (o : RowOrder Attendance)
    (uid session recordId : uuid) (currentStatus : bool) (now : timestamp) (db : DB) :
  (forall r, In r (attendance db) -> att_id r <> recordId) ->
  toggleAttendance o uid session recordId currentStatus now db
  = (db, fetchAttendance o uid session db, Toast_AttendanceUpdated)
  /\ forall o0 uid0 session0 recordId0 currentStatus0 now0 db0,
       map (fun r => (att_id r, session_id r, student_id r))
           (attendance
              (fst (fst (toggleAttendance o0 uid0 session0 recordId0 currentStatus0 now0
                           db0))))
       = map (fun r => (att_id r, session_id r, student_id r)) (attendance db0).
Proof.
  intros Hnone. split.
  - unfold toggleAttendance.
    assert (Hsame : attendance_update uid (manual_patch currentStatus now) recordId db
                    = attendance db).
    { unfold attendance_update. apply map_id_on. intros r Hr.
      destruct (String.eqb_spec (att_id r) recordId) as [Heq|_]; [|reflexivity].
      now destruct (Hnone r Hr). }
    rewrite Hsame, with_attendance_same. reflexivity.
  - intros. simpl. unfold attendance_update. rewrite map_map. apply map_ext.
    intros r. now destruct (_ && _).
Qed.

Lemma override_of_missing_record_witness :
  toggleAttendance reverse_order "t1" "s1" "nope" true 500 (fst (fst Classroom.scan_a1))
  = (fst (fst Classroom.scan_a1),
     fetchAttendance reverse_order "t1" "s1" (fst (fst Classroom.scan_a1)),
     Toast_AttendanceUpdated).
Proof.
  apply (override_of_missing_record reverse_order "t1" "s1" "nope" true 500
           (fst (fst Classroom.scan_a1))).
  simpl. intros r [<-|[]]. discriminate.
Defined.

(** X14. Two overrides of one record by the same user: the second one
    wins. In particular, toggling a record and toggling it back restores
    its presence, but the record then says "manual" and carries the time of
    the second override: the method and time of the scan are gone. *)
Theorem second_override_wins (o : RowOrder Attendance) (uid session recordId : uuid)
    (cur1 cur2 : bool) (now1 now2 : timestamp) (db : DB) :
  fst (fst (toggleAttendance o uid session recordId cur2 now2
              (fst (fst (toggleAttendance o uid session recordId cur1 now1 db)))))
  = fst (fst (toggleAttendance o uid session recordId cur2 now2 db))
  /\ forall r, In r (attendance db) -> att_id r = recordId ->
       may_write_attendance uid db r = true ->
       In {| att_id := att_id r; session_id := session_id r;
             student_id := student_id r; is_present := is_present r;
             method := Some manual; marked_at := Some now2 |}
          (attendance
             (fst (fst (toggleAttendance o uid session recordId
                          (negb (is_present r)) now2
                          (fst (fst (toggleAttendance o uid session recordId
                                       (is_present r) now1 db))))))).
Proof.
  assert (Htwice : forall c1 c2,
            fst (fst (toggleAttendance o uid session recordId c2 now2
                        (fst (fst (toggleAttendance o uid session recordId c1 now1 db)))))
            = fst (fst (toggleAttendance o uid session recordId c2 now2 db))).
  { intros c1 c2. unfold toggleAttendance, with_attendance. simpl. f_equal.
    unfold attendance_update. simpl. rewrite map_map. apply map_ext. intros r.
    change (may_write_attendance uid
              {| profiles := profiles db; class_enrollments := class_enrollments db;
                 sessions := sessions db;
                 attendance := map (fun r0 => if String.eqb (att_id r0) recordId
                                                 && may_write_attendance uid db r0
                                              then manual_patch c1 now1 r0 else r0)
                                   (attendance db) |})
      with (may_write_attendance uid db).
    destruct (String.eqb (att_id r) recordId && may_write_attendance uid db r) eqn:Hr.
    - change (att_id (manual_patch c1 now1 r)) with (att_id r).
      change (may_write_attendance uid db (manual_patch c1 now1 r))
        with (may_write_attendance uid db r).
      now rewrite Hr.
    - now rewrite Hr. }
  split; [apply Htwice|].
  intros r Hr Hid Hw. rewrite Htwice. subst recordId. simpl.
  unfold attendance_update. apply in_map_iff. exists r. split; [|assumption].
  rewrite String.eqb_refl, Hw. simpl. unfold manual_patch.
  now rewrite negb_involutive.
Qed.

Lemma second_override_wins_witness :
  In {| att_id := "a1"; session_id := "s1"; student_id := "sa";
        is_present := true; method := Some manual; marked_at := Some 600 |}
     (attendance
        (fst (fst (toggleAttendance table_order "t1" "s1" "a1" false 600
                     (fst (fst (toggleAttendance table_order "t1" "s1" "a1" true 500
                                  (fst (fst Classroom.scan_a1))))))))).
Proof.
  apply (proj2 (second_override_wins table_order "t1" "s1" "a1" true false 500 600
                  (fst (fst Classroom.scan_a1))) Classroom.record_a1).
  - simpl. now left.
  - reflexivity.
  - reflexivity.
Defined.

(** ** What the attendance view shows *)

Lemma In_join_profile (db : DB) (r : Attendance) (rec : AttendanceRecord) :
  In rec (join_profile db r) ->
  exists p, In p (profiles db) /\ user_id p = student_id r
            /\ rec = {| rec_id := att_id r; rec_student_id := student_id r;
                        rec_is_present := is_present r; rec_method := method r;
                        rec_marked_at := marked_at r; profiles_name := name p;
                        profiles_roll_number := roll_number p |}.
Proof.
  unfold join_profile.
  destruct (find (fun p => String.eqb (user_id p) (student_id r)) (profiles db))
    as [p|] eqn:Hfind; simpl; [|contradiction].
  intros [<-|[]]. exists p. destruct (find_some _ _ Hfind) as [Hp Heq].
  apply String.eqb_eq in Heq. auto.
Qed.

Lemma join_profile_found (db : DB) (r : Attendance) :
  (exists p, In p (profiles db) /\ user_id p = student_id r) ->
  exists p, In p (profiles db) /\ user_id p = student_id r
            /\ join_profile db r
               = [ {| rec_id := att_id r; rec_student_id := student_id r;
                      rec_is_present := is_present r; rec_method := method r;
                      rec_marked_at := marked_at r; profiles_name := name p;
                      profiles_roll_number := roll_number p |} ].
Proof.
  intros (p0 & Hp0 & Hid). unfold join_profile.
  destruct (find (fun p => String.eqb (user_id p) (student_id r)) (profiles db))
    as [p|] eqn:Hfind.
  - exists p. destruct (find_some _ _ Hfind) as [Hp Heq].
    apply String.eqb_eq in Heq. auto.
  - exfalso. pose proof (find_none _ _ Hfind p0 Hp0) as Hno. simpl in Hno.
    rewrite Hid, String.eqb_refl in Hno. discriminate.
Qed.

Lemma In_fetchAttendance (o : RowOrder Attendance) (uid session : uuid) (db : DB)
    (rec : AttendanceRecord) :
  In rec (fetchAttendance o uid session db)
  <-> exists r, In r (attendance db)
                /\ session_id r = session
                /\ may_read_attendance uid db r = true
                /\ In rec (join_profile db r).
Proof.
  unfold fetchAttendance. rewrite in_flat_map. split.
  - intros (r & Hr & Hrec). apply (Permutation_in _ (reorder_perm o _)) in Hr.
    apply filter_In in Hr. destruct Hr as [Hr Hok].
    apply andb_prop in Hok. destruct Hok as [Hs Hread]. apply String.eqb_eq in Hs.
    exists r. auto.
  - intros (r & Hr & Hs & Hread & Hrec). exists r. split; [|exact Hrec].
    apply (Permutation_in _ (Permutation_sym (reorder_perm o _))).
    apply filter_In. split; [exact Hr|]. rewrite Hread, andb_true_r.
    now apply String.eqb_eq.
Qed.

(** X15. The attendance view shows a user only what the policies let the
    user read: every listed record is a stored record of the requested
    session, with the stored values and the student's name, and it is the
    user's own record unless the user teaches the session. A user who
    neither teaches the session nor has a record in it gets an empty list. *)
Theorem fetchAttendance_shows_only_permitted (o : RowOrder Attendance)
    (uid session : uuid) (db : DB) :
  (forall rec, In rec (fetchAttendance o uid session db) ->
     exists r p,
       In r (attendance db) /\ In p (profiles db)
       /\ session_id r = session /\ user_id p = student_id r
       /\ rec = {| rec_id := att_id r; rec_student_id := student_id r;
                   rec_is_present := is_present r; rec_method := method r;
                   rec_marked_at := marked_at r; profiles_name := name p;
                   profiles_roll_number := roll_number p |}
       /\ (student_id r = uid \/ teaches_session uid session db = true))
  /\ (teaches_session uid session db = false ->
      (forall rec, In rec (fetchAttendance o uid session db) -> rec_student_id rec = uid)
      /\ ((forall r, In r (attendance db) -> session_id r = session ->
                     student_id r <> uid) ->
          fetchAttendance o uid session db = [])).
Proof.
  assert (Hall : forall rec, In rec (fetchAttendance o uid session db) ->
            exists r p,
              In r (attendance db) /\ In p (profiles db)
              /\ session_id r = session /\ user_id p = student_id r
              /\ rec = {| rec_id := att_id r; rec_student_id := student_id r;
                          rec_is_present := is_present r; rec_method := method r;
                          rec_marked_at := marked_at r; profiles_name := name p;
                          profiles_roll_number := roll_number p |}
              /\ (student_id r = uid \/ teaches_session uid session db = true)).
  { intros rec Hrec. apply In_fetchAttendance in Hrec.
    destruct Hrec as (r & Hr & Hs & Hread & Hrec).
    destruct (In_join_profile _ _ _ Hrec) as (p & Hp & Hid & ->).
    exists r, p. repeat (split; [assumption || reflexivity|]).
    unfold may_read_attendance in Hread. apply orb_prop in Hread.
    destruct Hread as [H|H].
    - left. apply String.eqb_eq in H. now symmetry.
    - right. now rewrite <- Hs. }
  split; [exact Hall|].
  intros Hno. split.
  - intros rec Hrec. destruct (Hall rec Hrec) as (r & p & _ & _ & _ & _ & -> & [H|H]).
    + exact H.
    + congruence.
  - intros Hnone. destruct (fetchAttendance o uid session db) as [|rec l] eqn:Hf;
      [reflexivity|].
    exfalso. destruct (Hall rec (or_introl eq_refl))
      as (r & p & Hr & _ & Hs & _ & _ & [H|H]).
    + exact (Hnone r Hr Hs H).
    + congruence.
Qed.

Lemma fetchAttendance_shows_only_permitted_witness :
  fetchAttendance reverse_order "sx" "s1" (fst (fst Classroom.scan_b1)) = [].
Proof.
  apply (fetchAttendance_shows_only_permitted reverse_order "sx" "s1"
           (fst (fst Classroom.scan_b1))).
  - reflexivity.
  - simpl. intros r [<-|[<-|[]]] _; discriminate.
Defined.

Lemma fetchAttendance_teacher_rows (uid session : uuid) (db : DB)
    (tbl : list Attendance) :
  teaches_session uid session db = true ->
  (forall r, In r tbl -> exists p, In p (profiles db) /\ user_id p = student_id r) ->
  map (fun rec => (rec_id rec, rec_student_id rec, rec_is_present rec, rec_method rec,
                   rec_marked_at rec))
      (flat_map (join_profile db)
         (filter (fun r => String.eqb (session_id r) session
                           && may_read_attendance uid db r) tbl))
  = map (fun r => (att_id r, student_id r, is_present r, method r, marked_at r))
        (filter (fun r => String.eqb (session_id r) session) tbl).
Proof.
  intros Ht. induction tbl as [|r l IH]; intros Hfk; simpl.
  - reflexivity.
  - assert (IH' := IH (fun x Hx => Hfk x (or_intror Hx))).
    destruct (String.eqb_spec (session_id r) session) as [Hs|Hs]; simpl.
    + unfold may_read_attendance at 1. rewrite Hs, Ht, orb_true_r. simpl.
      destruct (join_profile_found db r (Hfk r (or_introl eq_refl)))
        as (p & _ & _ & ->).
      simpl. now rewrite IH'.
    + exact IH'.
Qed.

(** X16. The teacher of a session sees every record of the session, once
    each and with the stored values, as soon as every record's student has
    a profile (the foreign key): the list holds the records of the session
    up to their order, which is the database's to choose. *)
Theorem fetchAttendance_complete_for_teacher (o : RowOrder Attendance)
    (uid session : uuid) (db : DB) :
  teaches_session uid session db = true ->
  (forall r, In r (attendance db) ->
     exists p, In p (profiles db) /\ user_id p = student_id r) ->
  Permutation
    (map (fun rec => (rec_id rec, rec_student_id rec, rec_is_present rec, rec_method rec,
                      rec_marked_at rec))
         (fetchAttendance o uid session db))
    (map (fun r => (att_id r, student_id r, is_present r, method r, marked_at r))
         (filter (fun r => String.eqb (session_id r) session) (attendance db)))
  /\ length (fetchAttendance o uid session db)
     = length (filter (fun r => String.eqb (session_id r) session) (attendance db)).
Proof.
  intros Ht Hfk.
  assert (Hperm : Permutation
            (map (fun rec => (rec_id rec, rec_student_id rec, rec_is_present rec,
                              rec_method rec, rec_marked_at rec))
                 (fetchAttendance o uid session db))
            (map (fun r => (att_id r, student_id r, is_present r, method r, marked_at r))
                 (filter (fun r => String.eqb (session_id r) session) (attendance db)))).
  { rewrite <- (fetchAttendance_teacher_rows uid session db (attendance db) Ht Hfk).
    apply Permutation_map. unfold fetchAttendance. apply Permutation_flat_map.
    apply reorder_perm. }
  split; [exact Hperm|].
  apply Permutation_length in Hperm. now rewrite !length_map in Hperm.
Qed.

Lemma fetchAttendance_complete_witness :
  Permutation
    (map (fun rec => (rec_id rec, rec_student_id rec, rec_is_present rec, rec_method rec,
                      rec_marked_at rec))
         (fetchAttendance reverse_order "t1" "s1" (fst (fst Classroom.scan_b1))))
    [ ("a1", "sa", true, Some qr, Some 100); ("a3", "sb", true, Some qr, Some 300) ]%string
  /\ map rec_id (fetchAttendance reverse_order "t1" "s1" (fst (fst Classroom.scan_b1)))
     = ["a3"; "a1"]%string.
Proof.
  split; [|reflexivity].
  apply (fetchAttendance_complete_for_teacher reverse_order "t1" "s1"
           (fst (fst Classroom.scan_b1))).
  - reflexivity.
  - simpl. intros r [<-|[<-|[]]].
    + exists (mkProfile "sa" "Asha" (Some "R-01"%string) student). simpl. tauto.
    + exists (mkProfile "sb" "Bilal" (Some "R-02"%string) student). simpl. tauto.
Defined.

(** X17. The list the override hands back is current: after the teacher of
    a session overrides a record of that session whose student has a
    profile, the refreshed list shows the record with the new presence,
    "manual" and the time of the override. *)
Theorem override_is_shown (o : RowOrder Attendance) (uid : uuid) (recordId : uuid)
    (currentStatus : bool) (now : timestamp) (db : DB) (r : Attendance) :
  In r (attendance db) ->
  att_id r = recordId ->
  teaches_session uid (session_id r) db = true ->
  (exists p, In p (profiles db) /\ user_id p = student_id r) ->
  exists rec,
    In rec (snd (fst (toggleAttendance o uid (session_id r) recordId currentStatus now db)))
    /\ rec_id rec = recordId
    /\ rec_student_id rec = student_id r
    /\ rec_is_present rec = negb currentStatus
    /\ rec_method rec = Some manual
    /\ rec_marked_at rec = Some now.
Proof.
  intros Hr Hid Ht Hfk. unfold toggleAttendance. simpl.
  set (db' := with_attendance db
                (attendance_update uid (manual_patch currentStatus now) recordId db)).
  assert (Hr' : In (manual_patch currentStatus now r) (attendance db')).
  { simpl. unfold attendance_update. apply in_map_iff. exists r. split; [|assumption].
    now rewrite Hid, String.eqb_refl, teacher_may_write. }
  destruct (join_profile_found db' (manual_patch currentStatus now r) Hfk)
    as (p & _ & _ & Hjoin).
  eexists. split.
  - apply In_fetchAttendance. exists (manual_patch currentStatus now r).
    split; [exact Hr'|]. split; [reflexivity|]. split.
    + unfold may_read_attendance.
      change (teaches_session uid (session_id (manual_patch currentStatus now r)) db')
        with (teaches_session uid (session_id r) db).
      now rewrite Ht, orb_true_r.
    + rewrite Hjoin. now left.
  - simpl. auto.
Qed.

Lemma override_is_shown_witness :
  exists rec,
    In rec (snd (fst (toggleAttendance reverse_order "t1" "s1" "a1" true 500
                        (fst (fst Classroom.scan_a1)))))
    /\ rec_id rec = "a1"%string
    /\ rec_student_id rec = "sa"%string
    /\ rec_is_present rec = false
    /\ rec_method rec = Some manual
    /\ rec_marked_at rec = Some 500.
Proof.
  apply (override_is_shown reverse_order "t1" "a1" true 500 (fst (fst Classroom.scan_a1))
           Classroom.record_a1).
  - simpl. now left.
  - reflexivity.
  - reflexivity.
  - exists (mkProfile "sa" "Asha" (Some "R-01"%string) student). simpl. tauto.
Defined.

(** ** The manual entry of a code *)

Lemma trimStart_white (s : string) : all_white_space s = true -> trimStart s = EmptyString.
Proof.
  induction s as [|c r IH]; simpl; intros H.
  - reflexivity.
  - apply andb_prop in H. destruct H as [-> Hr]. now apply IH.
Qed.

Lemma trimEnd_white (s : string) : all_white_space s = true -> trimEnd s = EmptyString.
Proof.
  induction s as [|c r IH]; simpl; intros H.
  - reflexivity.
  - apply andb_prop in H. destruct H as [-> Hr]. now rewrite (IH Hr).
Qed.

Lemma all_white_space_append (a b : string) :
  all_white_space (a ++ b) = all_white_space a && all_white_space b.
Proof.
  induction a as [|c a IH]; simpl.
  - reflexivity.
  - now rewrite IH, andb_assoc.
Qed.

Lemma trimStart_all_white (s : string) :
  all_white_space (trimStart s) = all_white_space s.
Proof.
  induction s as [|c r IH]; simpl.
  - reflexivity.
  - destruct (is_white_space c) eqn:Hc; simpl.
    + exact IH.
    + now rewrite Hc.
Qed.

Lemma trimEnd_empty_iff (s : string) :
  trimEnd s = EmptyString <-> all_white_space s = true.
Proof.
  split; [|apply trimEnd_white].
  induction s as [|c r IH]; simpl; intros H.
  - reflexivity.
  - destruct (trimEnd r) as [|k ks]; [|discriminate].
    destruct (is_white_space c); [|discriminate]. simpl. now apply IH.
Qed.

Lemma trim_empty_iff (s : string) :
  is_empty (trim s) = true <-> all_white_space s = true.
Proof.
  unfold trim. rewrite <- trimStart_all_white, <- trimEnd_empty_iff.
  destruct (trimEnd (trimStart s)); simpl; split; congruence.
Qed.

Lemma trimStart_append_white (w s : string) :
  all_white_space w = true -> trimStart (w ++ s) = trimStart s.
Proof.
  induction w as [|c w IH]; simpl; intros H.
  - reflexivity.
  - apply andb_prop in H. destruct H as [-> Hw]. now apply IH.
Qed.

Lemma trimEnd_append_white (s w : string) :
  all_white_space w = true -> trimEnd (s ++ w) = trimEnd s.
Proof.
  intros Hw. induction s as [|c s IH]; simpl.
  - now apply trimEnd_white.
  - now rewrite IH.
Qed.

Lemma trimStart_append (s w : string) :
  all_white_space s = false -> trimStart (s ++ w) = (trimStart s ++ w)%string.
Proof.
  induction s as [|c s IH]; simpl; intros H.
  - discriminate.
  - destruct (is_white_space c); simpl in *.
    + now apply IH.
    + reflexivity.
Qed.

Lemma trim_padded (w1 s w2 : string) :
  all_white_space w1 = true -> all_white_space w2 = true ->
  trim (w1 ++ s ++ w2) = trim s.
Proof.
  intros H1 H2. unfold trim. rewrite trimStart_append_white by assumption.
  destruct (all_white_space s) eqn:Hs.
  - rewrite !trimEnd_white; try reflexivity.
    + now rewrite trimStart_all_white.
    + now rewrite trimStart_all_white, all_white_space_append, Hs, H2.
  - rewrite trimStart_append by assumption. now apply trimEnd_append_white.
Qed.

Lemma trimEnd_idempotent (s : string) : trimEnd (trimEnd s) = trimEnd s.
Proof.
  induction s as [|c r IH]; simpl.
  - reflexivity.
  - destruct (trimEnd r) as [|k ks] eqn:Hk.
    + destruct (is_white_space c) eqn:Hc; simpl; [reflexivity | now rewrite Hc].
    + simpl in *. now rewrite IH.
Qed.

Lemma trimStart_of_trimEnd (s : string) :
  trimStart (trimEnd (trimStart s)) = trimEnd (trimStart s).
Proof.
  induction s as [|c r IH]; simpl.
  - reflexivity.
  - destruct (is_white_space c) eqn:Hc; [exact IH|].
    cbn [trimEnd]. destruct (trimEnd r); rewrite ?Hc; cbn [trimStart]; now rewrite Hc.
Qed.

Lemma trim_idempotent (s : string) : trim (trim s) = trim s.
Proof.
  unfold trim. now rewrite trimStart_of_trimEnd, trimEnd_idempotent.
Qed.

Lemma trim_no_white_space (s : string) : no_white_space s = true -> trim s = s.
Proof.
  unfold trim. intros H.
  assert (Hs : trimStart s = s).
  { destruct s as [|c r]; simpl in *; [reflexivity|].
    apply andb_prop in H. destruct H as [Hc _]. apply negb_true_iff in Hc.
    now rewrite Hc. }
  rewrite Hs. clear Hs. induction s as [|c r IH]; simpl in *.
  - reflexivity.
  - apply andb_prop in H. destruct H as [Hc Hr]. apply negb_true_iff in Hc.
    rewrite (IH Hr). destruct r; [now rewrite Hc | reflexivity].
Qed.

Lemma handleManualSubmit_padded (manualCode w1 w2 : string) :
  all_white_space w1 = true ->
  all_white_space w2 = true ->
  all_white_space manualCode = false ->
  is_empty (trim manualCode) = false
  /\ handleManualSubmit (w1 ++ manualCode ++ w2) = (Some (trim manualCode), EmptyString).
Proof.
  intros H1 H2 Hw.
  assert (He : is_empty (trim manualCode) = false).
  { apply not_true_is_false. intros He. apply trim_empty_iff in He. congruence. }
  split; [exact He|].
  unfold handleManualSubmit. rewrite trim_padded by assumption. now rewrite He.
Qed.

(** X18. What the manual form hands to the scan. A field of white space
    only (or empty) starts no scan and is left as it is. Otherwise the code
    handed over is the field without its leading and trailing white space:
    it is never empty, trimming it again changes nothing, and the field is
    cleared. White space typed around a code makes no difference. *)
Theorem manual_submit_hands_over_trimmed_code (manualCode w1 w2 : string) :
  all_white_space w1 = true ->
  all_white_space w2 = true ->
  (all_white_space manualCode = true ->
   handleManualSubmit manualCode = (None, manualCode))
  /\ (all_white_space manualCode = false ->
      handleManualSubmit manualCode = (Some (trim manualCode), EmptyString)
      /\ is_empty (trim manualCode) = false
      /\ trim (trim manualCode) = trim manualCode
      /\ handleManualSubmit (w1 ++ manualCode ++ w2)
         = (Some (trim manualCode), EmptyString)).
Proof.
  intros H1 H2. split.
  - intros Hw. unfold handleManualSubmit.
    now rewrite (proj2 (trim_empty_iff manualCode) Hw).
  - intros Hw.
    destruct (handleManualSubmit_padded manualCode w1 w2 H1 H2 Hw) as [He Hpad].
    split; [unfold handleManualSubmit; now rewrite He|].
    split; [exact He|]. split; [apply trim_idempotent | exact Hpad].
Qed.

Lemma manual_submit_witness :
  handleManualSubmit "  T1 " = (Some "T1", "")%string.
Proof.
  apply (manual_submit_hands_over_trimmed_code "T1" "  " " "); reflexivity.
Defined.

(** X19. The scanner in the student's dashboard. Submitting a blank field
    does nothing at all: no toast, the store, the list and the field stay.
    Submitting a code with white space around it does exactly what
    scanning the bare code does, and clears the field. *)
Theorem blank_and_padded_submissions (st : StudentState) (manualCode w1 w2 : string)
    (now : timestamp) (newid : uuid) (today : string) (db : DB) :
  all_white_space w1 = true ->
  all_white_space w2 = true ->
  (all_white_space manualCode = true ->
   submitManualCode st manualCode now newid today db = (db, st, manualCode, None))
  /\ (all_white_space manualCode = false ->
      submitManualCode st (w1 ++ manualCode ++ w2) now newid today db
      = (fst (fst (handleQRScan st (trim manualCode) now newid today db)),
         snd (fst (handleQRScan st (trim manualCode) now newid today db)),
         EmptyString,
         Some (snd (handleQRScan st (trim manualCode) now newid today db)))).
Proof.
  intros H1 H2. unfold submitManualCode. split; intros Hw.
  - unfold handleManualSubmit. now rewrite (proj2 (trim_empty_iff manualCode) Hw).
  - destruct (handleManualSubmit_padded manualCode w1 w2 H1 H2 Hw) as [_ ->].
    now destruct (handleQRScan st (trim manualCode) now newid today db) as [[d s] t].
Qed.

Lemma blank_and_padded_submissions_witness :
  submitManualCode Classroom.sa1 " T1  " 100 "a1" Classroom.today Classroom.db1
  = (fst (fst Classroom.scan_a1), snd (fst Classroom.scan_a1), ""%string,
     Some Toast_AttendanceMarked).
Proof.
  apply (blank_and_padded_submissions Classroom.sa1 "T1" " " "  " 100 "a1"
           Classroom.today Classroom.db1); reflexivity.
Defined.

(** ** The picture and the file of the code *)

Lemma get_nth_error (s : string) (i : nat) :
  String.get i s = nth_error (list_ascii_of_string s) i.
Proof.
  revert i. induction s as [|c r IH]; intros [|i]; simpl; auto.
Qed.

Lemma length_list_ascii (s : string) :
  String.length s = length (list_ascii_of_string s).
Proof. induction s as [|c r IH]; simpl; auto. Qed.

Lemma qr_cell_parities (text : string) (i : nat) :
  qr_cell text i
  = match nth_error (parities text) (i mod length (parities text)) with
    | Some b => Bool.eqb b (Nat.even i)
    | None => false
    end.
Proof.
  unfold qr_cell, parities.
  rewrite get_nth_error, length_list_ascii, length_map, nth_error_map.
  destruct (nth_error (list_ascii_of_string text)
              (i mod length (list_ascii_of_string text))) as [c|]; simpl.
  - apply Nat.even_add.
  - reflexivity.
Qed.

Lemma shifted_character (c : ascii) :
  Ascii.eqb (ascii_of_nat ((nat_of_ascii c + 2) mod 256)) c = false
  /\ Nat.even (nat_of_ascii (ascii_of_nat ((nat_of_ascii c + 2) mod 256)))
     = Nat.even (nat_of_ascii c).
Proof.
  destruct c as [[] [] [] [] [] [] [] []]; split; reflexivity.
Qed.

(** X20. The picture shown for a code has 144 cells and depends only on
    which character codes of the text are even: two texts with the same
    parities get the same picture, so the picture does not tell codes
    apart, and every non-empty code shares its picture with another code. *)
Theorem visual_qr_shows_only_parities (t1 t2 : string) :
  parities t1 = parities t2 ->
  generateVisualQR t1 = generateVisualQR t2
  /\ length (generateVisualQR t1) = 144%nat
  /\ forall c rest,
       exists other,
         String.eqb other (String c rest) = false
         /\ generateVisualQR other = generateVisualQR (String c rest).
Proof.
  assert (Hsame : forall a b, parities a = parities b ->
                              generateVisualQR a = generateVisualQR b).
  { intros a b Hp. unfold generateVisualQR. apply map_ext. intros i.
    now rewrite !qr_cell_parities, Hp. }
  intros Hp. split; [now apply Hsame|].
  split; [unfold generateVisualQR; now rewrite length_map, length_seq|].
  intros c rest. destruct (shifted_character c) as [Hne Hpar].
  remember (ascii_of_nat ((nat_of_ascii c + 2) mod 256)) as c' eqn:E. clear E.
  exists (String c' rest). split.
  - apply String.eqb_neq. intros [= Hc]. subst c'. rewrite Ascii.eqb_refl in Hne.
    discriminate.
  - apply Hsame. unfold parities. cbn [list_ascii_of_string map]. now rewrite Hpar.
Qed.

Lemma visual_qr_witness :
  generateVisualQR "session-1-ab" = generateVisualQR "session-3-cb".
Proof.
  apply (visual_qr_shows_only_parities "session-1-ab" "session-3-cb"). reflexivity.
Defined.

Lemma append_assoc (a b c : string) : ((a ++ b) ++ c = a ++ (b ++ c))%string.
Proof. induction a as [|x a IH]; simpl; [reflexivity | now rewrite IH]. Qed.

Lemma no_white_space_append (a b : string) :
  no_white_space (a ++ b) = no_white_space a && no_white_space b.
Proof.
  induction a as [|c a IH]; simpl.
  - reflexivity.
  - now rewrite IH, andb_assoc.
Qed.

Lemma replace_white_space_runs_clean (in_run : bool) (s : string) :
  no_white_space (replace_white_space_runs in_run s) = true.
Proof.
  revert in_run. induction s as [|c r IH]; intros in_run; simpl.
  - reflexivity.
  - destruct (is_white_space c) eqn:Hc.
    + destruct in_run; [apply IH|]. simpl. apply IH.
    + simpl. rewrite Hc. apply IH.
Qed.

Lemma replace_white_space_runs_none (in_run : bool) (s : string) :
  no_white_space s = true ->
  replace_white_space_runs in_run s = s.
Proof.
  revert in_run. induction s as [|c r IH]; intros in_run; simpl; intros H.
  - reflexivity.
  - apply andb_prop in H. destruct H as [Hc Hr]. apply negb_true_iff in Hc.
    rewrite Hc. f_equal. now apply IH.
Qed.

Lemma replace_white_space_runs_word (a s : string) :
  no_white_space a = true ->
  replace_white_space_runs false (a ++ s) = (a ++ replace_white_space_runs false s)%string.
Proof.
  induction a as [|c a IH]; simpl; intros H.
  - reflexivity.
  - apply andb_prop in H. destruct H as [Hc Ha]. apply negb_true_iff in Hc.
    now rewrite Hc, IH.
Qed.

Lemma replace_white_space_runs_in_run (s : string) :
  replace_white_space_runs true s = replace_white_space_runs false (trimStart s).
Proof.
  induction s as [|c s IH]; simpl.
  - reflexivity.
  - destruct (is_white_space c) eqn:Hc; [exact IH|]. simpl. now rewrite Hc.
Qed.

Lemma replace_white_space_runs_run (w s : string) :
  all_white_space w = true ->
  is_empty w = false ->
  replace_white_space_runs false (w ++ s)
  = String "-" (replace_white_space_runs false (trimStart s)).
Proof.
  destruct w as [|c w]; [discriminate|]. intros H _. cbn [all_white_space] in H.
  apply andb_prop in H. destruct H as [Hc Hw]. cbn [append replace_white_space_runs].
  rewrite Hc. f_equal. rewrite replace_white_space_runs_in_run.
  now rewrite trimStart_append_white.
Qed.

Lemma trimStart_word (a s : string) :
  no_white_space a = true -> is_empty a = false -> trimStart (a ++ s) = (a ++ s)%string.
Proof.
  destruct a as [|c a]; [discriminate|]. simpl. intros H _.
  apply andb_prop in H. destruct H as [Hc _]. apply negb_true_iff in Hc. now rewrite Hc.
Qed.

Lemma replace_white_space_runs_words (first : string) (rest : list (string * string)) :
  no_white_space first = true ->
  Forall (fun wa => all_white_space (fst wa) = true /\ is_empty (fst wa) = false
                    /\ no_white_space (snd wa) = true /\ is_empty (snd wa) = false)
         rest ->
  replace_white_space_runs false (join_words (fun w => w) first rest)
  = join_words (fun _ => "-"%string) first rest.
Proof.
  revert first. induction rest as [|[w a] r IH]; intros first Hf Hr.
  - simpl. now apply replace_white_space_runs_none.
  - inversion Hr as [|x l (Hw & Hne & Ha & Hae) Hr']; subst. simpl in Hw, Hne, Ha, Hae.
    cbn [join_words]. rewrite replace_white_space_runs_word by assumption.
    rewrite replace_white_space_runs_run by assumption.
    assert (Hstart : trimStart (join_words (fun w0 => w0) a r)
                     = join_words (fun w0 => w0) a r).
    { destruct r as [|[w' a'] r'].
      - simpl. destruct a as [|c a]; [discriminate|]. simpl in *.
        apply andb_prop in Ha. destruct Ha as [Hc _]. apply negb_true_iff in Hc.
        now rewrite Hc.
      - cbn [join_words]. now apply trimStart_word. }
    rewrite Hstart, (IH a Ha Hr'). reflexivity.
Qed.

(** X21. The name of the downloaded file never holds white space, whatever
    the session is called, and a name without white space is taken as it
    is.  Each run of white space of the name, however long, becomes one
    hyphen: a name made of words separated by runs of white space gives the
    words separated by single hyphens; more generally a word in front is
    kept and a run in front is replaced by one hyphen, the white space that
    follows it belonging to the run. *)
Theorem download_name_has_no_white_space (toLocaleString : timestamp -> string)
    (now : timestamp) (sessionName qrCode : string) (first : string)
    (rest : list (string * string)) :
  no_white_space first = true ->
  Forall (fun wa => all_white_space (fst wa) = true /\ is_empty (fst wa) = false
                    /\ no_white_space (snd wa) = true /\ is_empty (snd wa) = false)
         rest ->
  no_white_space (fst (downloadQR toLocaleString now sessionName qrCode)) = true
  /\ (no_white_space sessionName = true ->
      fst (downloadQR toLocaleString now sessionName qrCode)
      = ("qr-code-" ++ sessionName ++ ".txt")%string)
  /\ fst (downloadQR toLocaleString now (join_words (fun w => w) first rest) qrCode)
     = ("qr-code-" ++ join_words (fun _ => "-") first rest ++ ".txt")%string
  /\ (forall a s,
        no_white_space a = true ->
        fst (downloadQR toLocaleString now (a ++ s) qrCode)
        = ("qr-code-" ++ a ++ replace_white_space_runs false s ++ ".txt")%string)
  /\ (forall w s,
        all_white_space w = true -> is_empty w = false ->
        fst (downloadQR toLocaleString now (w ++ s) qrCode)
        = ("qr-code-" ++ "-" ++ replace_white_space_runs false (trimStart s) ++ ".txt")%string).
Proof.
  intros Hfirst Hrest. unfold downloadQR. cbn [fst]. split; [|split; [|split; [|split]]].
  - rewrite !no_white_space_append, replace_white_space_runs_clean. reflexivity.
  - intros H. now rewrite replace_white_space_runs_none.
  - now rewrite replace_white_space_runs_words.
  - intros a s Ha. rewrite replace_white_space_runs_word by assumption.
    now rewrite append_assoc.
  - intros w s Hw Hne. now rewrite replace_white_space_runs_run.
Qed.

Lemma download_name_witness :
  fst (downloadQR (fun _ => "15/01/2024 09:00:00"%string) 0 "Maths  -   Algebra I" "T1")
  = "qr-code-Maths---Algebra-I.txt"%string.
Proof.
  assert (H : Forall (fun wa => all_white_space (fst wa) = true /\ is_empty (fst wa) = false
                                /\ no_white_space (snd wa) = true
                                /\ is_empty (snd wa) = false)
                [ ("  ", "-"); ("   ", "Algebra"); (" ", "I") ]%string).
  { repeat constructor. }
  exact (proj1 (proj2 (proj2 (download_name_has_no_white_space
                                (fun _ => "15/01/2024 09:00:00"%string) 0
                                "Maths" "T1" "Maths"
                                [ ("  ", "-"); ("   ", "Algebra"); (" ", "I") ]%string
                                eq_refl H)))).
Defined.

(** ** The generated code *)

Lemma append_cancel_l (a x y : string) : (a ++ x = a ++ y)%string -> x = y.
Proof.
  induction a as [|c a IH]; simpl; intros H.
  - exact H.
  - injection H as H. now apply IH.
Qed.

Lemma digits_free_of_hyphen (d : Decimal.uint) :
  free_of "-" (NilEmpty.string_of_uint d) = true.
Proof. induction d; simpl; auto. Qed.

Lemma digits_no_white_space (d : Decimal.uint) :
  no_white_space (NilEmpty.string_of_uint d) = true.
Proof. induction d; simpl; auto. Qed.

Lemma decimal_free_of_hyphen (d : Decimal.uint) :
  free_of "-" (NilZero.string_of_uint d) = true
  /\ NilZero.string_of_uint d <> EmptyString.
Proof.
  split.
  - destruct d; try reflexivity; apply (digits_free_of_hyphen (_ d)).
  - destruct d; discriminate.
Qed.

Lemma decimal_before_hyphen (d1 d2 : Decimal.uint) (s1 s2 : string) :
  (NilZero.string_of_uint d1 ++ String "-" s1
   = NilZero.string_of_uint d2 ++ String "-" s2)%string ->
  NilZero.string_of_uint d1 = NilZero.string_of_uint d2 /\ s1 = s2.
Proof.
  intros H. pose proof (f_equal (split_on "-") H) as Hsplit.
  rewrite !split_on_append in Hsplit by apply decimal_free_of_hyphen.
  injection Hsplit as Hd _. split; [exact Hd|].
  rewrite Hd in H. apply append_cancel_l in H. now injection H.
Qed.

Lemma printed_int_before_hyphen (i1 i2 : Decimal.int) (s1 s2 : string) :
  (NilZero.string_of_int i1 ++ String "-" s1
   = NilZero.string_of_int i2 ++ String "-" s2)%string ->
  NilZero.string_of_int i1 = NilZero.string_of_int i2 /\ s1 = s2.
Proof.
  destruct i1 as [d1|d1], i2 as [d2|d2]; simpl; intros H.
  - now apply decimal_before_hyphen.
  - exfalso. destruct (decimal_free_of_hyphen d1) as [Hfree Hne].
    destruct (NilZero.string_of_uint d1) as [|c r]; [now apply Hne|].
    simpl in H. injection H as Hc _. subst c. discriminate Hfree.
  - exfalso. destruct (decimal_free_of_hyphen d2) as [Hfree Hne].
    destruct (NilZero.string_of_uint d2) as [|c r]; [now apply Hne|].
    simpl in H. injection H as Hc _. subst c. discriminate Hfree.
  - injection H as H. destruct (decimal_before_hyphen _ _ _ _ H) as [-> ->].
    split; reflexivity.
Qed.

Lemma to_int_printable (n : Z) :
  Z.to_int n <> Decimal.Pos Decimal.Nil /\ Z.to_int n <> Decimal.Neg Decimal.Nil.
Proof.
  destruct n as [|p|p]; simpl; split; try discriminate;
    intros [= H]; exact (DecimalPos.Unsigned.to_uint_nonnil p H).
Qed.

(** X22. Generated codes do not collide: two codes are equal only when they
    were generated at the same millisecond with the same random suffix. So
    a restart at a later time, or with another suffix, always replaces the
    code by a different one. *)
Theorem generateQRCode_injective (now1 now2 : timestamp) (suffix1 suffix2 : string) :
  generateQRCode now1 suffix1 = generateQRCode now2 suffix2 ->
  now1 = now2 /\ suffix1 = suffix2.
Proof.
  unfold generateQRCode. intros H. apply append_cancel_l in H.
  change ("-" ++ suffix1)%string with (String "-" suffix1) in H.
  change ("-" ++ suffix2)%string with (String "-" suffix2) in H.
  destruct (printed_int_before_hyphen _ _ _ _ H) as [Hd Hs].
  split; [|exact Hs].
  apply DecimalZ.to_int_inj.
  destruct (to_int_printable now1) as [Hp1 Hn1].
  destruct (to_int_printable now2) as [Hp2 Hn2].
  pose proof (NilZero.isi _ Hp1 Hn1) as H1. pose proof (NilZero.isi _ Hp2 Hn2) as H2.
  rewrite Hd in H1. congruence.
Qed.

Lemma generateQRCode_injective_witness :
  1705309200000 = 1705309200000 /\ "k3x9q2m1z"%string = "k3x9q2m1z"%string.
Proof.
  apply (generateQRCode_injective 1705309200000 1705309200000 "k3x9q2m1z" "k3x9q2m1z").
  reflexivity.
Defined.

Lemma generateQRCode_no_white_space (now : timestamp) (suffix : string) :
  no_white_space suffix = true -> no_white_space (generateQRCode now suffix) = true.
Proof.
  intros H. unfold generateQRCode.
  rewrite !no_white_space_append, H, !andb_true_r. simpl.
  destruct (Z.to_int now) as [d|d]; simpl.
  - destruct d; try reflexivity; apply (digits_no_white_space (_ d)).
  - destruct d; try reflexivity; apply (digits_no_white_space (_ d)).
Qed.

(** X23. A generated code can be typed in: when the random suffix holds no
    white space (it is made of base-36 digits), the manual form hands the
    generated code to the scan exactly as it was generated, also when white
    space was typed around it. *)
Theorem generated_code_survives_manual_entry (now : timestamp) (suffix w1 w2 : string) :
  no_white_space suffix = true ->
  all_white_space w1 = true ->
  all_white_space w2 = true ->
  handleManualSubmit (w1 ++ generateQRCode now suffix ++ w2)
  = (Some (generateQRCode now suffix), EmptyString).
Proof.
  intros Hs H1 H2.
  pose proof (generateQRCode_no_white_space now suffix Hs) as Hclean.
  unfold handleManualSubmit. rewrite trim_padded by assumption.
  rewrite (trim_no_white_space _ Hclean). reflexivity.
Qed.

Lemma generated_code_survives_witness :
  handleManualSubmit (" " ++ generateQRCode 1705309200000 "k3x9q2m1z" ++ "  ")
  = (Some "session-1705309200000-k3x9q2m1z", "")%string.
Proof.
  apply (generated_code_survives_manual_entry 1705309200000 "k3x9q2m1z" " " "  ");
    reflexivity.
Defined.

(** ** Activity suggestions *)

Lemma free_period_le_total (a b : ActivitySuggestion) :
  free_period_le a b = true \/ free_period_le b a = true.
Proof.
  unfold free_period_le, nulls_last_le.
  destruct (free_period_start a), (free_period_start b); auto.
  rewrite !Z.leb_le. lia.
Qed.

Lemma free_period_le_trans (a b c : ActivitySuggestion) :
  free_period_le a b = true -> free_period_le b c = true -> free_period_le a c = true.
Proof.
  unfold free_period_le, nulls_last_le.
  destruct (free_period_start a), (free_period_start b), (free_period_start c);
    try discriminate; auto.
  rewrite !Z.leb_le. lia.
Qed.

Lemma filter_filter {A : Type} (p q : A -> bool) (l : list A) :
  filter p (filter q l) = filter (fun x => q x && p x) l.
Proof.
  induction l as [|a l IH]; simpl.
  - reflexivity.
  - destruct (q a); simpl; [destruct (p a)|]; now rewrite IH.
Qed.

Lemma open_after_update (uid uid' : uuid) (today : string) (now : timestamp)
    (suggestionId : uuid) (tbl : list ActivitySuggestion) :
  filter (is_open_suggestion uid' today) (suggestions_update uid now suggestionId tbl)
  = filter (fun r => is_open_suggestion uid' today r
                     && negb (String.eqb (sug_id r) suggestionId
                              && String.eqb uid (sug_student_id r)))
           tbl.
Proof.
  unfold suggestions_update. induction tbl as [|r l IH]; simpl.
  - reflexivity.
  - destruct (String.eqb (sug_id r) suggestionId && String.eqb uid (sug_student_id r)).
    + assert (Hc : is_open_suggestion uid' today (complete_patch now r) = false).
      { unfold is_open_suggestion. simpl. apply andb_false_r. }
      rewrite Hc, andb_false_r. exact IH.
    + rewrite andb_true_r. destruct (is_open_suggestion uid' today r); now rewrite IH.
Qed.

Lemma filter_perm {A : Type} (p : A -> bool) (l l' : list A) :
  Permutation l l' -> Permutation (filter p l) (filter p l').
Proof.
  intros H. induction H as [|x l l' H IH|x y l|l l' l'' H1 IH1 H2 IH2]; simpl.
  - constructor.
  - destruct (p x); [now constructor | exact IH].
  - destruct (p x), (p y); try apply Permutation_refl. apply perm_swap.
  - now apply perm_trans with (filter p l').
Qed.

Lemma filter_sorted {A : Type} (R : A -> A -> Prop) (p : A -> bool) (l : list A) :
  StronglySorted R l -> StronglySorted R (filter p l).
Proof.
  intros H. induction H as [|a l Hl IH Ha]; simpl.
  - constructor.
  - destruct (p a); [|exact IH]. constructor; [exact IH|].
    apply Forall_forall. intros x Hx. apply filter_In in Hx.
    exact (proj1 (Forall_forall _ _) Ha x (proj1 Hx)).
Qed.

(** Two sorted lists with the same elements are the same list when the
    order tells the elements apart. *)
Lemma sorted_perm_unique {A : Type} (R : A -> A -> Prop) (l1 l2 : list A) :
  (forall a b, In a l1 -> In b l1 -> R a b -> R b a -> a = b) ->
  StronglySorted R l1 -> StronglySorted R l2 -> Permutation l1 l2 -> l1 = l2.
Proof.
  revert l2. induction l1 as [|a l1 IH]; intros l2 Hanti H1 H2 Hp.
  - apply Permutation_nil in Hp. now subst.
  - destruct l2 as [|b l2].
    { apply Permutation_sym, Permutation_nil in Hp. discriminate. }
    inversion H1 as [|a' l1' Hs1 Ha]; subst. inversion H2 as [|b' l2' Hs2 Hb]; subst.
    assert (Hab : a = b).
    { assert (Hina : In a (b :: l2)).
      { apply (Permutation_in _ Hp). now left. }
      assert (Hinb : In b (a :: l1)).
      { apply (Permutation_in _ (Permutation_sym Hp)). now left. }
      destruct Hina as [Heq|Hina]; [now symmetry|].
      destruct Hinb as [Heq|Hinb]; [exact Heq|].
      apply Hanti; [now left | now right | |].
      - exact (proj1 (Forall_forall _ _) Ha b Hinb).
      - exact (proj1 (Forall_forall _ _) Hb a Hina). }
    subst b. f_equal. apply IH; try assumption.
    + intros x y Hx Hy. apply Hanti; now right.
    + now apply Permutation_cons_inv in Hp.
Qed.

Lemma free_period_le_antisym (a b : ActivitySuggestion) :
  free_period_le a b = true -> free_period_le b a = true ->
  free_period_start a = free_period_start b.
Proof.
  unfold free_period_le, nulls_last_le.
  destruct (free_period_start a), (free_period_start b); try discriminate; auto.
  rewrite !Z.leb_le. intros H1 H2. f_equal. lia.
Qed.

Lemma fetchActivitySuggestions_perm (o : RowOrder ActivitySuggestion) (uid : uuid)
    (today : string) (tbl : list ActivitySuggestion) :
  Permutation (fetchActivitySuggestions o uid today tbl)
    (filter (is_open_suggestion uid today) tbl).
Proof.
  unfold fetchActivitySuggestions.
  apply perm_trans with (reorder o (filter (is_open_suggestion uid today) tbl)).
  - apply sort_by_perm.
  - apply reorder_perm.
Qed.

Lemma fetchActivitySuggestions_sorted (o : RowOrder ActivitySuggestion) (uid : uuid)
    (today : string) (tbl : list ActivitySuggestion) :
  StronglySorted (fun a b => free_period_le a b = true)
    (fetchActivitySuggestions o uid today tbl).
Proof.
  unfold fetchActivitySuggestions.
  apply (sort_by_sorted _ _ free_period_le_total free_period_le_trans).
Qed.

Lemma open_after_own_update (uid : uuid) (today : string) (now : timestamp)
    (suggestionId : uuid) (tbl : list ActivitySuggestion) :
  filter (is_open_suggestion uid today) (suggestions_update uid now suggestionId tbl)
  = filter (fun s => negb (String.eqb (sug_id s) suggestionId))
           (filter (is_open_suggestion uid today) tbl).
Proof.
  rewrite filter_filter, open_after_update.
  apply filter_ext. intros r. unfold is_open_suggestion.
  destruct (String.eqb_spec (sug_student_id r) uid) as [Hu|Hu]; simpl; [|reflexivity].
  rewrite <- Hu, String.eqb_refl, andb_true_r. reflexivity.
Qed.

(** X24. The list of suggestions stays in step with the store: when the
    list on screen is the one that was fetched, the list left by "Mark
    Complete" holds exactly the suggestions a new fetch returns, each as
    often, and both are in ascending order of the start of the free period,
    those without a start last.  The two lists are the same list when no two
    of the fetched suggestions have the same start; suggestions with the
    same start may come in another order from the new fetch. *)
Theorem suggestions_stay_in_step (o o' : RowOrder ActivitySuggestion)
    (uid suggestionId : uuid) (now : timestamp) (today : string)
    (tbl : list ActivitySuggestion) :
  Permutation
    (snd (fst (markActivityCompleted uid suggestionId now
                 (fetchActivitySuggestions o uid today tbl) tbl)))
    (fetchActivitySuggestions o' uid today
       (fst (fst (markActivityCompleted uid suggestionId now
                    (fetchActivitySuggestions o uid today tbl) tbl))))
  /\ StronglySorted (fun a b => free_period_le a b = true)
       (snd (fst (markActivityCompleted uid suggestionId now
                    (fetchActivitySuggestions o uid today tbl) tbl)))
  /\ StronglySorted (fun a b => free_period_le a b = true)
       (fetchActivitySuggestions o' uid today
          (fst (fst (markActivityCompleted uid suggestionId now
                       (fetchActivitySuggestions o uid today tbl) tbl))))
  /\ ((forall a b,
         In a (fetchActivitySuggestions o uid today tbl) ->
         In b (fetchActivitySuggestions o uid today tbl) ->
         free_period_start a = free_period_start b -> a = b) ->
      snd (fst (markActivityCompleted uid suggestionId now
                  (fetchActivitySuggestions o uid today tbl) tbl))
      = fetchActivitySuggestions o' uid today
          (fst (fst (markActivityCompleted uid suggestionId now
                       (fetchActivitySuggestions o uid today tbl) tbl)))).
Proof.
  cbn [markActivityCompleted fst snd].
  set (keep := fun s => negb (String.eqb (sug_id s) suggestionId)).
  assert (Hperm : Permutation
            (filter keep (fetchActivitySuggestions o uid today tbl))
            (fetchActivitySuggestions o' uid today
               (suggestions_update uid now suggestionId tbl))).
  { apply perm_trans with (filter keep (filter (is_open_suggestion uid today) tbl)).
    - apply filter_perm, fetchActivitySuggestions_perm.
    - apply Permutation_sym. unfold keep.
      rewrite <- (open_after_own_update uid today now suggestionId tbl).
      apply fetchActivitySuggestions_perm. }
  assert (Hs1 : StronglySorted (fun a b => free_period_le a b = true)
                  (filter keep (fetchActivitySuggestions o uid today tbl))).
  { apply filter_sorted, fetchActivitySuggestions_sorted. }
  assert (Hs2 : StronglySorted (fun a b => free_period_le a b = true)
                  (fetchActivitySuggestions o' uid today
                     (suggestions_update uid now suggestionId tbl))).
  { apply fetchActivitySuggestions_sorted. }
  repeat (split; [assumption|]).
  intros Hdistinct.
  apply (sorted_perm_unique (fun a b => free_period_le a b = true)); try assumption.
  intros a b Ha Hb Hab Hba. apply filter_In in Ha, Hb.
  apply Hdistinct; [tauto | tauto |]. now apply free_period_le_antisym.
Qed.

Lemma suggestions_stay_in_step_witness :
  snd (fst (markActivityCompleted "sa" "g1" 500
              (fetchActivitySuggestions table_order "sa" "2024-01-15"
                 [ mkActivitySuggestion "g1" "sa" "act1" "2024-01-15" (Some 39600)
                     (Some 43200) (Some false) None;
                   mkActivitySuggestion "g2" "sa" "act2" "2024-01-15" (Some 36000)
                     (Some 39600) (Some false) None;
                   mkActivitySuggestion "g3" "sa" "act3" "2024-01-15" None None
                     (Some false) None ])
              [ mkActivitySuggestion "g1" "sa" "act1" "2024-01-15" (Some 39600)
                  (Some 43200) (Some false) None;
                mkActivitySuggestion "g2" "sa" "act2" "2024-01-15" (Some 36000)
                  (Some 39600) (Some false) None;
                mkActivitySuggestion "g3" "sa" "act3" "2024-01-15" None None
                  (Some false) None ]))
  = fetchActivitySuggestions reverse_order "sa" "2024-01-15"
      (fst (fst (markActivityCompleted "sa" "g1" 500
                   (fetchActivitySuggestions table_order "sa" "2024-01-15"
                      [ mkActivitySuggestion "g1" "sa" "act1" "2024-01-15" (Some 39600)
                          (Some 43200) (Some false) None;
                        mkActivitySuggestion "g2" "sa" "act2" "2024-01-15" (Some 36000)
                          (Some 39600) (Some false) None;
                        mkActivitySuggestion "g3" "sa" "act3" "2024-01-15" None None
                          (Some false) None ])
                   [ mkActivitySuggestion "g1" "sa" "act1" "2024-01-15" (Some 39600)
                       (Some 43200) (Some false) None;
                     mkActivitySuggestion "g2" "sa" "act2" "2024-01-15" (Some 36000)
                       (Some 39600) (Some false) None;
                     mkActivitySuggestion "g3" "sa" "act3" "2024-01-15" None None
                       (Some false) None ]))).
Proof.
  refine (proj2 (proj2 (proj2 (suggestions_stay_in_step table_order reverse_order
                                 "sa" "g1" 500 "2024-01-15" _))) _).
  cbv [fetchActivitySuggestions reorder table_order]. simpl.
  intros a b [<-|[<-|[<-|[]]]] [<-|[<-|[<-|[]]]]; (reflexivity || discriminate).
Defined.

(** Suggestions with the same start: the new fetch may return them in
    another order than the list on screen has them. *)
Remark tied_suggestions_may_swap :
  map sug_id
      (snd (fst (markActivityCompleted "sa" "g1" 500
                   (fetchActivitySuggestions table_order "sa" "2024-01-15"
                      [ mkActivitySuggestion "g1" "sa" "act1" "2024-01-15" (Some 39600)
                          (Some 43200) (Some false) None;
                        mkActivitySuggestion "g2" "sa" "act2" "2024-01-15" None None
                          (Some false) None;
                        mkActivitySuggestion "g3" "sa" "act3" "2024-01-15" None None
                          (Some false) None ])
                   [])))
  = ["g2"; "g3"]%string
  /\ map sug_id
        (fetchActivitySuggestions reverse_order "sa" "2024-01-15"
           (fst (fst (markActivityCompleted "sa" "g1" 500 []
                        [ mkActivitySuggestion "g1" "sa" "act1" "2024-01-15" (Some 39600)
                            (Some 43200) (Some false) None;
                          mkActivitySuggestion "g2" "sa" "act2" "2024-01-15" None None
                            (Some false) None;
                          mkActivitySuggestion "g3" "sa" "act3" "2024-01-15" None None
                            (Some false) None ]))))
     = ["g3"; "g2"]%string.
Proof. split; reflexivity. Qed.

(** X25. Completing an activity touches only the student's own rows. The
    completed suggestion is not in the student's next list, whatever day is
    fetched; the rows of other students stay in the table as they were, and
    what any other student fetches does not change: the same list when the
    database hands out the rows in the same order, and the same
    suggestions in any case. *)
Theorem completing_is_private (o o' : RowOrder ActivitySuggestion)
    (uid other suggestionId : uuid) (now : timestamp)
    (today : string) (suggestions tbl : list ActivitySuggestion) :
  other <> uid ->
  (forall r,
     In r (fetchActivitySuggestions o uid today
             (fst (fst (markActivityCompleted uid suggestionId now suggestions tbl)))) ->
     sug_id r <> suggestionId)
  /\ (forall r, In r tbl -> sug_student_id r <> uid ->
        In r (fst (fst (markActivityCompleted uid suggestionId now suggestions tbl))))
  /\ fetchActivitySuggestions o other today
       (fst (fst (markActivityCompleted uid suggestionId now suggestions tbl)))
     = fetchActivitySuggestions o other today tbl
  /\ Permutation
       (fetchActivitySuggestions o' other today
          (fst (fst (markActivityCompleted uid suggestionId now suggestions tbl))))
       (fetchActivitySuggestions o other today tbl).
Proof.
  intros Hother. unfold markActivityCompleted. cbn [fst snd].
  assert (Hsame : filter (is_open_suggestion other today)
                    (suggestions_update uid now suggestionId tbl)
                  = filter (is_open_suggestion other today) tbl).
  { rewrite open_after_update. apply filter_ext. intros r.
    unfold is_open_suggestion.
    destruct (String.eqb_spec (sug_student_id r) other) as [Ho|Ho]; simpl; [|reflexivity].
    destruct (String.eqb_spec uid (sug_student_id r)) as [Hu|Hu].
    + congruence.
    + now rewrite andb_false_r, andb_true_r. }
  split; [|split; [|split]].
  - intros r Hr. apply (Permutation_in _ (fetchActivitySuggestions_perm _ _ _ _)) in Hr.
    rewrite open_after_update in Hr. apply filter_In in Hr.
    destruct Hr as [_ Hr]. apply andb_prop in Hr. destruct Hr as [Hopen Hnot].
    unfold is_open_suggestion in Hopen.
    apply andb_prop in Hopen. destruct Hopen as [Hopen _].
    apply andb_prop in Hopen. destruct Hopen as [Hu _].
    apply String.eqb_eq in Hu. intros Hid.
    rewrite Hid, String.eqb_refl, <- Hu, String.eqb_refl in Hnot. discriminate.
  - intros r Hr Hne. unfold suggestions_update. apply in_map_iff. exists r.
    split; [|assumption].
    destruct (String.eqb_spec uid (sug_student_id r)) as [Heq|_].
    + now destruct Hne.
    + now rewrite andb_false_r.
  - unfold fetchActivitySuggestions. now rewrite Hsame.
  - apply perm_trans with (filter (is_open_suggestion other today) tbl).
    + rewrite <- Hsame. apply fetchActivitySuggestions_perm.
    + apply Permutation_sym, fetchActivitySuggestions_perm.
Qed.

Lemma completing_is_private_witness :
  fetchActivitySuggestions reverse_order "sb" "2024-01-15"
    (fst (fst (markActivityCompleted "sa" "g1" 500 []
                 [ mkActivitySuggestion "g1" "sa" "act1" "2024-01-15" (Some 39600)
                     (Some 43200) (Some false) None;
                   mkActivitySuggestion "g2" "sb" "act1" "2024-01-15" None None
                     (Some false) None ])))
  = fetchActivitySuggestions reverse_order "sb" "2024-01-15"
      [ mkActivitySuggestion "g1" "sa" "act1" "2024-01-15" (Some 39600)
          (Some 43200) (Some false) None;
        mkActivitySuggestion "g2" "sb" "act1" "2024-01-15" None None
          (Some false) None ].
Proof.
  apply (completing_is_private reverse_order table_order "sa" "sb" "g1" 500
           "2024-01-15" []
           [ mkActivitySuggestion "g1" "sa" "act1" "2024-01-15" (Some 39600)
               (Some 43200) (Some false) None;
             mkActivitySuggestion "g2" "sb" "act1" "2024-01-15" None None
               (Some false) None ]).
  discriminate.
Defined.

(** ** The administrator's figures *)

Lemma not_teaching (uid : uuid) (db : DB) :
  (forall s, In s (sessions db) -> teacher_id s <> uid) ->
  forall sid, teaches_session uid sid db = false.
Proof.
  intros H sid. unfold teaches_session. apply existsb_false_of_all.
  intros s Hs. destruct (String.eqb_spec (teacher_id s) uid) as [Heq|_].
  - now destruct (H s Hs).
  - apply andb_false_r.
Qed.

Lemma filter_none {A : Type} (f : A -> bool) (l : list A) :
  (forall x, In x l -> f x = false) -> filter f l = [].
Proof.
  induction l as [|a l IH]; simpl; intros H.
  - reflexivity.
  - rewrite (H a (or_introl eq_refl)). apply IH. intros x Hx. apply H. now right.
Qed.

(** X26. Today's attendance, as an administrator gets it. The attendance
    policies give a row only to its student and to the teacher of its
    session; so for a user who teaches no session and has no attendance
    record, administrator or not, the figure is 0 whatever the table holds,
    while the three other figures do not depend on who asks. *)
Theorem outsider_counts_no_attendance (uid uid' : uuid) (day_start : timestamp)
    (classes : list Class) (db : DB) :
  (forall s, In s (sessions db) -> teacher_id s <> uid) ->
  (forall r, In r (attendance db) -> student_id r <> uid) ->
  todayAttendance (fetchDashboardData uid day_start classes db) = 0%nat
  /\ totalStudents (fetchDashboardData uid day_start classes db)
     = totalStudents (fetchDashboardData uid' day_start classes db)
  /\ totalTeachers (fetchDashboardData uid day_start classes db)
     = totalTeachers (fetchDashboardData uid' day_start classes db)
  /\ totalClasses (fetchDashboardData uid day_start classes db)
     = totalClasses (fetchDashboardData uid' day_start classes db).
Proof.
  intros Hteach Hstud. split; [|repeat split].
  simpl. replace (filter _ (attendance db)) with (@nil Attendance); [reflexivity|].
  symmetry.
  assert (H : forall r, In r (attendance db) ->
            may_read_attendance uid db r && is_present r && marked_today day_start r
            = false).
  { intros r Hr. unfold may_read_attendance.
    rewrite (not_teaching uid db Hteach).
    destruct (String.eqb_spec uid (student_id r)) as [Heq|_].
    - now destruct (Hstud r Hr).
    - reflexivity. }
  now apply filter_none.
Qed.

Lemma outsider_counts_witness :
  todayAttendance (fetchDashboardData "t2" 0 [] (fst (fst Classroom.scan_b1))) = 0%nat.
Proof.
  apply (outsider_counts_no_attendance "t2" "t2" 0 [] (fst (fst Classroom.scan_b1))).
  - simpl. intros s [<-|[]]. discriminate.
  - simpl. intros r [<-|[<-|[]]]; discriminate.
Defined.

(** X27. The last second of the day is counted on no day. A record marked
    at or after 23:59:59 of a day, and before the next midnight, changes
    today's attendance neither for that day nor for any other day, for any
    user: the figure is the same with and without the record. *)
Theorem last_second_is_never_counted (uid : uuid) (day_start : timestamp)
    (classes : list Class) (db : DB) (r : Attendance) (t : timestamp) (k : Z) :
  marked_at r = Some t ->
  day_start + 86399000 <= t < day_start + 86400000 ->
  fetchDashboardData uid (day_start + k * 86400000) classes
    (with_attendance db (attendance db ++ [r]))
  = fetchDashboardData uid (day_start + k * 86400000) classes db.
Proof.
  intros Hr Ht.
  assert (Hno : marked_today (day_start + k * 86400000) r = false).
  { unfold marked_today. rewrite Hr. apply andb_false_iff.
    destruct (Z_le_gt_dec k 0) as [Hk|Hk].
    - right. apply Z.ltb_ge. lia.
    - left. apply Z.leb_gt. lia. }
  unfold fetchDashboardData. f_equal.
  set (F := fun r0 => may_read_attendance uid db r0 && is_present r0
                      && marked_today (day_start + k * 86400000) r0).
  change (length (filter F (attendance db ++ [r])) = length (filter F (attendance db))).
  rewrite filter_app. cbn [filter]. unfold F at 2. rewrite Hno, andb_false_r.
  now rewrite app_nil_r.
Qed.

Lemma last_second_witness :
  fetchDashboardData "t1" (0 + 0 * 86400000) []
    (with_attendance Classroom.db1
       (attendance Classroom.db1
        ++ [ {| att_id := "a9"; session_id := "s1"; student_id := "sa";
                is_present := true; method := Some qr; marked_at := Some 86399500 |} ]))
  = fetchDashboardData "t1" (0 + 0 * 86400000) [] Classroom.db1.
Proof.
  apply (last_second_is_never_counted "t1" 0 [] Classroom.db1
           {| att_id := "a9"; session_id := "s1"; student_id := "sa";
              is_present := true; method := Some qr; marked_at := Some 86399500 |}
           86399500 0).
  - reflexivity.
  - lia.
Defined.

(** ** Signing up *)

Lemma user_role_of_label_round_trip (r : user_role) :
  user_role_of_label (user_role_label r) = Some r.
Proof. now destruct r. Qed.

Lemma user_role_of_label_sound (t : string) (r : user_role) :
  user_role_of_label t = Some r -> user_role_label r = t.
Proof.
  unfold user_role_of_label.
  destruct (String.eqb_spec t "student") as [->|_]; [now intros [= <-]|].
  destruct (String.eqb_spec t "teacher") as [->|_]; [now intros [= <-]|].
  destruct (String.eqb_spec t "admin") as [->|_]; [now intros [= <-]|].
  destruct (String.eqb_spec t "counselor") as [->|_]; [now intros [= <-]|].
  discriminate.
Qed.

(** X28. What a sign-up leaves. When the trigger succeeds it has added
    exactly one profile, for the new user, and user ids stay unique; the
    profile's name is the given name or else the e-mail address, its role
    is the role asked for or else student, and the dashboard it gets is the
    one of that role. A role text that is no role aborts the sign-up
    instead of falling back to student, and so does a user id already
    there. *)
Theorem signup_creates_one_profile (new_id : uuid) (new_email : string)
    (meta_name meta_role : option string) (tbl : list Profile) :
  NoDup (map user_id tbl) ->
  (forall tbl', handle_new_user new_id new_email meta_name meta_role tbl = inl tbl' ->
     exists p,
       tbl' = tbl ++ [p]
       /\ NoDup (map user_id tbl')
       /\ user_id p = new_id
       /\ name p = match meta_name with Some n => n | None => new_email end
       /\ match meta_role with
          | Some t => user_role_label (role p) = t
          | None => role p = student
          end
       /\ renderDashboard (profile_role_tag (Some p))
          = match role p with
            | student => StudentDashboard
            | teacher => TeacherDashboard
            | admin | counselor => AdminDashboard
            end)
  /\ (forall t, meta_role = Some t -> (forall r, user_role_label r <> t) ->
        handle_new_user new_id new_email meta_name meta_role tbl = inr invalid_role_text)
  /\ ((exists p, In p tbl /\ user_id p = new_id) ->
      forall tbl', handle_new_user new_id new_email meta_name meta_role tbl <> inl tbl').
Proof.
  intros Hnd. unfold handle_new_user. split; [|split].
  - intros tbl' H.
    destruct (match meta_role with
              | Some t => user_role_of_label t
              | None => Some student
              end) as [r|] eqn:Hrole; [|discriminate].
    destruct (existsb (fun p => String.eqb (user_id p) new_id) tbl) eqn:Hex;
      [discriminate|].
    injection H as <-. eexists. split; [reflexivity|]. simpl.
    split; [|split; [reflexivity|split; [reflexivity|split]]].
    + rewrite map_app. simpl.
      apply NoDup_Add with (a := new_id) (l := map user_id tbl).
      * clear. induction (map user_id tbl); simpl; constructor; assumption.
      * split; [assumption|]. intros Hin. apply in_map_iff in Hin.
        destruct Hin as (p & Hp & Hin).
        assert (Htrue : existsb (fun p => String.eqb (user_id p) new_id) tbl = true).
        { apply existsb_exists. exists p. split; [assumption|].
          rewrite Hp. apply String.eqb_refl. }
        congruence.
    + destruct meta_role as [t|].
      * now apply user_role_of_label_sound.
      * congruence.
    + now destruct r.
  - intros t -> Hnone.
    destruct (user_role_of_label t) as [r|] eqn:Hr; [|reflexivity].
    now destruct (Hnone r (user_role_of_label_sound _ _ Hr)).
  - intros (p & Hp & Hid) tbl'.
    destruct (match meta_role with
              | Some t => user_role_of_label t
              | None => Some student
              end); [|discriminate].
    assert (Htrue : existsb (fun p => String.eqb (user_id p) new_id) tbl = true).
    { apply existsb_exists. exists p. split; [assumption|].
      rewrite Hid. apply String.eqb_refl. }
    rewrite Htrue. discriminate.
Qed.

Lemma signup_witness :
  handle_new_user "new" "new@school.example" None (Some "principal"%string) []
  = inr invalid_role_text.
Proof.
  destruct (signup_creates_one_profile "new" "new@school.example" None
              (Some "principal"%string) [] (NoDup_nil _)) as (_ & H & _).
  apply (H "principal"%string eq_refl).
  intros r; destruct r; discriminate.
Defined.

(** ** The search box *)

Lemma prefix_spec (sub s : string) :
  String.prefix sub s = true <-> exists post, s = (sub ++ post)%string.
Proof.
  revert s. induction sub as [|a sub IH]; intros s.
  - destruct s; simpl; split; eauto.
  - destruct s as [|b s]; simpl.
    + split; [discriminate | intros [post H]; discriminate].
    + destruct (ascii_dec a b) as [->|Hne].
      * rewrite IH. split; intros [post H]; exists post; congruence.
      * split; [discriminate|]. intros [post H]. injection H as H _. congruence.
Qed.

Lemma includes_spec (s sub : string) :
  includes s sub = true <-> exists pre post, s = (pre ++ sub ++ post)%string.
Proof.
  split.
  - induction s as [|c r IH]; cbn [includes]; intros H.
    + rewrite orb_false_r in H. apply prefix_spec in H. destruct H as [post H].
      exists EmptyString, post. exact H.
    + apply orb_prop in H. destruct H as [H|H].
      * apply prefix_spec in H. destruct H as [post H]. exists EmptyString, post.
        exact H.
      * destruct (IH H) as (pre & post & ->). exists (String c pre), post. reflexivity.
  - intros (pre & post & ->). induction pre as [|c pre IH].
    + assert (Hp : String.prefix sub (sub ++ post) = true).
      { apply prefix_spec. now exists post. }
      cbn [append]. destruct (sub ++ post)%string; cbn [includes]; rewrite Hp;
        reflexivity.
    + cbn [append includes]. rewrite IH. apply orb_true_r.
Qed.

Lemma includes_trans (a b c : string) :
  includes a b = true -> includes b c = true -> includes a c = true.
Proof.
  rewrite !includes_spec. intros (p1 & q1 & ->) (p2 & q2 & ->).
  exists (p1 ++ p2)%string, (q2 ++ q1)%string.
  now rewrite !append_assoc.
Qed.

Lemma map_id_on_filter {A : Type} (f : A -> bool) (l : list A) :
  (forall x, In x l -> f x = true) -> filter f l = l.
Proof.
  induction l as [|a l IH]; simpl; intros H.
  - reflexivity.
  - rewrite (H a (or_introl eq_refl)). f_equal. apply IH.
    intros x Hx. apply H. now right.
Qed.

Section SearchFacts.

Variable toLowerCase : string -> string.

Lemma record_matches_narrower (t t' : string) (r : AttendanceRecord) :
  includes (toLowerCase t') (toLowerCase t) = true ->
  record_matches toLowerCase t' r = true -> record_matches toLowerCase t r = true.
Proof.
  intros Hsub. unfold record_matches. intros H. apply orb_prop in H.
  destruct H as [H|H].
  - now rewrite (includes_trans _ _ _ H Hsub).
  - destruct (profiles_roll_number r) as [n|]; [|discriminate].
    apply andb_prop in H. destruct H as [-> H].
    rewrite (includes_trans _ _ _ H Hsub). apply orb_true_r.
Qed.

(** X29. The search of the attendance view. With an empty search box every
    fetched record is listed, so the counts shown are those of the whole
    list. A longer search never brings back a record: when the lowered
    term contains the lowered former term, every record it lists was listed
    before. And a search only selects: the present count never exceeds the
    total, nor the total the number of fetched records. *)
Theorem search_only_narrows (attendanceRecords : list AttendanceRecord)
    (term term' : string) :
  toLowerCase EmptyString = EmptyString ->
  includes (toLowerCase term') (toLowerCase term) = true ->
  filteredRecords toLowerCase attendanceRecords EmptyString = attendanceRecords
  /\ (forall r, In r (filteredRecords toLowerCase attendanceRecords term') ->
                In r (filteredRecords toLowerCase attendanceRecords term))
  /\ (presentCount (filteredRecords toLowerCase attendanceRecords term)
      <= totalCount (filteredRecords toLowerCase attendanceRecords term)
      <= length attendanceRecords)%nat
  /\ (totalCount (filteredRecords toLowerCase attendanceRecords term')
      <= totalCount (filteredRecords toLowerCase attendanceRecords term))%nat.
Proof.
  intros Hempty Hsub. unfold filteredRecords, presentCount, totalCount.
  split; [|split; [|split]].
  - apply map_id_on_filter. intros r _. unfold record_matches.
    rewrite Hempty. destruct (toLowerCase (profiles_name r)); reflexivity.
  - intros r Hr. apply filter_In in Hr. destruct Hr as [Hin Hm].
    apply filter_In. split; [assumption|].
    now apply (record_matches_narrower term term').
  - split; apply filter_length_le.
  - induction attendanceRecords as [|r l IH]; simpl; [lia|].
    destruct (record_matches toLowerCase term' r) eqn:Hm.
    + rewrite (record_matches_narrower term term' r Hsub Hm). simpl. lia.
    + destruct (record_matches toLowerCase term r); simpl; lia.
Qed.

End SearchFacts.

Lemma search_only_narrows_witness :
  filteredRecords (fun s => s)
    [ mkAttendanceRecord "a1" "sa" true (Some qr) (Some 100) "asha" (Some "r-01"%string);
      mkAttendanceRecord "a3" "sb" true (Some qr) (Some 300) "bilal" None ] ""
  = [ mkAttendanceRecord "a1" "sa" true (Some qr) (Some 100) "asha" (Some "r-01"%string);
      mkAttendanceRecord "a3" "sb" true (Some qr) (Some 300) "bilal" None ].
Proof.
  exact (proj1 (search_only_narrows (fun s => s)
                  [ mkAttendanceRecord "a1" "sa" true (Some qr) (Some 100) "asha"
                      (Some "r-01"%string);
                    mkAttendanceRecord "a3" "sb" true (Some qr) (Some 300) "bilal" None ]
                  "sh" "asha" eq_refl eq_refl)).
Defined.

(** ** From the start of a session to the mark *)

(** X30. A started session can be scanned. After the teacher of a session
    dated today has started it with a code no other session carries, an
    enrolled student who has a profile and no record yet for the session,
    and whose list is fetched after the start, is marked present by
    scanning that code: the handler reports the mark and the record of the
    student for that session is in the table. *)
Theorem started_session_can_be_scanned (db : DB) (s : Session) (uid : uuid)
    (qrCode : string) (qrExpiresAt started now : timestamp) (newid : uuid)
    (today : string) :
  sessions_pkey db ->
  In s (sessions db) ->
  session_date s = today ->
  enrolled uid (class_id s) db = true ->
  (exists p, In p (profiles db) /\ user_id p = uid) ->
  (forall x, In x (sessions db) -> x <> s -> qr_code x <> Some qrCode) ->
  (forall r, In r (attendance db) -> att_id r <> newid) ->
  (forall r, In r (attendance db) -> session_id r = sess_id s -> student_id r <> uid) ->
  snd (handleQRScan
         {| profile_user_id := uid;
            todaySessions :=
              fetchTodaySessions uid today
                (fst (startSession (teacher_id s) (sess_id s) qrCode qrExpiresAt
                        started db));
            showQRScanner := true |}
         qrCode now newid today
         (fst (startSession (teacher_id s) (sess_id s) qrCode qrExpiresAt started db)))
  = Toast_AttendanceMarked
  /\ In {| att_id := newid; session_id := sess_id s; student_id := uid;
           is_present := true; method := Some qr; marked_at := Some now |}
        (attendance
           (fst (fst (handleQRScan
                        {| profile_user_id := uid;
                           todaySessions :=
                             fetchTodaySessions uid today
                               (fst (startSession (teacher_id s) (sess_id s) qrCode
                                       qrExpiresAt started db));
                           showQRScanner := true |}
                        qrCode now newid today
                        (fst (startSession (teacher_id s) (sess_id s) qrCode
                                qrExpiresAt started db)))))).
Proof.
  intros Hpk Hs Hdate Henr (p & Hp & Hpid) Hother Hfresh Hnew.
  set (db1 := fst (startSession (teacher_id s) (sess_id s) qrCode qrExpiresAt started db)).
  set (s1 := update_updated_at_column started (start_patch qrCode qrExpiresAt s)).
  assert (Hown : In s1 (sessions db1)).
  { simpl. now apply sessions_update_own_row. }
  assert (Hlisted : In s1 (fetchTodaySessions uid today db1)).
  { apply In_fetchTodaySessions_iff. split; [exact Hown|]. split; assumption. }
  assert (Hmatch : scan_matches qrCode s1 = true).
  { unfold scan_matches. simpl. now rewrite String.eqb_refl. }
  destruct (find (scan_matches qrCode) (fetchTodaySessions uid today db1))
    as [session|] eqn:Hfind.
  2:{ pose proof (find_none _ _ Hfind _ Hlisted) as Hno. congruence. }
  assert (Hsession : session = s1).
  { destruct (find_some _ _ Hfind) as [Hin Hm].
    apply In_fetchTodaySessions_iff in Hin. destruct Hin as (Hin & _ & _).
    simpl in Hin.
    destruct (sessions_update_rows _ _ _ _ _ Hpk Hs Hin) as [Heq|(Hin0 & Hne & _)];
      [exact Heq|].
    destruct (scan_matches_true _ _ Hm) as [Hcode _].
    now destruct (Hother session Hin0 Hne). }
  subst session.
  unfold handleQRScan. cbn [todaySessions profile_user_id]. rewrite Hfind.
  rewrite db_attendance_upsert_append.
  - split; [reflexivity|]. simpl. apply in_or_app. right. now left.
  - unfold may_write_attendance. simpl. now rewrite String.eqb_refl.
  - intros x Hx. unfold same_id. simpl. apply String.eqb_neq. intros Heq.
    exact (Hfresh x Hx (eq_sym Heq)).
  - intros x Hx. unfold same_pair. simpl. apply not_true_is_false. intros Hpair.
    apply andb_prop in Hpair. destruct Hpair as [H1 H2].
    apply String.eqb_eq in H1, H2. exact (Hnew x Hx (eq_sym H1) (eq_sym H2)).
  - apply existsb_exists. exists s1.
    split; [exact Hown|]. simpl. apply String.eqb_refl.
  - apply existsb_exists. exists p. split; [exact Hp|]. simpl.
    rewrite Hpid. apply String.eqb_refl.
Qed.

Lemma started_session_can_be_scanned_witness :
  snd (handleQRScan Classroom.sb1 "T1" 300 "a3" Classroom.today Classroom.db1)
  = Toast_AttendanceMarked
  /\ In {| att_id := "a3"; session_id := "s1"; student_id := "sb";
           is_present := true; method := Some qr; marked_at := Some 300 |}
        (attendance
           (fst (fst (handleQRScan Classroom.sb1 "T1" 300 "a3" Classroom.today
                        Classroom.db1)))).
Proof.
  apply (started_session_can_be_scanned Classroom.db0 Classroom.s1 "sb" "T1" 1800000 0
           300 "a3" Classroom.today).
  - repeat constructor. simpl. tauto.
  - simpl. now left.
  - reflexivity.
  - reflexivity.
  - exists (mkProfile "sb" "Bilal" (Some "R-02"%string) student). simpl. tauto.
  - simpl. intros x [<-|[]] Hne. now destruct Hne.
  - simpl. tauto.
  - simpl. tauto.
Defined.
